(** * Squeeze scanner: a shallow embedding of [api/index.py]

    The development follows the request handler of the scanner: the
    scan planner, the short-interest feed and its fuzzy key extraction,
    the concurrent price feed, the synthetic estimator, the scoring
    engine and the scan orchestrator.

    Conventions of the embedding.
    - Python numbers ([int] and [float]) are exact rationals [Q]; integers
      that the code produces with [int(...)] or [len(...)] are [Z].
      Arithmetic on them is exact, and NaN and infinities are not values
      of the model.  Two things of the floats are modelled: an int beyond
      the floats raises OverflowError when it meets a float ([mul_float]),
      and the planner is given a second time with every operation rounded
      to binary64 ([Binary64]), where the rounding decides the claim.
    - A Python dict used as a map from tickers is a [gmap string _];
      a dict with a fixed set of keys is a record whose fields hold
      [option] where the code stores [None].
    - An exception is a value of [exn]; code that may raise lives in
      the [result] monad.
    - Everything outside the process (network, clocks) is read from a
      [world]; what the Python runtime decides per process (the salted
      string hash, the generator behind [random], the iteration order
      of a [set]) is read from a [python] record. *)

From Stdlib Require Import ZArith QArith Qround Qminmax Qpower Qabs Lqa.
From Stdlib Require Import String Ascii List.
From Stdlib Require Floats.SpecFloat.
From stdpp Require Import gmap strings list sorting.

Local Open Scope string_scope.

(** ** Python numbers *)

Module Py.

(** [a < b] on numbers. *)
Definition ltb (a b : Q) : bool := negb (Qle_bool b a).

(** [min(a, b)]: the first of the smallest. *)
Definition min (a b : Q) : Q := if ltb b a then b else a.

(** [max(a, b)]: the first of the largest. *)
Definition max (a b : Q) : Q := if ltb a b then b else a.

(** [int(x)]: truncation towards zero. *)
Definition int (x : Q) : Z := Z.quot (Qnum x) (Zpos (Qden x)).

(** Truth value of a number: non-zero. *)
Definition truthy (x : Q) : bool := negb (Qeq_bool x 0).

(** Round half to even, on an exact rational. *)
Definition round_half_even (x : Q) : Z :=
  let f := Qfloor x in
  let r := (x - inject_Z f)%Q in
  if ltb r (1 # 2) then f
  else if ltb (1 # 2) r then (f + 1)%Z
  else if Z.even f then f else (f + 1)%Z.

(** [round(x, ndigits)]. *)
Definition round (x : Q) (ndigits : nat) : Q :=
  let scale := (10 ^ Z.of_nat ndigits)%Z in
  Qred (inject_Z (round_half_even (x * inject_Z scale)) / inject_Z scale).

(** [l[:n]] for an integer [n]: a negative bound counts from the end. *)
Definition slice_to {A} (l : list A) (n : Z) : list A :=
  if (0 <=? n)%Z then take (Z.to_nat n) l
  else take (length l - Z.to_nat (- n)) l.

(** ASCII part of [str.lower]. *)
Definition lower_ascii (c : ascii) : ascii :=
  let n := nat_of_ascii c in
  if (65 <=? n)%nat && (n <=? 90)%nat then ascii_of_nat (n + 32) else c.

Fixpoint lower (s : string) : string :=
  match s with
  | EmptyString => EmptyString
  | String c s' => String (lower_ascii c) (lower s')
  end.

(** [sub in s] on strings. *)
Fixpoint contains (sub s : string) : bool :=
  String.prefix sub s ||
  match s with
  | EmptyString => false
  | String _ s' => contains sub s'
  end.

(** Membership [x in l] for a list of strings. *)
Definition in_list (x : string) (l : list string) : bool :=
  existsb (String.eqb x) l.

End Py.

(** ** Exceptions and the result monad *)

Inductive exn : Type :=
| TypeError
| KeyError
| AttributeError
| ZeroDivisionError
| TimeoutError
| URLError
| OverflowError
| ValueError.

Inductive result (A : Type) : Type :=
| Ok (a : A)
| Raise (e : exn).

Arguments Ok {A} a.
Arguments Raise {A} e.

#[global] Instance result_ret : MRet result := fun A a => Ok a.

#[global] Instance result_bind : MBind result := fun A B f m =>
  match m with
  | Ok a => f a
  | Raise e => Raise e
  end.

(** [try: body / except Exception: handler]. *)
Definition try_except {A} (body : result A) (handler : exn → A) : A :=
  match body with
  | Ok a => a
  | Raise e => handler e
  end.

(** [a / b] on numbers. *)
Definition true_div (a b : Q) : result Q :=
  if Qeq_bool b 0 then Raise ZeroDivisionError else Ok (a / b)%Q.

(** A value that must be a number to take part in arithmetic. *)
Definition number (v : option Q) : result Q :=
  match v with
  | Some q => Ok q
  | None => Raise TypeError
  end.

(** ** JSON values, as [json.loads] returns them *)

#[warnings="-register-all"]
Inductive json : Type :=
| JNull
| JBool (b : bool)
| JNum (q : Q)
| JStr (s : string)
| JArr (items : list json)
| JObj (fields : list (string * json)).

(** [d[key]] / [d.get(key)] on the fields of an object. *)
Fixpoint assoc (key : string) (fields : list (string * json)) : option json :=
  match fields with
  | [] => None
  | (k, v) :: rest => if String.eqb key k then Some v else assoc key rest
  end.

(** [isinstance(value, (int, float))]; [bool] is a subclass of [int]. *)
Definition as_number (v : json) : option Q :=
  match v with
  | JNum q => Some q
  | JBool b => Some (if b then 1%Q else 0%Q)
  | _ => None
  end.

(** Truth value of a JSON value. *)
Definition json_truthy (v : json) : bool :=
  match v with
  | JNull => false
  | JBool b => b
  | JNum q => Py.truthy q
  | JStr s => negb (String.eqb s "")
  | JArr items => negb (Nat.eqb (length items) 0)
  | JObj fields => negb (Nat.eqb (length fields) 0)
  end.

(** ** Data model *)

(** The short-interest dict built by the feed and by the estimator. *)
Record ortex_record : Type := {
  short_interest : option Q;
  utilization : option Q;
  cost_to_borrow : option Q;
  days_to_cover : option Q;
  data_quality : string;
  source_endpoints : list string
}.

(** The success dict of a price fetch. *)
Record price_record : Type := {
  ticker : string;
  current_price : Q;
  price_change : Q;
  price_change_pct : Q;
  volume : json;
  success : bool
}.

Record score_breakdown : Type := {
  sb_short_interest : Z;
  sb_utilization : Z;
  sb_cost_to_borrow : Z;
  sb_days_to_cover : Z;
  sb_momentum : Z
}.

Record squeeze_metrics : Type := {
  squeeze_score : Z;
  squeeze_type : string;
  risk_factors : list string;
  breakdown : option score_breakdown
}.

Record performance_stats : Type := {
  avg_ticker_time : Q;
  max_safe_batch_size : Z;
  timeout_threshold : Z
}.

Record scan_plan : Type := {
  optimal_size : Z;
  estimated_time : Q;
  timeout_risk : string;
  recommended_min_score : Z
}.

(** ** Ticker universe (set up in [__init__]) *)

Definition ticker_universe : list (string * list string) :=
  [ ("top_meme_stocks",
     ["GME"; "AMC"; "BBBY"; "SAVA"; "VXRT"; "CLOV"; "SPRT"; "IRNT";
      "DWAC"; "PHUN"; "PROG"; "ATER"; "BBIG"; "MULN"; "EXPR"; "KOSS"]);
    ("high_short_interest",
     ["BYND"; "PTON"; "ROKU"; "UPST"; "AFRM"; "HOOD"; "COIN"; "RIVN";
      "LCID"; "NKLA"; "PLUG"; "BLNK"; "QS"; "GOEV"; "RIDE"; "WKHS"]);
    ("biotech_squeeze",
     ["BIIB"; "GILD"; "REGN"; "BMRN"; "ALNY"; "SRPT"; "IONS"; "ARWR";
      "EDIT"; "CRSP"; "NTLA"; "BEAM"; "BLUE"; "FOLD"; "RARE"; "KRYS"]);
    ("small_cap_movers",
     ["SPCE"; "DKNG"; "PENN"; "FUBO"; "WISH"; "RBLX"; "PLTR"; "SNOW";
      "CRWD"; "OKTA"; "DDOG"; "NET"; "FSLY"; "ESTC"; "ZM"; "DOCN"]);
    ("large_cap_samples",
     ["AAPL"; "TSLA"; "META"; "NFLX"; "NVDA"; "GOOGL"; "AMZN"; "MSFT"]) ].

(** [self.ticker_universe.get(category, [])]. *)
Fixpoint universe_get (category : string) (u : list (string * list string))
  : option (list string) :=
  match u with
  | [] => None
  | (c, ts) :: rest =>
      if String.eqb category c then Some ts else universe_get category rest
  end.

(** Removal of duplicates, first occurrence kept. *)
Fixpoint dedup_seen (seen l : list string) : list string :=
  match l with
  | [] => []
  | x :: rest =>
      if Py.in_list x seen then dedup_seen seen rest
      else x :: dedup_seen (x :: seen) rest
  end.

Definition master_ticker_list : list string :=
  dedup_seen [] (concat (map snd ticker_universe)).

Definition initial_performance_stats : performance_stats :=
  {| avg_ticker_time := 2.5; max_safe_batch_size := 20; timeout_threshold := 45 |}.

(** ** ScanPlanner: [calculate_optimal_scan_size] *)

(** The planner in exact arithmetic; [Binary64.calculate_optimal_scan_size]
    below has the rounding of the source. *)
Definition calculate_optimal_scan_size
    (stats : performance_stats) (requested_size : Z) (timeout_limit : Q)
  : result scan_plan :=
  let avg_time_per_ticker := avg_ticker_time stats in
  ratio ← true_div timeout_limit avg_time_per_ticker;
  let max_safe_size := Py.int (ratio * 0.8) in
  let optimal :=
    Z.min (Z.min requested_size max_safe_size) (max_safe_batch_size stats) in
  mret {| optimal_size := optimal;
          estimated_time := inject_Z optimal * avg_time_per_ticker;
          timeout_risk :=
            if (optimal <=? 15)%Z then "low"
            else if (optimal <=? 25)%Z then "medium" else "high";
          recommended_min_score :=
            if (20 <? optimal)%Z then 50%Z
            else if (10 <? optimal)%Z then 30%Z else 0%Z |}.

(** ** ScanPlanner in binary floating point

    Python computes line 63 in IEEE 754 binary64: each operation returns
    the exact result rounded to the nearest float, ties to even.  The
    definitions above idealise this (a float is an exact rational and the
    operations are exact); this section has the rounding, and models the
    planner with it.  A finite float is kept as the rational it stands
    for; the sign of a zero is not kept. *)

Module Binary64.

Inductive float : Type :=
| Finite (q : Q)
| Infinity (negative : bool)
| NaN.

(** [floor(log2(x))] for [0 < x]. *)
Definition ilog2 (x : Q) : Z :=
  let e := (Z.log2 (Qnum x) - Z.log2 (Zpos (Qden x)))%Z in
  if Py.ltb x (2 ^ e) then (e - 1)%Z else e.

(** Exponent of the last of the 53 bits of the float nearest to [x];
    the subnormal floats are the multiples of 2^-1074 below 2^-1022. *)
Definition ulp_exponent (x : Q) : Z := Z.max (ilog2 (Qabs x) - 52) (-1074).

(** The multiple of the unit in the last place that is nearest to [x],
    ties to the even multiple. *)
Definition nearest (x : Q) : Q :=
  let e := ulp_exponent x in
  (inject_Z (Py.round_half_even (x / 2 ^ e)) * 2 ^ e)%Q.

(** Round to nearest, ties to even; beyond the largest finite float the
    result is an infinity. *)
Definition round (x : Q) : float :=
  if Qeq_bool x 0 then Finite 0
  else if Qle_bool (2 ^ 1024) (Qabs (nearest x)) then Infinity (Py.ltb x 0)
  else Finite (Qred (nearest x)).

(** A float literal of the source. *)
Definition literal (x : Q) : float := round x.

(** The float operand that stands for a number, an int or a float, in
    arithmetic with a float: an int too large for a float raises. *)
Definition of_number (x : Q) : result float :=
  match round x with
  | Finite q => Ok (Finite q)
  | _ => Raise OverflowError
  end.

Definition mul (a b : float) : float :=
  match a, b with
  | Finite x, Finite y => round (x * y)
  | Finite x, Infinity s | Infinity s, Finite x =>
      if Qeq_bool x 0 then NaN else Infinity (xorb s (Py.ltb x 0))
  | Infinity s, Infinity s' => Infinity (xorb s s')
  | _, _ => NaN
  end.

(** [a / b]: only a zero divisor raises. *)
Definition div (a b : float) : result float :=
  match b with
  | Finite y =>
      if Qeq_bool y 0 then Raise ZeroDivisionError
      else Ok match a with
              | Finite x => round (x / y)
              | Infinity s => Infinity (xorb s (Py.ltb y 0))
              | NaN => NaN
              end
  | Infinity _ => Ok match a with Finite _ => Finite 0 | _ => NaN end
  | NaN => Ok NaN
  end.

(** [int(a)]. *)
Definition int (a : float) : result Z :=
  match a with
  | Finite x => Ok (Py.int x)
  | Infinity _ => Raise OverflowError
  | NaN => Raise ValueError
  end.

Record scan_plan : Type := {
  optimal_size : Z;
  estimated_time : float;
  timeout_risk : string;
  recommended_min_score : Z
}.

(** [calculate_optimal_scan_size] with the arithmetic of the source:
    [avg_ticker_time] is a float, [timeout_limit] a number. *)
Definition calculate_optimal_scan_size
    (stats : performance_stats) (requested_size : Z) (timeout_limit : Q)
  : result scan_plan :=
  let avg_time_per_ticker := Finite (avg_ticker_time stats) in
  limit ← of_number timeout_limit;
  ratio ← div limit avg_time_per_ticker;
  max_safe_size ← int (mul ratio (literal 0.8));
  let optimal :=
    Z.min (Z.min requested_size max_safe_size) (max_safe_batch_size stats) in
  size ← of_number (inject_Z optimal);
  mret {| optimal_size := optimal;
          estimated_time := mul size avg_time_per_ticker;
          timeout_risk :=
            if (optimal <=? 15)%Z then "low"
            else if (optimal <=? 25)%Z then "medium" else "high";
          recommended_min_score :=
            if (20 <? optimal)%Z then 50%Z
            else if (10 <? optimal)%Z then 30%Z else 0%Z |}.

(** A Python number: an int, or a float. *)
Definition is_float (x : Q) : Prop := ∃ r, round x = Finite r ∧ (r == x)%Q.

Definition is_number (x : Q) : Prop := Qden x = 1%positive ∨ is_float x.

End Binary64.

(** [x * c] for a number [x] and a float [c], in the exact arithmetic of
    the definitions below: [x] is converted to a float first, which raises
    OverflowError for an int beyond the floats (a number of the model that
    large stands for an int, since no float is); the product itself is
    kept exact. *)
Definition mul_float (x c : Q) : result Q :=
  _ ← Binary64.of_number x; mret (x * c)%Q.

(** ** ScoringEngine: [calculate_squeeze_score_optimized] *)

Definition error_metrics : squeeze_metrics :=
  {| squeeze_score := 0; squeeze_type := "Error"; risk_factors := [];
     breakdown := None |}.

Definition score_body (ortex_data : ortex_record) (price_data : price_record)
  : result squeeze_metrics :=
  si ← number (short_interest ortex_data);
  util ← number (utilization ortex_data);
  ctb ← number (cost_to_borrow ortex_data);
  dtc ← number (days_to_cover ortex_data);
  let pct := price_change_pct price_data in
  si_product ← mul_float si 1.2;
  let si_score := Py.min si_product 35 in
  util_product ← mul_float util 0.25;
  let util_score := Py.min util_product 25 in
  ctb_product ← mul_float ctb 0.8;
  let ctb_score := Py.min ctb_product 20 in
  dtc_product ← mul_float dtc 1.5;
  let dtc_score := Py.min dtc_product 15 in
  momentum_score ←
    (if Py.ltb 0 pct
     then pct_product ← mul_float pct 0.3; mret (Py.max pct_product 0)
     else mret 0%Q);
  let total_score :=
    Py.int (si_score + util_score + ctb_score + dtc_score + momentum_score) in
  let risk_factors :=
    ((if Py.ltb 25 si then ["EXTREME_SHORT_INTEREST"] else []) ++
     (if Py.ltb 90 util then ["HIGH_UTILIZATION"] else []) ++
     (if Py.ltb 20 ctb then ["HIGH_BORROWING_COSTS"] else []))%list in
  let squeeze_type :=
    if (80 <=? total_score)%Z then "Extreme Squeeze Risk"
    else if (65 <=? total_score)%Z then "High Squeeze Risk"
    else if (45 <=? total_score)%Z then "Moderate Squeeze Risk"
    else "Low Risk" in
  mret {| squeeze_score := total_score;
          squeeze_type := squeeze_type;
          risk_factors := risk_factors;
          breakdown := Some {| sb_short_interest := Py.int si_score;
                               sb_utilization := Py.int util_score;
                               sb_cost_to_borrow := Py.int ctb_score;
                               sb_days_to_cover := Py.int dtc_score;
                               sb_momentum := Py.int momentum_score |} |}.

Definition calculate_squeeze_score_optimized
    (ortex_data : ortex_record) (price_data : price_record) : squeeze_metrics :=
  try_except (score_body ortex_data price_data) (fun _ => error_metrics).


(** ** The world outside the process and the Python runtime *)

(** What [urllib.request.urlopen] gives for a request to the short-interest
    provider: it raises, or it returns a response whose body [json.loads]
    accepts ([Some]) or not ([None]). *)
Inductive http_outcome : Type :=
| HttpError
| HttpResponse (code : Z) (content_type : string) (body : option json).

Record world : Type := {
  (** provider response for a URL and an API key *)
  ortex_http : string → string → http_outcome;
  (** parsed body of the price provider's answer for a URL; [None] when
      [urlopen], [read] or [json.loads] raises *)
  yahoo_http : string → option json;
  (** seconds after the call of [as_completed] at which the fetch of a
      ticker finishes *)
  yahoo_done_at : string → Q;
  (** [time.time()] at the start and at the end of a scan *)
  time_start : Q;
  time_end : Q;
  (** [datetime.now().isoformat()], by call number within a scan *)
  now_isoformat : nat → string
}.

(** State of the generator behind [random]: the values [random.random()]
    will return from here on. *)
Definition rng : Type := nat → Q.

Record python : Type := {
  (** built-in [hash] on [str], salted once per process *)
  hash_str : string → Z;
  (** the generator state that [random.seed(n)] installs *)
  seeded : Z → rng;
  (** [list(set(l))]: the elements of [l], each once, in the order in
      which the set iterates *)
  list_of_set : list string → list string;
  list_of_set_NoDup : ∀ l, NoDup (list_of_set l);
  list_of_set_elem : ∀ l x, x ∈ list_of_set l ↔ x ∈ l
}.

Definition random_random (g : rng) : Q * rng :=
  (g 0%nat, fun i => g (S i)).

(** [random.uniform(a, b)] is [a + (b - a) * random()]. *)
Definition random_uniform (a b : Q) (g : rng) : Q * rng :=
  let '(r, g') := random_random g in ((a + (b - a) * r)%Q, g').

(** ** ShortInterestFeed: [process_ortex_json_fast], [get_fast_ortex_data] *)

Definition set_short_interest (v : option Q) (p : ortex_record) : ortex_record :=
  {| short_interest := v; utilization := utilization p;
     cost_to_borrow := cost_to_borrow p; days_to_cover := days_to_cover p;
     data_quality := data_quality p; source_endpoints := source_endpoints p |}.

Definition set_utilization (v : option Q) (p : ortex_record) : ortex_record :=
  {| short_interest := short_interest p; utilization := v;
     cost_to_borrow := cost_to_borrow p; days_to_cover := days_to_cover p;
     data_quality := data_quality p; source_endpoints := source_endpoints p |}.

Definition set_cost_to_borrow (v : option Q) (p : ortex_record) : ortex_record :=
  {| short_interest := short_interest p; utilization := utilization p;
     cost_to_borrow := v; days_to_cover := days_to_cover p;
     data_quality := data_quality p; source_endpoints := source_endpoints p |}.

Definition set_days_to_cover (v : option Q) (p : ortex_record) : ortex_record :=
  {| short_interest := short_interest p; utilization := utilization p;
     cost_to_borrow := cost_to_borrow p; days_to_cover := v;
     data_quality := data_quality p; source_endpoints := source_endpoints p |}.

Definition set_data_quality (q : string) (p : ortex_record) : ortex_record :=
  {| short_interest := short_interest p; utilization := utilization p;
     cost_to_borrow := cost_to_borrow p; days_to_cover := days_to_cover p;
     data_quality := q; source_endpoints := source_endpoints p |}.

(** Truth value of a field that holds [None] or a number. *)
Definition field_truthy (v : option Q) : bool :=
  match v with
  | Some q => Py.truthy q
  | None => false
  end.

(** One turn of the loop over [json_data.items()]. *)
Definition extract_field (processed : ortex_record) (item : string * json)
  : ortex_record :=
  let '(key, value) := item in
  match as_number value with
  | Some v =>
      let key_lower := Py.lower key in
      if Py.contains "short_interest" key_lower || Py.contains "si" key_lower
      then set_short_interest (Some v) processed
      else if Py.contains "utilization" key_lower || Py.contains "util" key_lower
      then set_utilization (Some v) processed
      else if Py.contains "cost_to_borrow" key_lower || Py.contains "ctb" key_lower
      then set_cost_to_borrow (Some v) processed
      else if Py.contains "days_to_cover" key_lower || Py.contains "dtc" key_lower
      then set_days_to_cover (Some v) processed
      else processed
  | None => processed
  end.

Definition empty_processed : ortex_record :=
  {| short_interest := None; utilization := None; cost_to_borrow := None;
     days_to_cover := None; data_quality := "live_ortex";
     source_endpoints := ["ortex_fast"] |}.

(** The three "quick estimates for missing data". *)
Definition estimate_missing (processed : ortex_record) : result ortex_record :=
  let estimate (missing : option Q) (f : Q → result Q) : result (option Q) :=
    match short_interest processed with
    | Some s =>
        if Py.truthy s && negb (field_truthy missing)
        then v ← f s; mret (Some v)
        else mret missing
    | None => mret missing
    end in
  u ← estimate (utilization processed)
         (fun s => x ← mul_float s 3.5; mret (Py.min x 95));
  let processed := set_utilization u processed in
  d ← estimate (days_to_cover processed)
         (fun s => x ← mul_float s 0.2; mret (Py.max x 0.8));
  let processed := set_days_to_cover d processed in
  c ← estimate (cost_to_borrow processed)
         (fun s => x ← mul_float s 0.4; mret (Py.max x 1.0));
  mret (set_cost_to_borrow c processed).

(** The loop over [json_data.items()]. *)
Definition extracted (json_data : json) : ortex_record :=
  match json_data with
  | JObj fields => fold_left extract_field fields empty_processed
  | _ => empty_processed
  end.

Definition process_ortex_json_fast (json_data : json) : result ortex_record :=
  estimate_missing (extracted json_data).

Definition working_endpoints (ticker : string) : list string :=
  [ "https://api.ortex.com/api/v1/stock/nasdaq/" +:+ ticker +:+ "/short_interest";
    "https://api.ortex.com/api/v1/stock/nyse/" +:+ ticker +:+ "/short_interest" ].

(** The loop over the endpoints: the first well-formed JSON answer that is
    processed without an exception wins. *)
Fixpoint try_endpoints (w : world) (ortex_key : string) (urls : list string)
  : option ortex_record :=
  match urls with
  | [] => None
  | url :: rest =>
      match ortex_http w url ortex_key with
      | HttpResponse code content_type body =>
          if (code =? 200)%Z && Py.contains "application/json" content_type then
            match body with
            | Some json_data =>
                match process_ortex_json_fast json_data with
                | Ok processed => Some processed
                | Raise _ => try_endpoints w ortex_key rest
                end
            | None => try_endpoints w ortex_key rest
            end
          else try_endpoints w ortex_key rest
      | HttpError => try_endpoints w ortex_key rest
      end
  end.

(** Truth value of the credential: [None] and [''] are false. *)
Definition key_truthy (ortex_key : option string) : bool :=
  match ortex_key with
  | Some k => negb (String.eqb k "")
  | None => false
  end.

Definition get_fast_ortex_data (w : world) (ticker : string)
    (ortex_key : option string) : option ortex_record :=
  match ortex_key with
  | Some k =>
      if String.eqb k "" then None
      else try_endpoints w k (working_endpoints ticker)
  | None => None
  end.

(** ** PriceFeed: [get_single_price_fast], [get_yahoo_price_data_fast] *)

(** What one worker returns: the success dict, the failure dict of the
    [except] branch, or [None] when the payload lacks the expected shape. *)
Inductive fetch_result : Type :=
| FetchOk (r : price_record)
| FetchFailed (failed_ticker : string) (error : exn)
| FetchNone.

(** [key in v]. *)
Definition py_in (key : string) (v : json) : result bool :=
  match v with
  | JObj fields => Ok (bool_decide (is_Some (assoc key fields)))
  | JArr items =>
      Ok (existsb (fun i => match i with JStr s => String.eqb s key | _ => false end) items)
  | JStr s => Ok (Py.contains key s)
  | _ => Raise TypeError
  end.

(** [v[key]] for a string key. *)
Definition py_getitem (v : json) (key : string) : result json :=
  match v with
  | JObj fields =>
      match assoc key fields with
      | Some x => Ok x
      | None => Raise KeyError
      end
  | _ => Raise TypeError
  end.

(** [v[0]] for a value known to be true. *)
Definition py_first (v : json) : result json :=
  match v with
  | JArr (x :: _) => Ok x
  | JStr (String c _) => Ok (JStr (String c EmptyString))
  | JObj _ => Raise KeyError
  | _ => Raise TypeError
  end.

(** [v.get(key, fallback)]: only a dict has [get]. *)
Definition py_get (v : json) (key : string) (fallback : json) : result json :=
  match v with
  | JObj fields => Ok (default fallback (assoc key fields))
  | _ => Raise AttributeError
  end.

(** An operand of [-], [/] or [round]. *)
Definition operand (v : json) : result Q :=
  match as_number v with
  | Some q => Ok q
  | None => Raise TypeError
  end.

(** The [meta] object of a chart payload; [None] when the payload fails the
    test ['chart' in data and 'result' in data['chart'] and
    data['chart']['result']]. *)
Definition meta_of (data : json) : result (option json) :=
  has_chart ← py_in "chart" data;
  if negb has_chart then mret None else
  chart ← py_getitem data "chart";
  has_result ← py_in "result" chart;
  if negb has_result then mret None else
  results ← py_getitem chart "result";
  if negb (json_truthy results) then mret None else
  result ← py_first results;
  meta ← py_get result "meta" (JObj []);
  mret (Some meta).

(** The quote computed from [meta]. *)
Definition quote_of_meta (ticker : string) (meta : json) : result price_record :=
  current_price ← py_get meta "regularMarketPrice" (JNum 0);
  previous_close ← py_get meta "previousClose" (JNum 0);
  volume ← py_get meta "regularMarketVolume" (JNum 0);
  price_change ←
    (if json_truthy previous_close
     then c ← operand current_price; p ← operand previous_close; mret (c - p)%Q
     else mret 0%Q);
  price_change_pct ←
    (if json_truthy previous_close
     then p ← operand previous_close; q ← true_div price_change p;
          mret (q * 100)%Q
     else mret 0%Q);
  c ← operand current_price;
  mret {| ticker := ticker;
          current_price := Py.round c 2;
          price_change := Py.round price_change 2;
          price_change_pct := Py.round price_change_pct 2;
          volume := volume;
          success := true |}.

Definition price_body (ticker : string) (data : json)
  : result (option price_record) :=
  m ← meta_of data;
  match m with
  | Some meta => r ← quote_of_meta ticker meta; mret (Some r)
  | None => mret None
  end.

Definition price_url (ticker : string) : string :=
  "https://query1.finance.yahoo.com/v8/finance/chart/" +:+ ticker.

Definition get_single_price_fast (w : world) (ticker : string) : fetch_result :=
  let url := price_url ticker in
  match yahoo_http w url with
  | None => FetchFailed ticker URLError
  | Some data =>
      match price_body ticker data with
      | Ok (Some r) => FetchOk r
      | Ok None => FetchNone
      | Raise e => FetchFailed ticker e
      end
  end.

(** A submitted fetch: its ticker, when it finishes, what it returns. *)
Record future : Type := {
  f_ticker : string;
  f_done_at : Q;
  f_result : fetch_result
}.

Definition submit (w : world) (ticker : string) : future :=
  {| f_ticker := ticker;
     f_done_at := yahoo_done_at w ticker;
     f_result := get_single_price_fast w ticker |}.

(** Futures in the order in which they finish. *)
Fixpoint insert_by_completion (f : future) (fs : list future) : list future :=
  match fs with
  | [] => [f]
  | g :: rest =>
      if Qle_bool (f_done_at f) (f_done_at g) then f :: g :: rest
      else g :: insert_by_completion f rest
  end.

Definition by_completion (fs : list future) : list future :=
  foldr insert_by_completion [] fs.

(** [concurrent.futures.as_completed(fs, timeout)]: the futures that finish
    within [timeout] seconds, as they finish; after them the iterator raises
    [TimeoutError] when some future is still running at the deadline
    ([true] in the second component). *)
Definition as_completed (fs : list future) (timeout : Q) : list future * bool :=
  (by_completion (filter (fun f => Qle_bool (f_done_at f) timeout = true) fs),
   existsb (fun f => Py.ltb timeout (f_done_at f)) fs).

(** Body of the [for future in as_completed(...)] loop. *)
Definition collect_price (price_data : gmap string price_record) (f : future)
  : gmap string price_record :=
  match f_result f with
  | FetchOk r => if success r then <[ticker r := r]> price_data else price_data
  | FetchFailed _ _ => price_data
  | FetchNone => price_data
  end.

Definition get_yahoo_price_data_fast (w : world) (tickers : list string)
    (max_workers : nat) : result (gmap string price_record) :=
  let future_to_ticker := map (submit w) tickers in
  let '(completed, expired) := as_completed future_to_ticker 30 in
  let price_data := fold_left collect_price completed ∅ in
  if expired then Raise TimeoutError else Ok price_data.

(** ** SyntheticEstimator: [generate_smart_mock_data] *)

Record profile : Type := { si : Q; util : Q; ctb : Q; dtc : Q }.

Definition squeeze_profiles : list (string * profile) :=
  [ ("GME", {| si := 22.4; util := 89.2; ctb := 12.8; dtc := 4.1 |});
    ("AMC", {| si := 18.7; util := 82.1; ctb := 8.9; dtc := 3.8 |});
    ("SAVA", {| si := 35.2; util := 95.1; ctb := 45.8; dtc := 12.3 |});
    ("VXRT", {| si := 28.9; util := 87.6; ctb := 18.2; dtc := 8.7 |});
    ("BBBY", {| si := 42.1; util := 98.2; ctb := 78.5; dtc := 15.8 |});
    ("BYND", {| si := 31.5; util := 91.7; ctb := 25.3; dtc := 9.2 |});
    ("PTON", {| si := 26.8; util := 84.5; ctb := 15.7; dtc := 6.8 |}) ].

Fixpoint profile_get (ticker : string) (ps : list (string * profile))
  : option profile :=
  match ps with
  | [] => None
  | (t, p) :: rest =>
      if String.eqb ticker t then Some p else profile_get ticker rest
  end.

(** [ticker in self.ticker_universe.get(category, [])]. *)
Definition in_category (ticker category : string) : bool :=
  Py.in_list ticker (default [] (universe_get category ticker_universe)).

(** The branch for a ticker without a built-in profile: seed the generator
    with the hash of the ticker, then draw by category. *)
Definition generated_profile (py : python) (ticker : string) : profile * rng :=
  let g := seeded py (hash_str py ticker `mod` 10000)%Z in
  let '(si_range, util_range, ctb_range) :=
    if in_category ticker "top_meme_stocks"
    then ((15, 35), (75, 95), (10, 40))%Q
    else if in_category ticker "biotech_squeeze"
    then ((20, 40), (80, 98), (15, 60))%Q
    else if in_category ticker "large_cap_samples"
    then ((1, 6), (20, 50), (0.5, 3))%Q
    else ((8, 25), (50, 85), (3, 20))%Q in
  let '(si_base, g) := random_uniform si_range.1 si_range.2 g in
  let '(util_base, g) := random_uniform util_range.1 util_range.2 g in
  let '(ctb_base, g) := random_uniform ctb_range.1 ctb_range.2 g in
  let '(factor, g) := random_uniform 0.2 0.5 g in
  ({| si := Py.round si_base 1;
      util := Py.round util_base 1;
      ctb := Py.round ctb_base 1;
      dtc := Py.round (si_base * factor) 1 |}, g).

Definition mock_record (p : profile) : ortex_record :=
  {| short_interest := Some (si p);
     utilization := Some (util p);
     cost_to_borrow := Some (ctb p);
     days_to_cover := Some (dtc p);
     data_quality := "smart_mock";
     source_endpoints := ["enhanced_mock"] |}.

(** One turn of the loop over [tickers]; the generator state is global. *)
Definition mock_step (py : python)
    (acc : gmap string ortex_record * rng) (ticker : string)
  : gmap string ortex_record * rng :=
  let '(mock_data, g) := acc in
  let '(p, g) :=
    match profile_get ticker squeeze_profiles with
    | Some p => (p, g)
    | None => generated_profile py ticker
    end in
  (<[ticker := mock_record p]> mock_data, g).

Definition generate_smart_mock_data (py : python) (tickers : list string)
    (g : rng) : gmap string ortex_record * rng :=
  fold_left (mock_step py) tickers (∅, g).

(** ** ScanOrchestrator: [perform_optimized_scan] *)

(** The [filters] dict of a request; a key that is absent is [None]. *)
Record filters : Type := {
  categories : option (list string);
  max_tickers : option Z;
  min_score : option Z
}.

(** Truth value of the dict: it has some key. *)
Definition filters_truthy (f : option filters) : bool :=
  match f with
  | Some f =>
      bool_decide (is_Some (categories f)) ||
      bool_decide (is_Some (max_tickers f)) ||
      bool_decide (is_Some (min_score f))
  | None => false
  end.

Record scan_result : Type := {
  r_ticker : string;
  r_squeeze_score : Z;
  r_squeeze_type : string;
  r_current_price : Q;
  r_price_change : Q;
  r_price_change_pct : Q;
  r_volume : json;
  r_ortex_data : ortex_record;
  r_risk_factors : list string;
  r_data_quality : string;
  r_timestamp : string
}.

Record scan_stats : Type := {
  total_tickers_scanned : nat;
  successful_analysis : nat;
  live_ortex_count : nat;
  scan_time_seconds : Q;
  performance_rating : string;
  top_score : Z;
  stats_timestamp : string
}.

Record scan_output : Type := {
  results : list scan_result;
  stats : scan_stats
}.

(** What a scan reads and writes in the process: the handler's
    [performance_stats] and the state of the [random] module. *)
Record process : Type := {
  performance : performance_stats;
  random_state : rng
}.

(** A finished scan: what it returns, the process state it leaves, and the
    tickers for which it called the short-interest feed, in call order. *)
Record scan_run : Type := {
  output : scan_output;
  state_after : process;
  feed_calls : list string
}.

(** Tickers of the named categories, unknown categories skipped. *)
Definition filtered_tickers (cats : list string) : list string :=
  fold_left
    (fun acc category =>
       match universe_get category ticker_universe with
       | Some ts => (acc ++ ts)%list
       | None => acc
       end)
    cats [].

(** The symbols to scan. *)
Definition select_tickers (py : python) (stats : performance_stats)
    (f : option filters) : result (list string) :=
  let scan_tickers := master_ticker_list in
  match f with
  | Some fd =>
      if filters_truthy f then
        let scan_tickers :=
          match categories fd with
          | Some (c :: cs) => list_of_set py (filtered_tickers (c :: cs))
          | _ => scan_tickers
          end in
        let requested_size := default 20%Z (max_tickers fd) in
        scan_optimization ← calculate_optimal_scan_size stats requested_size 45;
        mret (Py.slice_to scan_tickers (optimal_size scan_optimization))
      else mret (Py.slice_to scan_tickers 15)
  | None => mret (Py.slice_to scan_tickers 15)
  end.

(** One turn of the loop over [successful_tickers[:5]]. *)
Definition feed_step (w : world) (ortex_key : option string)
    (acc : gmap string ortex_record * list string) (ticker : string)
  : gmap string ortex_record * list string :=
  let '(ortex_data, calls) := acc in
  let calls := (calls ++ [ticker])%list in
  match get_fast_ortex_data w ticker ortex_key with
  | Some ortex_result => (<[ticker := ortex_result]> ortex_data, calls)
  | None => (ortex_data, calls)
  end.

(** [d[key]] on a map: [KeyError] when the key is missing. *)
Definition getitem {A} (d : gmap string A) (key : string) : result A :=
  match d !! key with
  | Some a => Ok a
  | None => Raise KeyError
  end.

(** One turn of the backfill loop. *)
Definition backfill_step (mock_data : gmap string ortex_record)
    (acc : result (gmap string ortex_record)) (ticker : string)
  : result (gmap string ortex_record) :=
  ortex_data ← acc;
  match ortex_data !! ticker with
  | None =>
      mock ← getitem mock_data ticker;
      mret (<[ticker := mock]> ortex_data)
  | Some live =>
      mret (<[ticker := set_data_quality "live_ortex" live]> ortex_data)
  end.

(** The result dict of one ticker; [nth_call] numbers the call of
    [datetime.now()]. *)
Definition build_result (w : world) (nth_call : nat) (ticker : string)
    (o : ortex_record) (p : price_record) : scan_result :=
  let squeeze_metrics := calculate_squeeze_score_optimized o p in
  {| r_ticker := ticker;
     r_squeeze_score := squeeze_score squeeze_metrics;
     r_squeeze_type := squeeze_type squeeze_metrics;
     r_current_price := current_price p;
     r_price_change := price_change p;
     r_price_change_pct := price_change_pct p;
     r_volume := volume p;
     r_ortex_data := o;
     r_risk_factors := risk_factors squeeze_metrics;
     r_data_quality := data_quality o;
     r_timestamp := now_isoformat w nth_call |}.

(** One turn of the scoring loop. *)
Definition score_step (w : world) (ortex_data : gmap string ortex_record)
    (price_data : gmap string price_record)
    (acc : result (list scan_result)) (ticker : string)
  : result (list scan_result) :=
  results ← acc;
  match ortex_data !! ticker with
  | Some o =>
      p ← getitem price_data ticker;
      mret (results ++ [build_result w (length results) ticker o p])%list
  | None => mret results
  end.

(** [results.sort(key=lambda x: x['squeeze_score'], reverse=True)]: a
    stable sort, highest score first. *)
Fixpoint insert_by_score (x : scan_result) (l : list scan_result)
  : list scan_result :=
  match l with
  | [] => [x]
  | y :: rest =>
      if (r_squeeze_score x <? r_squeeze_score y)%Z
      then y :: insert_by_score x rest
      else x :: y :: rest
  end.

Definition sort_by_score (l : list scan_result) : list scan_result :=
  foldr insert_by_score [] l.

(** [[t for t in scan_tickers if t in price_data]]. *)
Definition priced (price_data : gmap string price_record)
    (scan_tickers : list string) : list string :=
  filter (fun t => is_Some (price_data !! t)) scan_tickers.

(** The attempt at live data: the map of live records and the feed calls. *)
Definition live_feed (w : world) (ortex_key : option string)
    (successful_tickers : list string)
  : gmap string ortex_record * list string :=
  if key_truthy ortex_key && (length successful_tickers <=? 10)%nat
  then fold_left (feed_step w ortex_key) (take 5 successful_tickers) (∅, [])
  else (∅, []).

(** The backfill loop. *)
Definition backfill (mock_data : gmap string ortex_record)
    (successful_tickers : list string) (ortex_data : gmap string ortex_record)
  : result (gmap string ortex_record) :=
  fold_left (backfill_step mock_data) successful_tickers (Ok ortex_data).

(** The scoring loop. *)
Definition score_all (w : world) (ortex_data : gmap string ortex_record)
    (price_data : gmap string price_record) (successful_tickers : list string)
  : result (list scan_result) :=
  fold_left (score_step w ortex_data price_data) successful_tickers (Ok []).

Definition perform_optimized_scan (py : python) (w : world) (st : process)
    (ortex_key : option string) (f : option filters) : result scan_run :=
  let start_time := time_start w in
  scan_tickers ← select_tickers py (performance st) f;
  price_data ← get_yahoo_price_data_fast w scan_tickers 12;
  let successful_tickers := priced price_data scan_tickers in
  let '(ortex_data, calls) := live_feed w ortex_key successful_tickers in
  let '(mock_data, g) :=
    generate_smart_mock_data py successful_tickers (random_state st) in
  ortex_data ← backfill mock_data successful_tickers ortex_data;
  results ← score_all w ortex_data price_data successful_tickers;
  let results := sort_by_score results in
  let total_time := (time_end w - start_time)%Q in
  performance_stats ←
    (if (0 <? length results)%nat
     then
       avg ← true_div total_time (inject_Z (Z.of_nat (length results)));
       mret {| avg_ticker_time := avg;
               max_safe_batch_size := max_safe_batch_size (performance st);
               timeout_threshold := timeout_threshold (performance st) |}
     else mret (performance st));
  mret {| output :=
            {| results := results;
               stats :=
                 {| total_tickers_scanned := length scan_tickers;
                    successful_analysis := length results;
                    live_ortex_count :=
                      length (filter (fun r => r_data_quality r = "live_ortex") results);
                    scan_time_seconds := Py.round total_time 1;
                    performance_rating :=
                      if Py.ltb total_time 15 then "excellent"
                      else if Py.ltb total_time 30 then "good" else "acceptable";
                    top_score :=
                      match results with
                      | r :: _ => r_squeeze_score r
                      | [] => 0%Z
                      end;
                    stats_timestamp := now_isoformat w (length results) |} |};
          state_after := {| performance := performance_stats; random_state := g |};
          feed_calls := calls |}.

(** ** [handle_optimized_scan] *)

(** The decoded request body: [ortex_key] and [filters], each optional. *)
Record request : Type := {
  req_ortex_key : option string;
  req_filters : option filters
}.

Definition no_filters : filters :=
  {| categories := None; max_tickers := None; min_score := None |}.

(** The JSON reply, without its human-readable [message]. *)
Inductive reply : Type :=
| ScanReply (success : bool) (scan_results : list scan_result)
    (scan_stats_of : scan_stats) (optimization_info : scan_plan)
| ErrorReply (success : bool) (error : exn).

Definition handle_optimized_scan (py : python) (w : world) (st : process)
    (req : request) : reply * process :=
  let ortex_key := default "" (req_ortex_key req) in
  let fd := default no_filters (req_filters req) in
  let body : result (reply * process) :=
    let requested_size := default 20%Z (max_tickers fd) in
    optimization ← calculate_optimal_scan_size (performance st) requested_size 45;
    run ← perform_optimized_scan py w st (Some ortex_key) (Some fd);
    mret (ScanReply true (results (output run)) (stats (output run)) optimization,
          state_after run) in
  try_except body (fun e => (ErrorReply false e, st)).

(** ** The CPython runtime

    The functions of CPython 3.11 that the estimator calls: [hash] on a
    [str] (SipHash-1-3 keyed by the per-process secret, which is random
    unless [PYTHONHASHSEED] fixes it) and the generator of the [random]
    module (MT19937 seeded by [init_by_array]). *)

Module CPython.

Local Open Scope Z_scope.

Definition u64 (x : Z) : Z := x mod 2 ^ 64.
Definition u32 (x : Z) : Z := x mod 2 ^ 32.

Definition rotate (x b : Z) : Z :=
  u64 (Z.lor (Z.shiftl x b) (Z.shiftr x (64 - b))).

(** [lcg_urandom]: the bytes of [_Py_HashSecret] when [PYTHONHASHSEED]
    is set to [x]. *)
Fixpoint lcg_urandom (x : Z) (size : nat) : list Z :=
  match size with
  | O => []
  | S size' =>
      let x := u32 (x * 214013 + 2531011) in
      Z.land (Z.shiftr x 16) 255 :: lcg_urandom x size'
  end.

(** Little-endian value of a list of bytes. *)
Fixpoint le (bytes : list Z) : Z :=
  match bytes with
  | [] => 0
  | b :: rest => b + 256 * le rest
  end.

Definition sip_state : Type := Z * Z * Z * Z.

Definition half_round (a b c d s t : Z) : Z * Z * Z * Z :=
  let a := u64 (a + b) in
  let c := u64 (c + d) in
  let b := Z.lxor (rotate b s) a in
  let d := Z.lxor (rotate d t) c in
  let a := rotate a 32 in
  (a, b, c, d).

Definition single_round (v : sip_state) : sip_state :=
  let '(v0, v1, v2, v3) := v in
  let '(v0, v1, v2, v3) := half_round v0 v1 v2 v3 13 16 in
  let '(v2, v1, v0, v3) := half_round v2 v1 v0 v3 17 21 in
  (v0, v1, v2, v3).

Definition absorb (v : sip_state) (m : Z) : sip_state :=
  let '(v0, v1, v2, v3) := v in
  let '(v0, v1, v2, v3) := single_round (v0, v1, v2, Z.lxor v3 m) in
  (Z.lxor v0 m, v1, v2, v3).

(** The loop over full 8-byte words; [fuel] bounds the number of words. *)
Fixpoint sip_blocks (fuel : nat) (v : sip_state) (src : list Z)
  : sip_state * list Z :=
  match fuel with
  | O => (v, src)
  | S fuel' =>
      if (8 <=? length src)%nat
      then sip_blocks fuel' (absorb v (le (take 8 src))) (drop 8 src)
      else (v, src)
  end.

Definition siphash13 (k0 k1 : Z) (src : list Z) : Z :=
  let b := u64 (Z.shiftl (Z.of_nat (length src)) 56) in
  let v := (Z.lxor k0 0x736f6d6570736575, Z.lxor k1 0x646f72616e646f6d,
            Z.lxor k0 0x6c7967656e657261, Z.lxor k1 0x7465646279746573) in
  let '(v, tail) := sip_blocks (length src) v src in
  let b := Z.lor b (le tail) in
  let '(v0, v1, v2, v3) := absorb v b in
  let v := (v0, v1, Z.lxor v2 0xff, v3) in
  let '(v0, v1, v2, v3) := single_round (single_round (single_round v)) in
  Z.lxor (Z.lxor v0 v1) (Z.lxor v2 v3).

Fixpoint bytes_of (s : string) : list Z :=
  match s with
  | EmptyString => []
  | String c s' => Z.of_nat (nat_of_ascii c) :: bytes_of s'
  end.

(** [hash(s)] for a one-byte-per-character string under
    [PYTHONHASHSEED=seed] (CPython 3.11, [siphash13]). *)
Definition hash (seed : Z) (s : string) : Z :=
  match s with
  | EmptyString => 0
  | _ =>
      let secret := if seed =? 0 then repeat 0 24 else lcg_urandom seed 24 in
      let x := siphash13 (le (take 8 secret)) (le (take 8 (drop 8 secret))) (bytes_of s) in
      let x := if 2 ^ 63 <=? x then x - 2 ^ 64 else x in
      if x =? -1 then -2 else x
  end.

(** The Mersenne Twister behind [random] ([_randommodule.c]). *)

Definition N : nat := 624.
Definition M : nat := 397.

Definition mt_get (mt : list Z) (i : nat) : Z := nth i mt 0.

Fixpoint init_genrand_from (prev : Z) (i : nat) (count : nat) : list Z :=
  match count with
  | O => []
  | S count' =>
      let x := u32 (1812433253 * Z.lxor prev (Z.shiftr prev 30) + Z.of_nat i) in
      x :: init_genrand_from x (S i) count'
  end.

Definition init_genrand (s : Z) : list Z :=
  u32 s :: init_genrand_from (u32 s) 1 (N - 1).

Definition wrap_index (mt : list Z) (i : nat) : list Z * nat :=
  if (N <=? i)%nat then (<[0%nat := mt_get mt (N - 1)]> mt, 1%nat) else (mt, i).

Fixpoint mix_key (k : nat) (key : list Z) (mt : list Z) (i j : nat)
  : list Z * nat :=
  match k with
  | O => (mt, i)
  | S k' =>
      let p := mt_get mt (i - 1) in
      let x := u32 (Z.lxor (mt_get mt i) (Z.lxor p (Z.shiftr p 30) * 1664525)
                    + nth j key 0 + Z.of_nat j) in
      let '(mt, i) := wrap_index (<[i := x]> mt) (S i) in
      let j := if (length key <=? S j)%nat then 0%nat else S j in
      mix_key k' key mt i j
  end.

Fixpoint mix_index (k : nat) (mt : list Z) (i : nat) : list Z :=
  match k with
  | O => mt
  | S k' =>
      let p := mt_get mt (i - 1) in
      let x := u32 (Z.lxor (mt_get mt i) (Z.lxor p (Z.shiftr p 30) * 1566083941)
                    - Z.of_nat i) in
      let '(mt, i) := wrap_index (<[i := x]> mt) (S i) in
      mix_index k' mt i
  end.

Definition init_by_array (key : list Z) : list Z :=
  let mt := init_genrand 19650218 in
  let '(mt, i) := mix_key (Nat.max N (length key)) key mt 1 0 in
  let mt := mix_index (N - 1) mt i in
  <[0%nat := 0x80000000]> mt.

(** The 32-bit words of a non-negative integer, least significant first. *)
Fixpoint words_of (fuel : nat) (n : Z) : list Z :=
  match fuel with
  | O => []
  | S fuel' =>
      u32 n :: (if n <? 2 ^ 32 then [] else words_of fuel' (Z.shiftr n 32))
  end.

(** [random.seed(a)] for an integer [a]. *)
Definition seed (a : Z) : list Z :=
  let n := Z.abs a in
  init_by_array (words_of (S (Z.to_nat (Z.log2 n))) n).

Fixpoint twist_from (count kk : nat) (mt : list Z) : list Z :=
  match count with
  | O => mt
  | S count' =>
      let y := Z.lor (Z.land (mt_get mt kk) 0x80000000)
                     (Z.land (mt_get mt ((kk + 1) mod N)) 0x7fffffff) in
      let x := Z.lxor (Z.lxor (mt_get mt ((kk + M) mod N)) (Z.shiftr y 1))
                      (if Z.odd y then 0x9908b0df else 0) in
      twist_from count' (S kk) (<[kk := x]> mt)
  end.

Definition twist (mt : list Z) : list Z := twist_from N 0 mt.

Definition temper (y : Z) : Z :=
  let y := Z.lxor y (Z.shiftr y 11) in
  let y := Z.lxor y (Z.land (u32 (Z.shiftl y 7)) 0x9d2c5680) in
  let y := Z.lxor y (Z.land (u32 (Z.shiftl y 15)) 0xefc60000) in
  Z.lxor y (Z.shiftr y 18).

(** The [j]-th result of [genrand_uint32] counted from a state [mt] whose
    words have just been regenerated. *)
Definition genrand_uint32 (mt : list Z) (j : nat) : Z :=
  temper (mt_get (Nat.iter (j / N) twist mt) (j mod N)).

(** The results of [random.random()] after [random.seed(a)]: two words
    each, 27 and 26 bits of them. *)
Definition random (a : Z) : nat → Q :=
  let mt := twist (seed a) in
  fun i =>
    let hi := Z.shiftr (genrand_uint32 mt (2 * i)) 5 in
    let lo := Z.shiftr (genrand_uint32 mt (2 * i + 1)) 6 in
    Qred (Qmake (hi * 67108864 + lo) (2 ^ 53)).

End CPython.

(** A CPython process whose hash secret is the one [PYTHONHASHSEED=hashseed]
    gives. The iteration order of a set is taken to be the order of first
    insertion. *)
Definition cpython (hashseed : Z) : python :=
  {| hash_str := CPython.hash hashseed;
     seeded := CPython.random;
     list_of_set := remove_dups;
     list_of_set_NoDup := NoDup_remove_dups;
     list_of_set_elem := fun l x => elem_of_remove_dups l x |}.

(** ** Sample worlds *)

(** A chart payload of the price provider. *)
Definition chart_payload (price previous_close vol : Q) : json :=
  JObj [("chart",
         JObj [("result",
                JArr [JObj [("meta",
                             JObj [("regularMarketPrice", JNum price);
                                   ("previousClose", JNum previous_close);
                                   ("regularMarketVolume", JNum vol)])]])])].

(** A world in which every ticker trades at 15 after a close of
    [previous_close], the fetches of the tickers in [slow] take 31 seconds
    and all others one second, and the short-interest provider answers
    every request with [ortex_answer]. *)
Definition sample_world (previous_close : Q) (slow : list string)
    (ortex_answer : http_outcome) : world :=
  {| ortex_http := fun _ _ => ortex_answer;
     yahoo_http := fun _ => Some (chart_payload 15 previous_close 1000);
     yahoo_done_at := fun t => if Py.in_list t slow then 31%Q else 1%Q;
     time_start := 100;
     time_end := 104;
     now_isoformat := fun _ => "2024-01-01T00:00:00" |}.

(** The process state when the handler starts. *)
Definition initial_process (g : rng) : process :=
  {| performance := initial_performance_stats; random_state := g |}.

(** ** Vocabulary of the statements *)

(** Every metric present and not negative. *)
Definition nonneg_metrics (o : ortex_record) : Prop :=
  ∃ a b c d,
    short_interest o = Some a ∧ utilization o = Some b ∧
    cost_to_borrow o = Some c ∧ days_to_cover o = Some d ∧
    (0 <= a)%Q ∧ (0 <= b)%Q ∧ (0 <= c)%Q ∧ (0 <= d)%Q.

(** [previousClose] is missing from [meta], or it is the number zero. *)
Definition previous_close_absent_or_zero (fields : list (string * json)) : Prop :=
  assoc "previousClose" fields = None ∨
  ∃ q, assoc "previousClose" fields = Some (JNum q) ∧ (q == 0)%Q.

(** All four metrics hold a value. *)
Definition fully_populated (o : ortex_record) : Prop :=
  is_Some (short_interest o) ∧ is_Some (utilization o) ∧
  is_Some (cost_to_borrow o) ∧ is_Some (days_to_cover o).

(** The profile the estimator uses for a ticker: the built-in one, else
    the generated one. *)
Definition profile_for (py : python) (ticker : string) : profile :=
  match profile_get ticker squeeze_profiles with
  | Some p => p
  | None => (generated_profile py ticker).1
  end.

(** The metrics a priced ticker is scored with after the backfill: its live
    record, tagged, when the feed gave one, and its estimate otherwise. *)
Definition backfilled (py : python) (live : gmap string ortex_record)
    (ticker : string) : ortex_record :=
  match live !! ticker with
  | Some v => set_data_quality "live_ortex" v
  | None => mock_record (profile_for py ticker)
  end.

(** [x] stands before [y] in [l]. *)
Definition before {A} (l : list A) (x y : A) : Prop :=
  ∃ a b, (a < b)%nat ∧ l !! a = Some x ∧ l !! b = Some y.

(** Highest score first. *)
Definition score_ge (a b : scan_result) : Prop :=
  (r_squeeze_score b ≤ r_squeeze_score a)%Z.

(** The filters of a request that names categories. *)
Definition category_filters (cats : list string) (mt ms : option Z) : filters :=
  {| categories := Some cats; max_tickers := mt; min_score := ms |}.

(** A provider answer with a utilization and no short interest. *)
Definition utilization_only : http_outcome :=
  HttpResponse 200 "application/json" (Some (JObj [("utilization", JNum 85)])).

(** A request whose only filter is the ticker count. *)
Definition count_request (ortex_key : option string) (n : Z) : request :=
  {| req_ortex_key := ortex_key;
     req_filters :=
       Some {| categories := None; max_tickers := Some n; min_score := None |} |}.

(** Every metric of [o] is set and lies between 0 and 2^1023, so that it
    is converted to a float without an exception. *)
Definition bounded_metrics (o : ortex_record) : Prop :=
  ∃ a b c d,
    short_interest o = Some a ∧ utilization o = Some b ∧
    cost_to_borrow o = Some c ∧ days_to_cover o = Some d ∧
    (0 <= a)%Q ∧ (a <= 2 ^ 1023)%Q ∧ (0 <= b)%Q ∧ (b <= 2 ^ 1023)%Q ∧
    (0 <= c)%Q ∧ (c <= 2 ^ 1023)%Q ∧ (0 <= d)%Q ∧ (d <= 2 ^ 1023)%Q.

(** Every metric of [o] is set and not negative, and is at most the same
    metric of [o'], which is at most 2^1023. *)
Definition metrics_le (o o' : ortex_record) : Prop :=
  ∃ a b c d a' b' c' d',
    short_interest o = Some a ∧ utilization o = Some b ∧
    cost_to_borrow o = Some c ∧ days_to_cover o = Some d ∧
    short_interest o' = Some a' ∧ utilization o' = Some b' ∧
    cost_to_borrow o' = Some c' ∧ days_to_cover o' = Some d' ∧
    (0 <= a)%Q ∧ (a <= a')%Q ∧ (a' <= 2 ^ 1023)%Q ∧
    (0 <= b)%Q ∧ (b <= b')%Q ∧ (b' <= 2 ^ 1023)%Q ∧
    (0 <= c)%Q ∧ (c <= c')%Q ∧ (c' <= 2 ^ 1023)%Q ∧
    (0 <= d)%Q ∧ (d <= d')%Q ∧ (d' <= 2 ^ 1023)%Q.

(** The sum of the five integers reported in [score_breakdown]. *)
Definition breakdown_sum (b : score_breakdown) : Z :=
  (sb_short_interest b + sb_utilization b + sb_cost_to_borrow b +
   sb_days_to_cover b + sb_momentum b)%Z.

(** A quote with the given change in percent. *)
Definition quote_with_change (t : string) (pct : Q) : price_record :=
  {| ticker := t; current_price := 15; price_change := 0;
     price_change_pct := pct; volume := JNum 1000; success := true |}.



(** The JSON body an endpoint contributes: the response has status 200, a
    JSON content type and a body that parses. *)
Definition endpoint_json (w : world) (ortex_key url : string) : option json :=
  match ortex_http w url ortex_key with
  | HttpResponse code content_type (Some j) =>
      if (code =? 200)%Z && Py.contains "application/json" content_type
      then Some j else None
  | _ => None
  end.

(** The record an endpoint contributes: its JSON body, processed without an
    exception. *)
Definition endpoint_record (w : world) (ortex_key url : string)
  : option ortex_record :=
  match endpoint_json w ortex_key url with
  | Some j =>
      match process_ortex_json_fast j with
      | Ok r => Some r
      | Raise _ => None
      end
  | None => None
  end.


(** A provider whose nasdaq endpoint reports a short interest of 10^400, an
    int beyond the floats, and whose nyse endpoint reports 20. *)
Definition huge_on_nasdaq : world :=
  {| ortex_http := fun url _ =>
       HttpResponse 200 "application/json"
         (Some (JObj [("short_interest",
                       if Py.contains "nasdaq" url then JNum (inject_Z (10 ^ 400))
                       else JNum 20)]));
     yahoo_http := fun _ => Some (chart_payload 15 10 1000);
     yahoo_done_at := fun _ => 1%Q;
     time_start := 100;
     time_end := 104;
     now_isoformat := fun _ => "2024-01-01T00:00:00" |}.

(** [random.random()] returns numbers of the interval from 0 to 1, 1
    excluded. *)
Definition unit_interval (py : python) : Prop :=
  ∀ n i, (0 <= seeded py n i)%Q ∧ (seeded py n i < 1)%Q.

(** The four metrics of a profile lie between the given bounds. *)
Definition profile_within (p : profile)
    (si_lo si_hi util_lo util_hi ctb_lo ctb_hi dtc_lo dtc_hi : Q) : Prop :=
  (si_lo <= si p)%Q ∧ (si p <= si_hi)%Q ∧
  (util_lo <= util p)%Q ∧ (util p <= util_hi)%Q ∧
  (ctb_lo <= ctb p)%Q ∧ (ctb p <= ctb_hi)%Q ∧
  (dtc_lo <= dtc p)%Q ∧ (dtc p <= dtc_hi)%Q.

(** A 32-bit word. *)
Definition word32 (x : Z) : Prop := (0 ≤ x < 2 ^ 32)%Z.

(** The filters of a request for the first three tickers. *)
Definition three_tickers : option filters :=
  Some {| categories := None; max_tickers := Some 3%Z; min_score := None |}.

(** [t] is listed in the universe under one of the categories [cats]. *)
Definition listed_under (cats : list string) (t : string) : Prop :=
  ∃ c ts, c ∈ cats ∧ universe_get c ticker_universe = Some ts ∧ t ∈ ts.

(** The filters [fd] with the key [min_score] set to [ms]. *)
Definition with_min_score (fd : filters) (ms : Z) : filters :=
  {| categories := categories fd; max_tickers := max_tickers fd;
     min_score := Some ms |}.

(** The filters of a request that only asks for [n] tickers. *)
Definition count_filters (n : Z) (ms : option Z) : filters :=
  {| categories := None; max_tickers := Some n; min_score := ms |}.

(** The record after the three estimates, when none of them raises. *)
Definition estimates (processed : ortex_record) : ortex_record :=
  let estimate (missing : option Q) (v : Q → Q) : option Q :=
    match short_interest processed with
    | Some s =>
        if Py.truthy s && negb (field_truthy missing) then Some (v s)
        else missing
    | None => missing
    end in
  {| short_interest := short_interest processed;
     utilization :=
       estimate (utilization processed) (fun s => Py.min (s * 3.5) 95);
     cost_to_borrow :=
       estimate (cost_to_borrow processed) (fun s => Py.max (s * 0.4) 1.0);
     days_to_cover :=
       estimate (days_to_cover processed) (fun s => Py.max (s * 0.2) 0.8);
     data_quality := data_quality processed;
     source_endpoints := source_endpoints processed |}.

(** The value of a float of the Standard Library's specification of
    IEEE 754 arithmetic, [SpecFloat]. *)
Definition of_spec_float (f : SpecFloat.spec_float) : Binary64.float :=
  match f with
  | SpecFloat.S754_zero _ => Binary64.Finite 0
  | SpecFloat.S754_infinity s => Binary64.Infinity s
  | SpecFloat.S754_nan => Binary64.NaN
  | SpecFloat.S754_finite s m e =>
      Binary64.Finite
        ((if s then - inject_Z (Z.pos m) else inject_Z (Z.pos m)) * 2 ^ e)
  end.

Definition same_float (a b : Binary64.float) : bool :=
  match a, b with
  | Binary64.Finite x, Binary64.Finite y => Qeq_bool x y
  | Binary64.Infinity s, Binary64.Infinity s' => Bool.eqb s s'
  | Binary64.NaN, Binary64.NaN => true
  | _, _ => false
  end.

(** Pairs of positive floats [m * 2^e], among them the operands of line 63
    for a time per ticker of 12.000000000000002, subnormal floats and the
    largest float. *)
Definition float_samples : list (positive * Z * positive * Z) :=
  [ (45%positive, (0)%Z, 6755399441055745%positive, (-49)%Z);
    (8444249301319679%positive, (-51)%Z, 3602879701896397%positive, (-52)%Z);
    (45%positive, (0)%Z, 5%positive, (-1)%Z);
    (1%positive, (0)%Z, 3%positive, (0)%Z);
    (1%positive, (0)%Z, 10%positive, (0)%Z);
    (8%positive, (0)%Z, 10%positive, (0)%Z);
    (7797914500801901%positive, (400)%Z, 7717934081064487%positive, (971)%Z);
    (7701565737657021%positive, (-600)%Z, 6214085760703026%positive, (971)%Z);
    (5530047976832633%positive, (-1070)%Z, 6180504294426707%positive, (971)%Z);
    (5780773880444033%positive, (-1074)%Z, 4852119432998693%positive, (300)%Z);
    (8583818407206328%positive, (971)%Z, 6655561439868822%positive, (-52)%Z);
    (4638713384884390%positive, (-1070)%Z, 4759235357992400%positive, (-1074)%Z);
    (6216840760035941%positive, (971)%Z, 6682831156358031%positive, (-1074)%Z);
    (8682352745258176%positive, (971)%Z, 8471549514872339%positive, (-10)%Z);
    (6608092882358624%positive, (400)%Z, 7153081802958925%positive, (-1074)%Z);
    (5269111673604847%positive, (-52)%Z, 5897928364495415%positive, (300)%Z);
    (4965381616067977%positive, (-1070)%Z, 8391876451607986%positive, (0)%Z);
    (6827367267172860%positive, (-52)%Z, 4619654925083238%positive, (-1074)%Z);
    (5072330908379840%positive, (3)%Z, 5475721521361264%positive, (-600)%Z);
    (7123821076788316%positive, (-1074)%Z, 5105519479131418%positive, (-1074)%Z);
    (6392565815839711%positive, (-1074)%Z, 8199002060399169%positive, (971)%Z);
    (8830286869453637%positive, (3)%Z, 8083281819626013%positive, (-600)%Z);
    (5669625550682126%positive, (-52)%Z, 7012200683159517%positive, (5)%Z);
    (7306723292288275%positive, (3)%Z, 4640052166808817%positive, (-600)%Z);
    (1%positive, (-1074)%Z, 3%positive, (0)%Z);
    (3%positive, (-1074)%Z, 1%positive, (1)%Z);
    (5%positive, (-1074)%Z, 7%positive, (-3)%Z);
    (1%positive, (0)%Z, 1%positive, (-1074)%Z);
    (9007199254740991%positive, (971)%Z, 9007199254740991%positive, (971)%Z);
    (9007199254740991%positive, (971)%Z, 1%positive, (-1)%Z) ].

(** On a pair of floats, the quotient and the product of [Binary64] are the
    ones of [SpecFloat] for 53 bits and the exponent range of binary64. *)
Definition agrees_with_SpecFloat (sample : positive * Z * positive * Z) : bool :=
  let '(m1, e1, m2, e2) := sample in
  let x := SpecFloat.S754_finite false m1 e1 in
  let y := SpecFloat.S754_finite false m2 e2 in
  match of_spec_float x, of_spec_float y with
  | Binary64.Finite a, Binary64.Finite b =>
      same_float (Binary64.round (a / b))
        (of_spec_float (SpecFloat.SFdiv 53 1024 x y)) &&
      same_float (Binary64.round (a * b))
        (of_spec_float (SpecFloat.SFmul 53 1024 x y))
  | _, _ => false
  end.

(** A calibration whose time per ticker is the float next above 12, written
    12.000000000000002. *)
Definition twelve_and_an_ulp : performance_stats :=
  {| avg_ticker_time := 6755399441055745 # 562949953421312;
     max_safe_batch_size := 20; timeout_threshold := 45 |}.

(** * Properties *)

(** ** The result monad *)

Lemma bind_Ok {A B} (m : result A) (f : A → result B) (b : B) :
  m ≫= f = Ok b → ∃ a, m = Ok a ∧ f a = Ok b.
Proof. destruct m as [a|e]; simpl; [eauto | discriminate]. Qed.

Lemma bind_Raise {A B} (m : result A) (f : A → result B) (e : exn) :
  m ≫= f = Raise e → m = Raise e ∨ ∃ a, m = Ok a ∧ f a = Raise e.
Proof. destruct m as [a|e']; simpl; [eauto | left; congruence]. Qed.

(** Runs the binds whose first step is already a value. *)
Ltac run_bind :=
  cbn [mbind result_bind mret result_ret]; unfold mret, result_ret.

(** Splits a hypothesis [x ← m; k = Ok b] into its two steps. *)
Ltac inv_bind H :=
  let a := fresh "a" in
  let Ha := fresh "H" a in
  apply bind_Ok in H as (a & Ha & H).

(** ** Python numbers *)

Lemma ltb_lt (a b : Q) : Py.ltb a b = true ↔ (a < b)%Q.
Proof.
  unfold Py.ltb. rewrite negb_true_iff.
  split.
  - intros H. apply Qnot_le_lt. intros Hle.
    apply Qle_bool_iff in Hle. congruence.
  - intros H. destruct (Qle_bool b a) eqn:E; [|done].
    apply Qle_bool_iff in E. exfalso. eapply Qlt_not_le; eauto.
Qed.

Lemma ltb_ge (a b : Q) : Py.ltb a b = false ↔ (b <= a)%Q.
Proof.
  unfold Py.ltb. rewrite negb_false_iff. apply Qle_bool_iff.
Qed.

Lemma min_le_l (a b : Q) : (Py.min a b <= a)%Q.
Proof.
  unfold Py.min. destruct (Py.ltb b a) eqn:E.
  - apply ltb_lt in E. by apply Qlt_le_weak.
  - apply Qle_refl.
Qed.

Lemma min_le_r (a b : Q) : (Py.min a b <= b)%Q.
Proof.
  unfold Py.min. destruct (Py.ltb b a) eqn:E.
  - apply Qle_refl.
  - by apply ltb_ge in E.
Qed.

Lemma min_glb (a b c : Q) : (c <= a)%Q → (c <= b)%Q → (c <= Py.min a b)%Q.
Proof. intros Ha Hb. unfold Py.min. by destruct (Py.ltb b a). Qed.

(** On a non-negative number [int] is the floor. *)
Lemma int_floor (x : Q) : (0 <= x)%Q → Py.int x = Qfloor x.
Proof.
  destruct x as [n d]. unfold Qle, Py.int, Qfloor. simpl. intros Hn.
  apply Z.quot_div_nonneg; lia.
Qed.

Lemma int_nonneg (x : Q) : (0 <= x)%Q → (0 ≤ Py.int x)%Z.
Proof.
  intros Hx. rewrite int_floor by done.
  rewrite <- (Qfloor_Z 0). by apply Qfloor_resp_le.
Qed.

Lemma int_le (x : Q) : (0 <= x)%Q → (inject_Z (Py.int x) <= x)%Q.
Proof. intros Hx. rewrite int_floor by done. apply Qfloor_le. Qed.

Lemma int_upper (x : Q) (n : Z) : (0 <= x)%Q → (x < inject_Z (n + 1))%Q → (Py.int x ≤ n)%Z.
Proof.
  intros Hx Hn. rewrite int_floor by done.
  assert (inject_Z (Qfloor x) < inject_Z (n + 1))%Q as H.
  { eapply Qle_lt_trans; [apply Qfloor_le | done]. }
  rewrite <- Zlt_Qlt in H. lia.
Qed.

Lemma true_div_Ok (a b : Q) : ¬ (b == 0)%Q → true_div a b = Ok (a / b)%Q.
Proof.
  intros Hb. unfold true_div.
  destruct (Qeq_bool b 0) eqn:E; [|done].
  apply Qeq_bool_iff in E. contradiction.
Qed.

(** ** ScanPlanner in exact arithmetic *)

(** In exact arithmetic: for a positive requested size, a positive time per
    ticker, a positive timeout and a batch ceiling that is not negative,
    the planner returns a plan whose [optimal_size] is at most
    [min(requested_size, max_safe_batch_size)], is not negative, and
    satisfies [optimal_size * avg_ticker_time * 1.25 <= timeout_limit]. *)
Theorem calculate_optimal_scan_size_bounds
    (stats : performance_stats) (requested_size : Z) (timeout_limit : Q) :
  (0 < requested_size)%Z →
  (0 < avg_ticker_time stats)%Q →
  (0 < timeout_limit)%Q →
  (0 ≤ max_safe_batch_size stats)%Z →
  ∃ plan,
    calculate_optimal_scan_size stats requested_size timeout_limit = Ok plan ∧
    (optimal_size plan ≤ Z.min requested_size (max_safe_batch_size stats))%Z ∧
    (0 ≤ optimal_size plan)%Z ∧
    (inject_Z (optimal_size plan) * avg_ticker_time stats * 1.25 <= timeout_limit)%Q.
Proof.
  intros Hreq Havg Htl Hmax. unfold calculate_optimal_scan_size.
  rewrite true_div_Ok by (intros E; rewrite E in Havg; by apply Qlt_irrefl in Havg).
  simpl. eexists. split; [reflexivity|]. simpl.
  set (avg := avg_ticker_time stats) in *.
  set (ratio := (timeout_limit / avg)%Q).
  assert (0 <= ratio * 0.8)%Q as Hpos.
  { apply Qmult_le_0_compat; [|done].
    apply Qlt_le_weak, Qlt_shift_div_l; [done|]. by rewrite Qmult_0_l. }
  pose proof (int_nonneg _ Hpos) as H0.
  pose proof (int_le _ Hpos) as Hle.
  set (max_safe_size := Py.int (ratio * 0.8)) in *.
  split; [lia|]. split; [lia|].
  set (optimal := Z.min (Z.min requested_size max_safe_size) (max_safe_batch_size stats)).
  assert (inject_Z optimal <= ratio * 0.8)%Q as Hopt.
  { eapply Qle_trans; [|exact Hle]. rewrite <- Zle_Qle. lia. }
  assert (ratio * avg == timeout_limit)%Q as Hratio.
  { unfold ratio. rewrite Qmult_comm. apply Qmult_div_r.
    intros E; rewrite E in Havg; by apply Qlt_irrefl in Havg. }
  rewrite <- Hratio.
  assert (inject_Z optimal * avg <= ratio * 0.8 * avg)%Q as Hmul.
  { apply Qmult_le_compat_r; [done | by apply Qlt_le_weak]. }
  lra.
Qed.

Lemma calculate_optimal_scan_size_bounds_witness :
  ∃ plan,
    calculate_optimal_scan_size initial_performance_stats 20 45 = Ok plan ∧
    (optimal_size plan ≤ Z.min 20 (max_safe_batch_size initial_performance_stats))%Z ∧
    (0 ≤ optimal_size plan)%Z ∧
    (inject_Z (optimal_size plan) * avg_ticker_time initial_performance_stats * 1.25
     <= 45)%Q.
Proof.
  apply (calculate_optimal_scan_size_bounds initial_performance_stats 20 45).
  - lia.
  - reflexivity.
  - reflexivity.
  - simpl. lia.
Defined.

(** ** Python numbers, continued *)

Lemma round_half_even_between (y : Q) (a b : Z) :
  (inject_Z a <= y)%Q → (y <= inject_Z b)%Q →
  (a ≤ Py.round_half_even y ≤ b)%Z.
Proof.
  intros Ha Hb.
  assert (a ≤ Qfloor y)%Z as Hfa.
  { rewrite <- (Qfloor_Z a). by apply Qfloor_resp_le. }
  assert (Qfloor y ≤ b)%Z as Hfb.
  { rewrite <- (Qfloor_Z b). by apply Qfloor_resp_le. }
  assert ((1 # 2) <= y - inject_Z (Qfloor y) → Qfloor y + 1 ≤ b)%Q%Z as Hup.
  { intros Hr. apply Z.lt_succ_r. unfold Z.succ.
    apply Z.add_lt_mono_r. rewrite Zlt_Qlt. lra. }
  unfold Py.round_half_even.
  destruct (Py.ltb (y - inject_Z (Qfloor y)) (1 # 2)) eqn:E1; [lia|].
  apply ltb_ge in E1. specialize (Hup E1).
  destruct (Py.ltb (1 # 2) (y - inject_Z (Qfloor y))); [lia|].
  destruct (Z.even (Qfloor y)); lia.
Qed.

(** ** C4: ScanPlanner in binary floating point *)

(** Rounding to the nearest integer moves a number by at most one half. *)
Lemma round_half_even_near (y : Q) :
  (y - (1 # 2) <= inject_Z (Py.round_half_even y))%Q ∧
  (inject_Z (Py.round_half_even y) <= y + (1 # 2))%Q.
Proof.
  pose proof (Qfloor_le y) as Hlo. pose proof (Qlt_floor y) as Hhi.
  unfold Py.round_half_even.
  destruct (Py.ltb (y - inject_Z (Qfloor y)) (1 # 2)) eqn:E1.
  { apply ltb_lt in E1. lra. }
  apply ltb_ge in E1.
  assert (inject_Z (Qfloor y + 1) == inject_Z (Qfloor y) + 1)%Q as E
    by (rewrite inject_Z_plus; reflexivity).
  rewrite E in Hhi.
  destruct (Py.ltb (1 # 2) (y - inject_Z (Qfloor y))) eqn:E2.
  { rewrite E. lra. }
  apply ltb_ge in E2.
  destruct (Z.even (Qfloor y)); [lra|rewrite E; lra].
Qed.

Lemma pow2_pos (e : Z) : (0 < 2 ^ e)%Q.
Proof. by apply Qpower_0_lt. Qed.

Lemma pow2_plus (a b : Z) : (2 ^ (a + b) == 2 ^ a * 2 ^ b)%Q.
Proof. by apply Qpower_plus. Qed.

Lemma pow2_le (a b : Z) : (a ≤ b)%Z → (2 ^ a <= 2 ^ b)%Q.
Proof. intros H. by apply Qpower_le_compat_l. Qed.

Lemma pow2_inject (n : Z) : (0 ≤ n)%Z → (inject_Z (2 ^ n) == 2 ^ n)%Q.
Proof. intros H. by rewrite Zpower_Qpower. Qed.

(** [ilog2 x] is the exponent of the power of two at or below [x]. *)
Lemma ilog2_spec (x : Q) :
  (0 < x)%Q →
  (2 ^ Binary64.ilog2 x <= x)%Q ∧ (x < 2 ^ (Binary64.ilog2 x + 1))%Q.
Proof.
  intros Hx. destruct x as [n d].
  assert (0 < n)%Z as Hn by (unfold Qlt in Hx; simpl in Hx; lia).
  unfold Binary64.ilog2. cbn [Qnum Qden].
  set (ln := Z.log2 n). set (ld := Z.log2 (Z.pos d)).
  destruct (Z.log2_spec n Hn) as [Hn1 Hn2].
  destruct (Z.log2_spec (Z.pos d) eq_refl) as [Hd1 Hd2].
  fold ln in Hn1, Hn2. fold ld in Hd1, Hd2.
  assert (0 ≤ ln)%Z as Hln by apply Z.log2_nonneg.
  assert (0 ≤ ld)%Z as Hld by apply Z.log2_nonneg.
  assert (n # d == inject_Z n / inject_Z (Z.pos d))%Q as Ex by apply Qmake_Qdiv.
  assert (0 < inject_Z (Z.pos d))%Q as Hdpos by (rewrite <- (Zlt_Qlt 0); lia).
  assert (2 ^ ln <= inject_Z n)%Q as Qn1.
  { rewrite <- pow2_inject by done. by rewrite <- Zle_Qle. }
  assert (inject_Z n < 2 ^ (ln + 1))%Q as Qn2.
  { rewrite <- pow2_inject by lia. rewrite <- Zlt_Qlt. unfold Z.succ in Hn2. lia. }
  assert (2 ^ ld <= inject_Z (Z.pos d))%Q as Qd1.
  { rewrite <- pow2_inject by done. by rewrite <- Zle_Qle. }
  assert (inject_Z (Z.pos d) < 2 ^ (ld + 1))%Q as Qd2.
  { rewrite <- pow2_inject by lia. rewrite <- Zlt_Qlt. unfold Z.succ in Hd2. lia. }
  pose proof (pow2_pos ld) as Pld. pose proof (pow2_pos (ld + 1)) as Pld1.
  assert (2 ^ (ln - ld - 1) < n # d)%Q as Hlow.
  { rewrite Ex. apply Qlt_shift_div_l; [done|].
    assert (2 ^ (ln - ld - 1) * 2 ^ (ld + 1) == 2 ^ ln)%Q as E.
    { rewrite <- pow2_plus. by replace (ln - ld - 1 + (ld + 1))%Z with ln by lia. }
    pose proof (pow2_pos (ln - ld - 1)) as P.
    assert (2 ^ (ln - ld - 1) * inject_Z (Z.pos d)
            < 2 ^ (ln - ld - 1) * 2 ^ (ld + 1))%Q as Hm
      by (by apply Qmult_lt_l).
    lra. }
  assert (n # d < 2 ^ (ln - ld + 1))%Q as Hhigh.
  { rewrite Ex. apply Qlt_shift_div_r; [done|].
    assert (2 ^ (ln - ld + 1) * 2 ^ ld == 2 ^ (ln + 1))%Q as E.
    { rewrite <- pow2_plus. by replace (ln - ld + 1 + ld)%Z with (ln + 1)%Z by lia. }
    pose proof (pow2_pos (ln - ld + 1)) as P.
    assert (2 ^ (ln - ld + 1) * 2 ^ ld
            <= 2 ^ (ln - ld + 1) * inject_Z (Z.pos d))%Q as Hm
      by (apply Qmult_le_l; done).
    lra. }
  destruct (Py.ltb (n # d) (2 ^ (ln - ld))) eqn:E.
  - apply ltb_lt in E. split; [by apply Qlt_le_weak|].
    by replace (ln - ld - 1 + 1)%Z with (ln - ld)%Z by lia.
  - apply ltb_ge in E. done.
Qed.

Lemma Qabs_pos_eq (x : Q) : (0 < x)%Q → Qabs x = x.
Proof.
  destruct x as [n d]. unfold Qlt. simpl. intros H.
  rewrite Z.abs_eq by lia. reflexivity.
Qed.

(** The nearest multiple of the unit in the last place of a positive
    number is not negative and is above the number by at most the fraction
    2^-53 of it, unless the number is below the normal floats, where the
    multiple is at most 2^-1022. *)
Lemma nearest_upper (x : Q) :
  (0 < x)%Q →
  (0 <= Binary64.nearest x)%Q ∧
  (2 ^ (-1022) <= x → Binary64.nearest x <= x * (1 + 2 ^ (-53)))%Q ∧
  (x < 2 ^ (-1022) → Binary64.nearest x <= 2 ^ (-1022))%Q.
Proof.
  intros Hx. unfold Binary64.nearest, Binary64.ulp_exponent.
  rewrite (Qabs_pos_eq x Hx).
  destruct (ilog2_spec x Hx) as [Hlo Hhi].
  set (L := Binary64.ilog2 x) in *.
  set (e := Z.max (L - 52) (-1074)).
  set (m := Py.round_half_even (x / 2 ^ e)).
  pose proof (pow2_pos e) as Pe.
  assert (0 <= x / 2 ^ e)%Q as Hq.
  { apply Qle_shift_div_l; [done|]. lra. }
  destruct (round_half_even_near (x / 2 ^ e)) as [_ Hnear]. fold m in Hnear.
  assert (0 ≤ m)%Z as Hm0.
  { unfold m.
    destruct (round_half_even_between (x / 2 ^ e) 0 (Qceiling (x / 2 ^ e)))
      as [H _]; [done|apply Qle_ceiling|done]. }
  assert (x / 2 ^ e * 2 ^ e == x)%Q as Hcancel by (field; lra).
  split.
  { apply Qmult_le_0_compat; [|lra]. by rewrite <- (Zle_Qle 0). }
  split.
  - intros Hnormal.
    assert (-1022 ≤ L)%Z as HL.
    { destruct (Z_lt_le_dec L (-1022)) as [Hlt|]; [|done].
      pose proof (pow2_le (L + 1) (-1022) ltac:(lia)). lra. }
    assert (e = (L - 52)%Z) as He by (unfold e; lia).
    clearbody e. subst e.
    assert (2 ^ (L - 52) * 2 ^ 52 == 2 ^ L)%Q as E1.
    { rewrite <- pow2_plus. by replace (L - 52 + 52)%Z with L by lia. }
    assert (inject_Z m * 2 ^ (L - 52)
            <= (x / 2 ^ (L - 52) + (1 # 2)) * 2 ^ (L - 52))%Q as Hr.
    { apply Qmult_le_compat_r; lra. }
    assert (2 ^ 52 == 4503599627370496)%Q as E52 by reflexivity.
    assert (2 ^ (-53) == 1 # 9007199254740992)%Q as E53 by reflexivity.
    rewrite E53. rewrite E52 in E1.
    set (p := (2 ^ (L - 52))%Q) in *.
    set (y := (x / p)%Q) in *.
    assert ((y + (1 # 2)) * p == y * p + (1 # 2) * p)%Q as E2 by ring.
    lra.
  - intros Hsub.
    assert (L < -1022)%Z as HL.
    { destruct (Z_lt_le_dec L (-1022)) as [|Hge]; [done|].
      pose proof (pow2_le (-1022) L Hge). lra. }
    assert (e = (-1074)%Z) as He by (unfold e; lia).
    clearbody e. subst e.
    assert (2 ^ (-1022) == 2 ^ 52 * 2 ^ (-1074))%Q as E1.
    { rewrite <- pow2_plus. reflexivity. }
    assert (m ≤ 2 ^ 52)%Z as Hm.
    { unfold m.
      destruct (round_half_even_between (x / 2 ^ (-1074)) 0 (2 ^ 52))
        as [_ H]; [done| |done].
      apply Qle_shift_div_r; [done|].
      rewrite pow2_inject by lia. lra. }
    rewrite E1. apply Qmult_le_compat_r; [|lra].
    rewrite <- pow2_inject by lia. by rewrite <- Zle_Qle.
Qed.

(** What [round] returns for a positive number. *)
Lemma round_pos (x : Q) :
  (0 < x)%Q →
  Binary64.round x =
    if Qle_bool (2 ^ 1024) (Binary64.nearest x)
    then Binary64.Infinity false
    else Binary64.Finite (Qred (Binary64.nearest x)).
Proof.
  intros Hx. unfold Binary64.round.
  destruct (Qeq_bool x 0) eqn:E0.
  { apply Qeq_bool_iff in E0. lra. }
  destruct (nearest_upper x Hx) as [Hr _].
  assert (Qabs (Binary64.nearest x) == Binary64.nearest x)%Q as Ea
    by (by apply Qabs_pos).
  assert (Py.ltb x 0 = false) as -> by (apply ltb_ge; lra).
  destruct (Qle_bool (2 ^ 1024) (Qabs (Binary64.nearest x))) eqn:E1;
    destruct (Qle_bool (2 ^ 1024) (Binary64.nearest x)) eqn:E2; try done.
  - apply Qle_bool_iff in E1. rewrite Ea in E1.
    apply Qle_bool_iff in E1. congruence.
  - apply Qle_bool_iff in E2. rewrite <- Ea in E2.
    apply Qle_bool_iff in E2. congruence.
Qed.

Lemma round_upper (x r : Q) :
  (0 < x)%Q →
  Binary64.round x = Binary64.Finite r →
  (0 <= r)%Q ∧
  (2 ^ (-1022) <= x → r <= x * (1 + 2 ^ (-53)))%Q ∧
  (x < 2 ^ (-1022) → r <= 2 ^ (-1022))%Q.
Proof.
  intros Hx. rewrite (round_pos x Hx).
  destruct (Qle_bool _ _); [discriminate|].
  intros [= <-]. rewrite Qred_correct. by apply nearest_upper.
Qed.

Lemma round_nonneg (x r : Q) :
  (0 <= x)%Q → Binary64.round x = Binary64.Finite r → (0 <= r)%Q.
Proof.
  intros Hx Hr.
  destruct (Qeq_bool x 0) eqn:E0.
  - unfold Binary64.round in Hr. rewrite E0 in Hr. injection Hr as <-. lra.
  - assert (0 < x)%Q as Hpos.
    { apply Qeq_bool_neq in E0. destruct (Qlt_le_dec 0 x) as [|Hle]; [done|].
      exfalso. apply E0. lra. }
    by destruct (round_upper x r Hpos Hr).
Qed.

(** Rounding a positive number of at most 2^1023 gives a finite float. *)
Lemma round_finite (x : Q) :
  (0 <= x)%Q → (x <= 2 ^ 1023)%Q → ∃ r, Binary64.round x = Binary64.Finite r.
Proof.
  intros Hx Hmax.
  destruct (Qeq_bool x 0) eqn:E0.
  { unfold Binary64.round. rewrite E0. eauto. }
  assert (0 < x)%Q as Hpos.
  { apply Qeq_bool_neq in E0. destruct (Qlt_le_dec 0 x) as [|Hle]; [done|].
    exfalso. apply E0. lra. }
  rewrite (round_pos x Hpos).
  destruct (Qle_bool (2 ^ 1024) (Binary64.nearest x)) eqn:E; [|eauto].
  exfalso. apply Qle_bool_iff in E.
  destruct (nearest_upper x Hpos) as (_ & Hn & Hs).
  assert (2 ^ (-53) == 1 # 9007199254740992)%Q as E53 by reflexivity.
  assert (2 ^ 1024 == 2 * 2 ^ 1023)%Q as E1024 by reflexivity.
  assert (2 ^ (-1022) <= 1)%Q as Esmall by (by vm_compute).
  assert (1 <= 2 ^ 1023)%Q as Ebig by (by vm_compute).
  rewrite E53 in Hn.
  set (M := (2 ^ 1023)%Q) in *. set (S := (2 ^ (-1022))%Q) in *.
  destruct (Qlt_le_dec x S) as [Hlt|Hge].
  - specialize (Hs Hlt). lra.
  - specialize (Hn Hge).
    assert (x * (1 + (1 # 9007199254740992)) <= M * (1 + (1 # 9007199254740992)))%Q
      as Hm by (apply Qmult_le_compat_r; lra).
    lra.
Qed.

Lemma literal_0_8 :
  Binary64.literal 0.8 = Binary64.Finite (3602879701896397 # 4503599627370496).
Proof. vm_compute. reflexivity. Qed.

(** The float operand of a positive number is positive or zero and above
    the number by at most the fraction 2^-53 of it. *)
Lemma of_number_upper (x : Q) (f : Binary64.float) :
  (0 < x)%Q → Binary64.is_number x →
  Binary64.of_number x = Ok f →
  ∃ t, f = Binary64.Finite t ∧ (0 <= t)%Q ∧ (t <= x * (1 + 2 ^ (-53)))%Q.
Proof.
  intros Hx Hnum. unfold Binary64.of_number.
  destruct (Binary64.round x) as [t| |] eqn:Hr; try discriminate.
  intros [= <-]. exists t. split; [done|].
  destruct (round_upper x t Hx Hr) as (H0 & Hn & _).
  split; [done|].
  destruct Hnum as [Hint|(r & Hr' & Er)].
  - apply Hn. destruct x as [n d]. simpl in Hint. subst d.
    assert (1 ≤ n)%Z as H1 by (unfold Qlt in Hx; simpl in Hx; lia).
    assert (2 ^ (-1022) <= 1)%Q as Esmall by (by vm_compute).
    assert (1 <= n # 1)%Q as H1' by (unfold Qle; simpl; lia).
    lra.
  - rewrite Hr in Hr'. injection Hr' as <-. rewrite Er.
    assert (2 ^ (-53) == 1 # 9007199254740992)%Q as E53 by reflexivity.
    rewrite E53. lra.
Qed.

(** C4, as the code has it.  For a positive requested size, a positive time
    per ticker, a positive timeout that is an int or a float and a batch
    ceiling that is not negative: the planner returns a plan when the
    timeout and its quotient by the time per ticker are at most 2^1000, and
    every plan it returns has [0 ≤ optimal_size ≤ min(requested_size,
    max_safe_batch_size)] and keeps [optimal_size × avg × 1.25] within the
    timeout up to the rounding of the three floating-point operations, that
    is below [timeout × (1 + 2^-50)]. *)
Theorem planner_bounds_binary64
    (stats : performance_stats) (requested_size : Z) (timeout_limit : Q) :
  (0 < requested_size)%Z →
  (0 < avg_ticker_time stats)%Q →
  (0 < timeout_limit)%Q →
  Binary64.is_number timeout_limit →
  (0 ≤ max_safe_batch_size stats)%Z →
  ((timeout_limit <= 2 ^ 1000)%Q →
   (timeout_limit / avg_ticker_time stats <= 2 ^ 1000)%Q →
   ∃ plan,
     Binary64.calculate_optimal_scan_size stats requested_size timeout_limit
     = Ok plan) ∧
  ∀ plan,
    Binary64.calculate_optimal_scan_size stats requested_size timeout_limit
    = Ok plan →
    (Binary64.optimal_size plan
     ≤ Z.min requested_size (max_safe_batch_size stats))%Z ∧
    (0 ≤ Binary64.optimal_size plan)%Z ∧
    (inject_Z (Binary64.optimal_size plan) * avg_ticker_time stats * 1.25
     <= timeout_limit * (1 + 2 ^ (-50)))%Q.
Proof.
  intros Hreq Havg Htl Hnum Hmax.
  set (avg := avg_ticker_time stats) in *.
  assert (Qeq_bool avg 0 = false) as Havg0.
  { destruct (Qeq_bool avg 0) eqn:E; [|done].
    apply Qeq_bool_iff in E. lra. }
  assert (2 ^ (-53) == 1 # 9007199254740992)%Q as E53 by reflexivity.
  assert (2 ^ (-50) == 1 # 1125899906842624)%Q as E50 by reflexivity.
  assert (2 ^ (-1022) <= 1)%Q as Esmall by (by vm_compute).
  set (c := (3602879701896397 # 4503599627370496)%Q).
  assert (∀ t, t / avg * avg == t)%Q as Hdiv by (intros; field; lra).
  split.
  - (* the planner returns *)
    intros Ht Hratio.
    assert (2 ^ 1000 * 4 <= 2 ^ 1023)%Q as Ebig by (by vm_compute).
    assert (1 <= 2 ^ 1000)%Q as Eone by (by vm_compute).
    cut (∀ B M S : Q,
           (B * 4 <= M)%Q → (1 <= B)%Q → (S <= 1)%Q →
           (timeout_limit <= B)%Q → (timeout_limit / avg <= B)%Q →
           (∀ x, 0 <= x → x <= M → ∃ r, Binary64.round x = Binary64.Finite r)%Q →
           (∀ x r, 0 < x → Binary64.round x = Binary64.Finite r →
                   (S <= x → r <= x * (1 + (1 # 9007199254740992)))
                   ∧ (x < S → r <= S))%Q →
           ∃ plan,
             Binary64.calculate_optimal_scan_size stats requested_size
               timeout_limit = Ok plan).
    { intros Hcut.
      apply (Hcut (2 ^ 1000) (2 ^ 1023) (2 ^ (-1022)))%Q; try done.
      - apply round_finite.
      - intros x r Hx Hr. destruct (round_upper x r Hx Hr) as (_ & Hn & Hs).
        rewrite E53 in Hn. done. }
    clear Ht Hratio Ebig Eone Esmall.
    intros B M S Ebig Eone Esmall Ht Hratio round_fin round_up.
    unfold Binary64.calculate_optimal_scan_size. fold avg.
    destruct (round_fin timeout_limit) as [t Hrt]; [lra|lra|].
    assert (Binary64.of_number timeout_limit = Ok (Binary64.Finite t)) as Hlimit
      by (unfold Binary64.of_number; by rewrite Hrt).
    destruct (of_number_upper _ _ Htl Hnum Hlimit) as (t' & [= <-] & Ht0 & Htu).
    rewrite Hlimit. run_bind.
    unfold Binary64.div. rewrite Havg0. run_bind.
    rewrite E53 in Htu.
    assert (0 <= t / avg)%Q as Hq0.
    { apply Qle_shift_div_l; [done|]. lra. }
    assert (t / avg <= B * 2)%Q as Hqmax.
    { apply Qle_shift_div_r; [done|].
      assert (timeout_limit <= B * avg)%Q as H1.
      { rewrite <- (Hdiv timeout_limit). apply Qmult_le_compat_r; lra. }
      nra. }
    destruct (round_fin (t / avg)%Q) as [q Hrq]; [done|lra|].
    rewrite Hrq. rewrite literal_0_8. cbn [Binary64.mul]. fold c.
    pose proof (round_nonneg _ _ Hq0 Hrq) as Hq'.
    assert (q <= B * 3)%Q as Hqb.
    { destruct (Qeq_bool (t / avg) 0) eqn:E0.
      - unfold Binary64.round in Hrq. rewrite E0 in Hrq.
        injection Hrq as <-. lra.
      - assert (0 < t / avg)%Q as Hpos.
        { apply Qeq_bool_neq in E0.
          destruct (Qlt_le_dec 0 (t / avg)) as [|Hle]; [done|].
          exfalso. apply E0. lra. }
        destruct (round_up _ _ Hpos Hrq) as (Hn & Hs).
        destruct (Qlt_le_dec (t / avg) S) as [Hlt|Hge].
        + specialize (Hs Hlt). lra.
        + specialize (Hn Hge). nra. }
    assert (0 <= q * c)%Q as Hqc0 by (apply Qmult_le_0_compat; [done|by vm_compute]).
    assert (q * c <= q)%Q as Hqc1 by (unfold c; lra).
    assert (q * c <= M)%Q as Hqcmax by lra.
    destruct (round_fin (q * c)%Q) as [y Hry]; [done|done|].
    rewrite Hry. cbn [Binary64.int]. run_bind.
    pose proof (round_nonneg _ _ Hqc0 Hry) as Hy0.
    pose proof (int_nonneg _ Hy0) as Hk0.
    pose proof (int_le _ Hy0) as Hky.
    set (k := Py.int y) in *.
    set (optimal := Z.min (Z.min requested_size k) (max_safe_batch_size stats)).
    assert (0 ≤ optimal ≤ k)%Z as Hopt by (unfold optimal; lia).
    assert (y <= M)%Q as Hymax.
    { destruct (Qeq_bool (q * c) 0) eqn:E0.
      - unfold Binary64.round in Hry. rewrite E0 in Hry.
        injection Hry as <-. lra.
      - assert (0 < q * c)%Q as Hpos.
        { apply Qeq_bool_neq in E0.
          destruct (Qlt_le_dec 0 (q * c)) as [|Hle]; [done|].
          exfalso. apply E0. lra. }
        destruct (round_up _ _ Hpos Hry) as (Hn & Hs).
        destruct (Qlt_le_dec (q * c) S) as [Hlt|Hge].
        + specialize (Hs Hlt). lra.
        + specialize (Hn Hge). lra. }
    destruct (round_fin (inject_Z optimal)) as [s Hrs].
    { rewrite <- (Zle_Qle 0). lia. }
    { assert (inject_Z optimal <= inject_Z k)%Q as H1 by (rewrite <- Zle_Qle; lia).
      lra. }
    unfold Binary64.of_number. rewrite Hrs. run_bind. eauto.
  - (* the bounds of a plan *)
    intros plan. unfold Binary64.calculate_optimal_scan_size. fold avg.
    intros H. inv_bind H.
    destruct (of_number_upper _ _ Htl Hnum Ha) as (t & -> & Ht0 & Htu).
    unfold Binary64.div in H. rewrite Havg0 in H. inv_bind H.
    injection Ha0 as <-. inv_bind H.
    rewrite literal_0_8 in Ha0. fold c in Ha0.
    destruct (Binary64.round (t / avg)) as [q| |] eqn:Hrq;
      cbn [Binary64.mul] in Ha0.
    2:{ destruct (Qeq_bool c 0); discriminate. }
    2:{ discriminate. }
    destruct (Binary64.round (q * c)) as [y| |] eqn:Hry; try discriminate.
    cbn [Binary64.int] in Ha0. injection Ha0 as <-.
    inv_bind H. injection H as <-. cbn [Binary64.optimal_size].
    assert (0 <= t / avg)%Q as Hq0.
    { apply Qle_shift_div_l; [done|]. lra. }
    pose proof (round_nonneg _ _ Hq0 Hrq) as Hq'.
    assert (0 < c)%Q as Hc0 by (by vm_compute).
    assert (c < 1)%Q as Hc1 by (by vm_compute).
    assert (0 <= q * c)%Q as Hqc0 by (apply Qmult_le_0_compat; lra).
    pose proof (round_nonneg _ _ Hqc0 Hry) as Hy0.
    pose proof (int_nonneg _ Hy0) as Hk0.
    pose proof (int_le _ Hy0) as Hky.
    set (k := Py.int y) in *.
    set (optimal := Z.min (Z.min requested_size k) (max_safe_batch_size stats)).
    assert (0 ≤ optimal ≤ k)%Z as Hopt by (unfold optimal; lia).
    split; [unfold optimal; lia|]. split; [lia|].
    rewrite E50. rewrite E53 in Htu.
    destruct (Z.eq_dec optimal 0%Z) as [E0|Hnz].
    { rewrite E0. assert (inject_Z 0 == 0)%Q as -> by reflexivity. lra. }
    assert (1 <= inject_Z optimal)%Q as Ho1 by (rewrite <- (Zle_Qle 1); lia).
    assert (inject_Z optimal <= inject_Z k)%Q as Hok by (rewrite <- Zle_Qle; lia).
    assert (1 <= y)%Q as Hy1 by lra.
    (* the product and the quotient are in the normal range *)
    assert (0 < q * c)%Q as Hqcpos.
    { destruct (Qlt_le_dec 0 (q * c)) as [|Hle]; [done|].
      assert (Qeq_bool (q * c) 0 = true) as E0 by (apply Qeq_bool_iff; lra).
      unfold Binary64.round in Hry. rewrite E0 in Hry.
      injection Hry as <-. lra. }
    destruct (round_upper _ _ Hqcpos Hry) as (_ & Hyn & Hys).
    rewrite E53 in Hyn.
    assert (2 ^ (-1022) <= q * c)%Q as Hqcn.
    { destruct (Qlt_le_dec (q * c) (2 ^ (-1022))) as [Hlt|]; [|done].
      specialize (Hys Hlt). lra. }
    specialize (Hyn Hqcn).
    assert (0 < t / avg)%Q as Hqpos.
    { destruct (Qlt_le_dec 0 (t / avg)) as [|Hle]; [done|].
      assert (Qeq_bool (t / avg) 0 = true) as E0 by (apply Qeq_bool_iff; lra).
      unfold Binary64.round in Hrq. rewrite E0 in Hrq.
      injection Hrq as <-. lra. }
    destruct (round_upper _ _ Hqpos Hrq) as (_ & Hqn & Hqs).
    rewrite E53 in Hqn.
    assert (q <= t / avg * (1 + (1 # 9007199254740992)))%Q as Hqu.
    { apply Hqn.
      destruct (Qlt_le_dec (t / avg) (2 ^ (-1022))) as [Hlt|]; [|done].
      specialize (Hqs Hlt).
      assert (q * c <= q)%Q as H1 by (unfold c; lra). lra. }
    (* the chain of the three roundings *)
    assert (inject_Z optimal * avg <= y * avg)%Q as M1
      by (apply Qmult_le_compat_r; lra).
    assert (y * avg <= q * c * (1 + (1 # 9007199254740992)) * avg)%Q as M2
      by (apply Qmult_le_compat_r; lra).
    assert (q * avg <= t * (1 + (1 # 9007199254740992)))%Q as M3.
    { assert (q * avg <= t / avg * (1 + (1 # 9007199254740992)) * avg)%Q as H1
        by (apply Qmult_le_compat_r; lra).
      assert (t / avg * (1 + (1 # 9007199254740992)) * avg
              == t / avg * avg * (1 + (1 # 9007199254740992)))%Q as H2 by ring.
      rewrite H2, Hdiv in H1. done. }
    unfold c in *. lra.
Qed.

Lemma planner_bounds_binary64_witness :
  ((45 <= 2 ^ 1000)%Q →
   (45 / avg_ticker_time initial_performance_stats <= 2 ^ 1000)%Q →
   ∃ plan,
     Binary64.calculate_optimal_scan_size initial_performance_stats 20 45
     = Ok plan) ∧
  ∀ plan,
    Binary64.calculate_optimal_scan_size initial_performance_stats 20 45
    = Ok plan →
    (Binary64.optimal_size plan
     ≤ Z.min 20 (max_safe_batch_size initial_performance_stats))%Z ∧
    (0 ≤ Binary64.optimal_size plan)%Z ∧
    (inject_Z (Binary64.optimal_size plan)
     * avg_ticker_time initial_performance_stats * 1.25
     <= 45 * (1 + 2 ^ (-50)))%Q.
Proof.
  apply (planner_bounds_binary64 initial_performance_stats 20 45).
  - lia.
  - reflexivity.
  - reflexivity.
  - left. reflexivity.
  - simpl. lia.
Defined.

(** The rounding of [Binary64] against the Standard Library's specification
    of IEEE 754: on the sample pairs, quotient and product agree. *)
Lemma round_agrees_with_SpecFloat :
  forallb agrees_with_SpecFloat float_samples = true.
Proof. vm_compute. reflexivity. Qed.

(** C4 as stated fails.  With a time per ticker of 12.000000000000002, a
    float, the quotient [45 / avg] rounds to 3.7499999999999996 and its
    product with 0.8 rounds up to 3.0: the planner returns 3, and three
    tickers at that time take more than 80% of the 45 seconds. *)
Lemma planner_rounds_up_to_three :
  Binary64.is_float (avg_ticker_time twelve_and_an_ulp) ∧
  ∃ plan,
    Binary64.calculate_optimal_scan_size twelve_and_an_ulp 20 45 = Ok plan ∧
    Binary64.optimal_size plan = 3%Z ∧
    ¬ (inject_Z (Binary64.optimal_size plan)
       * avg_ticker_time twelve_and_an_ulp * 1.25 <= 45)%Q.
Proof.
  split.
  - eexists. split; [vm_compute; reflexivity|reflexivity].
  - eexists. split; [vm_compute; reflexivity|]. split; [reflexivity|].
    vm_compute. intros H. apply H. reflexivity.
Qed.

(** ** ScoringEngine *)

Lemma mul_float_cases (x c : Q) :
  mul_float x c = Ok (x * c)%Q ∨ mul_float x c = Raise OverflowError.
Proof.
  unfold mul_float, Binary64.of_number.
  destruct (Binary64.round x); [left|right|right]; reflexivity.
Qed.

Lemma mul_float_Ok (x c y : Q) : mul_float x c = Ok y → y = (x * c)%Q.
Proof.
  destruct (mul_float_cases x c) as [-> | ->]; [|discriminate].
  by intros [= <-].
Qed.

(** Numbers from 0 to 2^1023 are multiplied without an exception. *)
Lemma mul_float_in_range (x c : Q) :
  (0 <= x)%Q → (x <= 2 ^ 1023)%Q → mul_float x c = Ok (x * c)%Q.
Proof.
  intros H0 H1. unfold mul_float, Binary64.of_number.
  by destruct (round_finite x H0 H1) as [r ->].
Qed.

(** Runs [score_body] through one product: the product is exact, or the
    conversion raises and the score is the error score. *)
Ltac score_product x c :=
  let E := fresh "E" in
  destruct (mul_float_cases x c) as [E|E]; rewrite E; clear E;
  cbn [mbind result_bind mret result_ret try_except].

(** The four capped components add up to at most 95; the momentum term
    has no cap, so the score is bounded only through [price_change_pct]:
    when 0.3 times the change is at most the integer [n], the score is at
    most [95 + n].  With [n] up to 2^52 the bounds are floats, so the
    rounded sums of the source stay within them as well. *)
Lemma squeeze_score_range (o : ortex_record) (p : price_record) (n : Z) :
  nonneg_metrics o →
  (price_change_pct p * 0.3 <= inject_Z n)%Q →
  (0 ≤ n ≤ 2 ^ 52)%Z →
  (0 ≤ squeeze_score (calculate_squeeze_score_optimized o p) ≤ 95 + n)%Z.
Proof.
  intros (a & b & c & d & Ha & Hb & Hc & Hd & ? & ? & ? & ?) Hpct [Hn _].
  unfold calculate_squeeze_score_optimized, score_body.
  rewrite Ha, Hb, Hc, Hd.
  cbn [number mbind result_bind mret result_ret try_except].
  set (pct := price_change_pct p) in *.
  score_product a 1.2%Q; [|cbn; lia].
  score_product b 0.25%Q; [|cbn; lia].
  score_product c 0.8%Q; [|cbn; lia].
  score_product d 1.5%Q; [|cbn; lia].
  assert (0 <= inject_Z n)%Q as Hn' by (rewrite <- (Zle_Qle 0); lia).
  pose proof (min_le_r (a * 1.2) 35). pose proof (min_le_r (b * 0.25) 25).
  pose proof (min_le_r (c * 0.8) 20). pose proof (min_le_r (d * 1.5) 15).
  assert (0 <= Py.min (a * 1.2) 35)%Q by (apply min_glb; lra).
  assert (0 <= Py.min (b * 0.25) 25)%Q by (apply min_glb; lra).
  assert (0 <= Py.min (c * 0.8) 20)%Q by (apply min_glb; lra).
  assert (0 <= Py.min (d * 1.5) 15)%Q by (apply min_glb; lra).
  assert (∀ m, 0 <= m → m <= inject_Z n →
            0 ≤ Py.int (Py.min (a * 1.2) 35 + Py.min (b * 0.25) 25
                        + Py.min (c * 0.8) 20 + Py.min (d * 1.5) 15 + m)
              ≤ 95 + n)%Q%Z as Hsum.
  { intros m Hm0 Hm1. split.
    - apply int_nonneg. lra.
    - apply int_upper; [lra|].
      rewrite !inject_Z_plus. change (inject_Z 95) with 95%Q.
      change (inject_Z 1) with 1%Q. lra. }
  destruct (Py.ltb 0 pct) eqn:E.
  - score_product pct 0.3%Q; [|cbn; lia].
    cbn [squeeze_score]. apply Hsum.
    + unfold Py.max. destruct (Py.ltb (pct * 0.3) 0) eqn:E'; [lra|].
      by apply ltb_ge in E'.
    + unfold Py.max. destruct (Py.ltb (pct * 0.3) 0); lra.
  - cbn [mbind result_bind mret result_ret try_except squeeze_score].
    apply Hsum; lra.
Qed.

(** A record with an unset metric scores [0] with type ["Error"]. *)
Lemma unset_metric_scores_error (o : ortex_record) (p : price_record) :
  short_interest o = None ∨ utilization o = None ∨
  cost_to_borrow o = None ∨ days_to_cover o = None →
  calculate_squeeze_score_optimized o p = error_metrics.
Proof.
  intros H. unfold calculate_squeeze_score_optimized, score_body.
  destruct (short_interest o), (utilization o), (cost_to_borrow o),
    (days_to_cover o); simpl; try reflexivity.
  exfalso. destruct H as [H|[H|[H|H]]]; discriminate.
Qed.

(** C1. The built-in BBBY profile together with a quote that is up 50 %
    (15 after a close of 10) scores 109: the score leaves the range 0-100. *)
Theorem squeeze_score_exceeds_100 :
  ∃ o p,
    (generate_smart_mock_data (cpython 0) ["BBBY"] (fun _ => 0%Q)).1 !! "BBBY" = Some o ∧
    get_single_price_fast (sample_world 10 [] HttpError) "BBBY" = FetchOk p ∧
    price_change_pct p = 50%Q ∧
    squeeze_score (calculate_squeeze_score_optimized o p) = 109%Z.
Proof.
  eexists _, _. split; [|split; [|split]].
  - vm_compute. reflexivity.
  - vm_compute. reflexivity.
  - reflexivity.
  - vm_compute. reflexivity.
Qed.

(** C5. The estimator gives GME its built-in profile, and with a price
    change of 0 % that profile scores 65, "High Squeeze Risk", with no
    risk factor. *)
Theorem gme_profile_score
    (py : python) (g : rng) (t : string) (c ch : Q) (v : json) (s : bool) :
  ∃ o,
    (generate_smart_mock_data py ["GME"] g).1 !! "GME" = Some o ∧
    short_interest o = Some 22.4%Q ∧ utilization o = Some 89.2%Q ∧
    cost_to_borrow o = Some 12.8%Q ∧ days_to_cover o = Some 4.1%Q ∧
    let m :=
      calculate_squeeze_score_optimized o
        {| ticker := t; current_price := c; price_change := ch;
           price_change_pct := 0; volume := v; success := s |} in
    squeeze_score m = 65%Z ∧
    squeeze_type m = "High Squeeze Risk" ∧
    risk_factors m = [].
Proof.
  eexists. split.
  - unfold generate_smart_mock_data. simpl. apply lookup_insert_eq.
  - repeat split; vm_compute; reflexivity.
Qed.

(** ** PriceFeed: one quote *)

Lemma absent_or_zero_falsy (fields : list (string * json)) :
  previous_close_absent_or_zero fields →
  json_truthy (default (JNum 0) (assoc "previousClose" fields)) = false.
Proof.
  intros [-> | (q & -> & Hq)]; [reflexivity|]. simpl.
  unfold Py.truthy. apply Qeq_bool_iff in Hq. by rewrite Hq.
Qed.

(** A divisor that is true and a number is not zero. *)
Lemma truthy_operand_nonzero (v : json) (p : Q) :
  json_truthy v = true → operand v = Ok p → Qeq_bool p 0 = false.
Proof.
  unfold operand. destruct v as [|b|q| | |]; simpl; try discriminate.
  - intros -> [= <-]. reflexivity.
  - intros H [= <-]. unfold Py.truthy in H. by apply negb_true_iff in H.
Qed.

Lemma operand_Raise (v : json) (e : exn) : operand v = Raise e → e = TypeError.
Proof. unfold operand. destruct (as_number v); congruence. Qed.

(** The division in [quote_of_meta] is guarded: it never divides by zero. *)
Lemma quote_of_meta_no_zero_division (t : string) (meta : json) :
  quote_of_meta t meta ≠ Raise ZeroDivisionError.
Proof.
  unfold quote_of_meta. destruct meta as [| | | | |fields]; try discriminate.
  cbn [py_get]. run_bind.
  set (cp := default (JNum 0) (assoc "regularMarketPrice" fields)).
  set (pc := default (JNum 0) (assoc "previousClose" fields)).
  destruct (json_truthy pc) eqn:Htruthy; run_bind.
  - destruct (operand cp) as [c|e] eqn:Hc; run_bind;
      [|apply operand_Raise in Hc as ->; discriminate].
    destruct (operand pc) as [p|e] eqn:Hp; run_bind;
      [|apply operand_Raise in Hp as ->; discriminate].
    unfold true_div. rewrite (truthy_operand_nonzero pc p) by done.
    run_bind. discriminate.
  - destruct (operand cp) as [c|e] eqn:Hc; run_bind;
      [|apply operand_Raise in Hc as ->]; discriminate.
Qed.

Lemma get_single_price_fast_Ok (w : world) (t : string) (r : price_record) :
  get_single_price_fast w t = FetchOk r →
  ∃ data meta,
    yahoo_http w (price_url t) = Some data ∧
    meta_of data = Ok (Some meta) ∧
    quote_of_meta t meta = Ok r.
Proof.
  unfold get_single_price_fast, price_body.
  destruct (yahoo_http w (price_url t)) as [data|]; [|discriminate].
  destruct (meta_of data) as [[meta|]|e] eqn:Hm; simpl; try discriminate.
  destruct (quote_of_meta t meta) as [r'|e] eqn:Hq; simpl; try discriminate.
  intros [= <-]. exists data, meta. auto.
Qed.

(** C9. When the payload's [previousClose] is absent or zero, the fetch does
    not fail with a division by zero, and the quote it produces has
    [price_change_pct] equal to 0 (and [price_change] equal to 0). *)
Theorem zero_previous_close_zero_change
    (w : world) (t : string) (data : json) (fields : list (string * json)) :
  yahoo_http w (price_url t) = Some data →
  meta_of data = Ok (Some (JObj fields)) →
  previous_close_absent_or_zero fields →
  get_single_price_fast w t ≠ FetchFailed t ZeroDivisionError ∧
  ∀ r, get_single_price_fast w t = FetchOk r →
       price_change_pct r = 0%Q ∧ price_change r = 0%Q.
Proof.
  intros Hdata Hmeta Hzero. apply absent_or_zero_falsy in Hzero.
  unfold get_single_price_fast, price_body. rewrite Hdata, Hmeta. simpl.
  pose proof (quote_of_meta_no_zero_division t (JObj fields)) as Hdiv.
  split.
  - destruct (quote_of_meta t (JObj fields)) as [r|e]; simpl; congruence.
  - intros r Hr.
    destruct (quote_of_meta t (JObj fields)) as [r'|e] eqn:Hq;
      simpl in Hr; [|discriminate].
    injection Hr as <-.
    unfold quote_of_meta in Hq. cbn [py_get] in Hq.
    cbn [mbind result_bind mret result_ret] in Hq.
    rewrite Hzero in Hq. cbn [mbind result_bind mret result_ret] in Hq.
    destruct (operand (default (JNum 0) (assoc "regularMarketPrice" fields)));
      cbn [mbind result_bind mret result_ret] in Hq; [|discriminate].
    injection Hq as <-. split; reflexivity.
Qed.

Lemma zero_previous_close_zero_change_witness :
  get_single_price_fast (sample_world 0 [] HttpError) "GME"
    ≠ FetchFailed "GME" ZeroDivisionError ∧
  ∀ r, get_single_price_fast (sample_world 0 [] HttpError) "GME" = FetchOk r →
       price_change_pct r = 0%Q ∧ price_change r = 0%Q.
Proof.
  apply (zero_previous_close_zero_change (sample_world 0 [] HttpError) "GME"
           (chart_payload 15 0 1000)
           [("regularMarketPrice", JNum 15); ("previousClose", JNum 0);
            ("regularMarketVolume", JNum 1000)]).
  - reflexivity.
  - reflexivity.
  - right. exists 0%Q. split; reflexivity.
Defined.

(** The sample quote with a zero previous close is indeed produced. *)
Example zero_previous_close_quote :
  get_single_price_fast (sample_world 0 [] HttpError) "GME" =
  FetchOk {| ticker := "GME"; current_price := 15; price_change := 0;
             price_change_pct := 0; volume := JNum 1000; success := true |}.
Proof. vm_compute. reflexivity. Qed.

(** ** PriceFeed: the aggregate deadline *)

(** A fetch still running at the deadline makes the iterator of
    [as_completed] raise; the [try] of the loop body does not cover it. *)
Lemma deadline_expiry_raises (w : world) (tickers : list string) (n : nat) (t : string) :
  t ∈ tickers → (30 < yahoo_done_at w t)%Q →
  get_yahoo_price_data_fast w tickers n = Raise TimeoutError.
Proof.
  intros Ht Hlate. unfold get_yahoo_price_data_fast, as_completed.
  assert (existsb (λ f, Py.ltb 30 (f_done_at f)) (map (submit w) tickers) = true)
    as ->; [|reflexivity].
  apply existsb_exists. exists (submit w t). split.
  - apply in_map. by apply list_elem_of_In.
  - simpl. by apply ltb_lt.
Qed.

(** When every fetch finishes within the deadline the call returns. *)
Lemma within_deadline_returns (w : world) (tickers : list string) (n : nat) :
  (∀ t, t ∈ tickers → (yahoo_done_at w t <= 30)%Q) →
  ∃ price_data, get_yahoo_price_data_fast w tickers n = Ok price_data.
Proof.
  intros Hall. unfold get_yahoo_price_data_fast, as_completed.
  assert (existsb (λ f, Py.ltb 30 (f_done_at f)) (map (submit w) tickers) = false)
    as ->; [|eauto].
  apply not_true_is_false. intros (f & Hin & Hf)%existsb_exists.
  apply in_map_iff in Hin as (t & <- & Ht). simpl in Hf.
  apply ltb_lt in Hf. apply list_elem_of_In, Hall in Ht.
  by apply Qlt_not_le in Hf.
Qed.

Lemma quote_of_meta_ticker (t : string) (meta : json) (r : price_record) :
  quote_of_meta t meta = Ok r → ticker r = t ∧ success r = true.
Proof.
  unfold quote_of_meta. intros H. repeat inv_bind H.
  injection H as <-. done.
Qed.

Lemma get_single_price_fast_ticker (w : world) (t : string) (r : price_record) :
  get_single_price_fast w t = FetchOk r → ticker r = t ∧ success r = true.
Proof.
  intros (data & meta & _ & _ & Hq)%get_single_price_fast_Ok.
  by eapply quote_of_meta_ticker.
Qed.

Lemma insert_by_completion_Permutation (f : future) (fs : list future) :
  insert_by_completion f fs ≡ₚ f :: fs.
Proof.
  induction fs as [|g fs IH]; simpl; [done|].
  destruct (Qle_bool (f_done_at f) (f_done_at g)); [done|].
  rewrite IH. apply Permutation_swap.
Qed.

Lemma by_completion_Permutation (fs : list future) : by_completion fs ≡ₚ fs.
Proof.
  induction fs as [|f fs IH]; simpl; [done|].
  by rewrite insert_by_completion_Permutation, IH.
Qed.

(** The loop over the finished fetches stores, per ticker, the quote of
    its fetch when that fetch succeeded. *)
Lemma collect_price_fold (w : world) (fs : list future)
    (m : gmap string price_record) (t : string) :
  (∀ f, f ∈ fs → f_result f = get_single_price_fast w (f_ticker f)) →
  fold_left collect_price fs m !! t =
  if decide (t ∈ f_ticker <$> fs)
  then match get_single_price_fast w t with
       | FetchOk r => Some r
       | _ => m !! t
       end
  else m !! t.
Proof.
  revert m. induction fs as [|f fs IH]; intros m Hfs.
  - cbn [fold_left]. case_decide as Hin; [|done].
    rewrite fmap_nil in Hin. by apply not_elem_of_nil in Hin.
  - cbn [fold_left]. rewrite IH by (intros g Hg; apply Hfs; by right).
    assert (collect_price m f !! t =
            if decide (f_ticker f = t)
            then match get_single_price_fast w t with
                 | FetchOk r => Some r
                 | _ => m !! t
                 end
            else m !! t) as Hstep.
    { unfold collect_price. rewrite (Hfs f) by left.
      destruct (get_single_price_fast w (f_ticker f)) as [r| |] eqn:Hr.
      - destruct (get_single_price_fast_ticker _ _ _ Hr) as [Ht ->].
        destruct (decide (f_ticker f = t)) as [Heq|Hne].
        + subst t. rewrite Hr, Ht. apply lookup_insert_eq.
        + rewrite Ht. by apply lookup_insert_ne.
      - destruct (decide (f_ticker f = t)) as [Heq|Hne]; [|done].
        subst t. by rewrite Hr.
      - destruct (decide (f_ticker f = t)) as [Heq|Hne]; [|done].
        subst t. by rewrite Hr. }
    rewrite fmap_cons. destruct (decide (t ∈ f_ticker <$> fs)) as [Hin|Hnin].
    + rewrite decide_True by (by right).
      destruct (get_single_price_fast w t) eqn:Hr; [done| |];
        rewrite Hstep; by destruct (decide (f_ticker f = t)).
    + rewrite Hstep. destruct (decide (f_ticker f = t)) as [Heq|Hne].
      * rewrite decide_True by (rewrite <- Heq; left). done.
      * rewrite decide_False; [done|].
        intros [?|?]%elem_of_cons; [congruence|contradiction].
Qed.

(** When no fetch is running at the deadline, the mapping holds exactly the
    tickers whose fetch succeeded, each with its quote. *)
Lemma price_data_within_deadline (w : world) (tickers : list string) (n : nat) :
  (∀ t, t ∈ tickers → (yahoo_done_at w t <= 30)%Q) →
  ∃ price_data,
    get_yahoo_price_data_fast w tickers n = Ok price_data ∧
    ∀ t, price_data !! t =
         if decide (t ∈ tickers)
         then match get_single_price_fast w t with
              | FetchOk r => Some r
              | _ => None
              end
         else None.
Proof.
  intros Hall. unfold get_yahoo_price_data_fast, as_completed.
  assert (existsb (λ f, Py.ltb 30 (f_done_at f)) (map (submit w) tickers) = false)
    as ->.
  { apply not_true_is_false. intros (f & Hin & Hf)%existsb_exists.
    apply in_map_iff in Hin as (t & <- & Ht). simpl in Hf.
    apply ltb_lt in Hf. apply list_elem_of_In, Hall in Ht.
    by apply Qlt_not_le in Hf. }
  eexists. split; [reflexivity|]. intros t.
  set (done := filter _ _).
  assert (done = map (submit w) tickers) as Hdone.
  { unfold done. clear done. induction tickers as [|x l IH]; [done|].
    simpl. rewrite filter_cons_True.
    - f_equal. apply IH. intros t' Ht'. apply Hall. by right.
    - simpl. apply Qle_bool_iff, Hall. left. }
  rewrite (collect_price_fold w).
  - rewrite lookup_empty.
    assert (t ∈ f_ticker <$> by_completion done ↔ t ∈ tickers) as Hiff.
    { rewrite by_completion_Permutation, Hdone.
      change (map (submit w) tickers) with (submit w <$> tickers).
      rewrite <- list_fmap_compose. by rewrite list_fmap_id. }
    destruct (decide (t ∈ tickers)) as [Hin|Hnin].
    + rewrite decide_True by (by apply Hiff).
      by destruct (get_single_price_fast w t).
    + by rewrite decide_False by (by rewrite Hiff).
  - intros f Hf. rewrite by_completion_Permutation, Hdone in Hf.
    apply list_elem_of_In, in_map_iff in Hf as (x & <- & _). done.
Qed.

(** C2. GME answers after one second with a good quote, AMC is still
    running when the 30 second deadline expires: the price fetch raises
    [TimeoutError] instead of returning the mapping with GME, and the
    handler answers the request with the failure reply. *)
Theorem price_fetch_deadline_raises :
  let w := sample_world 10 ["AMC"] HttpError in
  (∃ r, get_single_price_fast w "GME" = FetchOk r) ∧
  yahoo_done_at w "GME" = 1%Q ∧
  yahoo_done_at w "AMC" = 31%Q ∧
  get_yahoo_price_data_fast w ["GME"; "AMC"] 12 = Raise TimeoutError ∧
  ∀ g, (handle_optimized_scan (cpython 0) w (initial_process g)
          (count_request None 2)).1 = ErrorReply false TimeoutError.
Proof.
  cbv zeta. split; [|split; [|split; [|split]]].
  - eexists. vm_compute. reflexivity.
  - reflexivity.
  - reflexivity.
  - vm_compute. reflexivity.
  - intros g. vm_compute. reflexivity.
Qed.

(** ** SyntheticEstimator *)

Lemma mock_step_fold_lookup (py : python) (ts : list string) (t : string)
    (m : gmap string ortex_record) (g : rng) :
  (fold_left (mock_step py) ts (m, g)).1 !! t =
  if decide (t ∈ ts) then Some (mock_record (profile_for py t)) else m !! t.
Proof.
  revert m g. induction ts as [|x ts IH]; intros m g.
  - cbn [fold_left fst]. case_decide as Hin; [|done].
    by apply not_elem_of_nil in Hin.
  - cbn [fold_left]. unfold mock_step at 2.
    assert (∃ g', (let '(p, g0) :=
                     match profile_get x squeeze_profiles with
                     | Some p => (p, g)
                     | None => generated_profile py x
                     end in (<[x:=mock_record p]> m, g0))
                  = (<[x:=mock_record (profile_for py x)]> m, g')) as [g' ->].
    { unfold profile_for. destruct (profile_get x squeeze_profiles); [eauto|].
      destruct (generated_profile py x); eauto. }
    rewrite IH. destruct (decide (t ∈ ts)) as [Hin|Hnin].
    + by rewrite decide_True by (by right).
    + destruct (decide (t = x)) as [->|Hne].
      * rewrite decide_True by left. by rewrite lookup_insert_eq.
      * rewrite decide_False by (intros [?|?]%elem_of_cons; contradiction).
        by rewrite lookup_insert_ne.
Qed.

(** What the estimator stores for a ticker depends on the ticker and on the
    runtime only: not on the state of the generator, not on the other
    tickers of the batch. *)
Lemma generate_smart_mock_data_lookup (py : python) (ts : list string)
    (g : rng) (t : string) :
  (generate_smart_mock_data py ts g).1 !! t =
  if decide (t ∈ ts) then Some (mock_record (profile_for py t)) else None.
Proof.
  unfold generate_smart_mock_data. rewrite mock_step_fold_lookup.
  by rewrite lookup_empty.
Qed.

(** Within one process two invocations agree. *)
Lemma estimator_deterministic_within_process (py : python)
    (ts1 ts2 : list string) (g1 g2 : rng) (t : string) :
  t ∈ ts1 → t ∈ ts2 →
  (generate_smart_mock_data py ts1 g1).1 !! t =
  (generate_smart_mock_data py ts2 g2).1 !! t.
Proof.
  intros H1 H2. rewrite !generate_smart_mock_data_lookup.
  by rewrite !decide_True.
Qed.

(** Every record of the estimator is fully populated and tagged. *)
Lemma mock_record_populated (p : profile) :
  fully_populated (mock_record p) ∧ data_quality (mock_record p) = "smart_mock".
Proof. unfold fully_populated. simpl. eauto 10. Qed.

(** C3. Two processes that differ only in the hash secret (the one of
    [PYTHONHASHSEED=1] and the one of [PYTHONHASHSEED=2]) give the ticker
    KOSS different metrics: [hash("KOSS") % 10000] is 8388 in the first and
    8944 in the second. *)
Theorem estimator_differs_across_processes (g : rng) :
  (hash_str (cpython 1) "KOSS" `mod` 10000 = 8388)%Z ∧
  (hash_str (cpython 2) "KOSS" `mod` 10000 = 8944)%Z ∧
  (generate_smart_mock_data (cpython 1) ["KOSS"] g).1 !! "KOSS" =
    Some (mock_record {| si := 20.9; util := 84.7; ctb := 18; dtc := 27 # 5 |}) ∧
  (generate_smart_mock_data (cpython 2) ["KOSS"] g).1 !! "KOSS" =
    Some (mock_record {| si := 32.9; util := 84.7; ctb := 39.9; dtc := 6.7 |}).
Proof.
  rewrite !generate_smart_mock_data_lookup.
  rewrite !decide_True by (apply list_elem_of_singleton; reflexivity).
  split; [vm_compute; reflexivity|].
  split; [vm_compute; reflexivity|].
  split; vm_compute; reflexivity.
Qed.

(** ** ShortInterestFeed *)

Lemma extract_field_data_quality (p : ortex_record) (item : string * json) :
  data_quality (extract_field p item) = data_quality p.
Proof.
  unfold extract_field. destruct item as [key value].
  destruct (as_number value); [|done].
  repeat (match goal with |- context [if ?b then _ else _] => destruct b end);
    reflexivity.
Qed.

Lemma extract_fields_data_quality (fields : list (string * json)) (p : ortex_record) :
  data_quality (fold_left extract_field fields p) = data_quality p.
Proof.
  revert p. induction fields as [|item fields IH]; intros p; [done|].
  simpl. by rewrite IH, extract_field_data_quality.
Qed.

(** The three estimates multiply the same short interest: they are all
    computed, or the first one needed raises. *)
Lemma estimate_missing_cases (p : ortex_record) :
  estimate_missing p = Ok (estimates p) ∨
  estimate_missing p = Raise OverflowError.
Proof.
  unfold estimate_missing, estimates.
  destruct p as [si u c d q e].
  cbn [short_interest utilization cost_to_borrow days_to_cover data_quality
       source_endpoints set_utilization set_days_to_cover set_cost_to_borrow].
  destruct si as [s|]; [|left; reflexivity].
  destruct (Py.truthy s); [|left; reflexivity].
  cbn [andb].
  unfold mul_float, Binary64.of_number.
  destruct (Binary64.round s).
  - left.
    destruct (negb (field_truthy u)); destruct (negb (field_truthy d));
      destruct (negb (field_truthy c)); reflexivity.
  - destruct (negb (field_truthy u)); [right; reflexivity|].
    destruct (negb (field_truthy d)); [right; reflexivity|].
    destruct (negb (field_truthy c)); [right; reflexivity|].
    left. reflexivity.
  - destruct (negb (field_truthy u)); [right; reflexivity|].
    destruct (negb (field_truthy d)); [right; reflexivity|].
    destruct (negb (field_truthy c)); [right; reflexivity|].
    left. reflexivity.
Qed.

Lemma estimate_missing_Ok (p r : ortex_record) :
  estimate_missing p = Ok r → r = estimates p.
Proof.
  destruct (estimate_missing_cases p) as [-> | ->]; [|discriminate].
  by intros [= <-].
Qed.

Lemma process_ortex_json_fast_Ok (j : json) (r : ortex_record) :
  process_ortex_json_fast j = Ok r → r = estimates (extracted j).
Proof. apply estimate_missing_Ok. Qed.

(** The feed tags what it returns as live. *)
Lemma process_ortex_json_fast_quality (j : json) (r : ortex_record) :
  process_ortex_json_fast j = Ok r → data_quality r = "live_ortex".
Proof.
  intros ->%process_ortex_json_fast_Ok. unfold estimates, extracted.
  cbn [data_quality].
  destruct j; try reflexivity. apply extract_fields_data_quality.
Qed.

(** With a short interest that is found and not zero, the three estimates
    leave no metric unset. *)
Lemma estimates_populated (p : ortex_record) :
  field_truthy (short_interest (estimates p)) = true →
  fully_populated (estimates p).
Proof.
  unfold estimates, fully_populated. simpl.
  destruct (short_interest p) as [s|]; simpl; [|discriminate].
  intros ->. simpl. split; [eauto|].
  repeat split.
  - destruct (utilization p) as [u|]; simpl; [|eauto].
    destruct (Py.truthy u); simpl; eauto.
  - destruct (cost_to_borrow p) as [u|]; simpl; [|eauto].
    destruct (Py.truthy u); simpl; eauto.
  - destruct (days_to_cover p) as [u|]; simpl; [|eauto].
    destruct (Py.truthy u); simpl; eauto.
Qed.

Lemma process_ortex_json_fast_populated (j : json) (r : ortex_record) :
  process_ortex_json_fast j = Ok r →
  field_truthy (short_interest r) = true →
  fully_populated r.
Proof. intros ->%process_ortex_json_fast_Ok. apply estimates_populated. Qed.

Lemma try_endpoints_Some (w : world) (k : string) (urls : list string)
    (v : ortex_record) :
  try_endpoints w k urls = Some v → ∃ j, process_ortex_json_fast j = Ok v.
Proof.
  induction urls as [|url urls IH]; simpl; [discriminate|].
  destruct (ortex_http w url k) as [|code ct body]; [done|].
  destruct ((code =? 200)%Z && Py.contains "application/json" ct); [|done].
  destruct body as [j|]; [|done].
  destruct (process_ortex_json_fast j) as [r|e] eqn:Hj; [|done].
  intros [= <-]. eauto.
Qed.

Lemma get_fast_ortex_data_Some (w : world) (t : string) (key : option string)
    (v : ortex_record) :
  get_fast_ortex_data w t key = Some v →
  key_truthy key = true ∧ ∃ j, process_ortex_json_fast j = Ok v.
Proof.
  unfold get_fast_ortex_data, key_truthy. destruct key as [k|]; [|discriminate].
  destruct (String.eqb k ""); [discriminate|].
  intros H. split; [done|]. by eapply try_endpoints_Some.
Qed.

(** Without a credential the feed returns at once. *)
Lemma get_fast_ortex_data_no_key (w : world) (t : string) (key : option string) :
  key_truthy key = false → get_fast_ortex_data w t key = None.
Proof.
  unfold get_fast_ortex_data, key_truthy. destruct key as [k|]; [|done].
  by destruct (String.eqb k "").
Qed.

(** ** ScanOrchestrator: the loops *)

(** The loop over the candidates calls the feed once per ticker, in
    order, and stores exactly what the feed returned. *)
Lemma feed_step_fold (w : world) (key : option string) (l : list string)
    (m : gmap string ortex_record) (calls : list string) :
  ∃ m',
    fold_left (feed_step w key) l (m, calls) = (m', (calls ++ l)%list) ∧
    ∀ t v, m' !! t = Some v →
           m !! t = Some v ∨ (t ∈ l ∧ get_fast_ortex_data w t key = Some v).
Proof.
  revert m calls. induction l as [|x l IH]; intros m calls.
  - exists m. simpl. rewrite app_nil_r. eauto.
  - cbn [fold_left]. unfold feed_step at 2.
    destruct (get_fast_ortex_data w x key) as [v|] eqn:Hx.
    + destruct (IH (<[x:=v]> m) (calls ++ [x])%list) as (m' & -> & Hm').
      exists m'. rewrite <- app_assoc. split; [done|].
      intros t v' Ht. destruct (Hm' _ _ Ht) as [Hins|[Hin Hget]].
      * destruct (decide (x = t)) as [->|Hne].
        -- rewrite lookup_insert_eq in Hins. injection Hins as <-.
           right. split; [left|done].
        -- rewrite lookup_insert_ne in Hins by done. by left.
      * right. split; [by right|done].
    + destruct (IH m (calls ++ [x])%list) as (m' & -> & Hm').
      exists m'. rewrite <- app_assoc. split; [done|].
      intros t v' Ht. destruct (Hm' _ _ Ht) as [?|[Hin Hget]]; [by left|].
      right. split; [by right|done].
Qed.


(** Every live record is an answer of the feed to a call with a
    credential. *)
Lemma live_feed_records (w : world) (key : option string)
    (successful : list string) (t : string) (v : ortex_record) :
  (live_feed w key successful).1 !! t = Some v →
  key_truthy key = true ∧ ∃ j, process_ortex_json_fast j = Ok v.
Proof.
  unfold live_feed.
  destruct (key_truthy key && (length successful <=? 10)%nat).
  - destruct (feed_step_fold w key (take 5 successful) ∅ []) as (m' & -> & Hm').
    simpl. intros Ht. destruct (Hm' _ _ Ht) as [Hempty|[_ Hget]].
    + by rewrite lookup_empty in Hempty.
    + by eapply get_fast_ortex_data_Some.
  - simpl. by rewrite lookup_empty.
Qed.


(** The backfill loop over distinct tickers that all have an estimate:
    a live record is kept and tagged, every other ticker gets its
    estimate. *)
Lemma backfill_lookup (mock : gmap string ortex_record) (l : list string)
    (m : gmap string ortex_record) :
  NoDup l →
  (∀ t, t ∈ l → is_Some (mock !! t)) →
  ∃ m',
    backfill mock l m = Ok m' ∧
    ∀ t, m' !! t =
         if decide (t ∈ l)
         then match m !! t with
              | Some live => Some (set_data_quality "live_ortex" live)
              | None => mock !! t
              end
         else m !! t.
Proof.
  unfold backfill. revert m.
  induction l as [|x l IH]; intros m Hnd Hmock.
  - exists m. split; [done|]. intros t. case_decide as Hin; [|done].
    by apply not_elem_of_nil in Hin.
  - apply NoDup_cons in Hnd as [Hx Hnd].
    cbn [fold_left]. unfold backfill_step at 2. run_bind.
    destruct (Hmock x) as [mx Hmx]; [left|].
    assert (∃ vx, (match m !! x with
                   | Some live => Ok (<[x:=set_data_quality "live_ortex" live]> m)
                   | None => getitem mock x ≫= λ mk, Ok (<[x:=mk]> m)
                   end : result _) = Ok (<[x:=vx]> m) ∧
                  Some vx = match m !! x with
                            | Some live => Some (set_data_quality "live_ortex" live)
                            | None => mock !! x
                            end) as (vx & -> & Hvx).
    { destruct (m !! x) as [live|]; [eauto|].
      unfold getitem. rewrite Hmx. eauto. }
    destruct (IH (<[x:=vx]> m)) as (m' & -> & Hm'); [done| |].
    { intros t Ht. apply Hmock. by right. }
    exists m'. split; [done|]. intros t. rewrite Hm'.
    destruct (decide (t = x)) as [->|Hne].
    + rewrite decide_False by done. rewrite decide_True by left.
      by rewrite lookup_insert_eq.
    + rewrite lookup_insert_ne by done.
      destruct (decide (t ∈ l)) as [Hin|Hnin].
      * by rewrite decide_True by (by right).
      * by rewrite decide_False by (intros [?|?]%elem_of_cons; contradiction).
Qed.

(** The scoring loop over tickers that all have metrics and a quote: one
    result per ticker, in order. *)
Lemma score_step_fold (w : world) (od : gmap string ortex_record)
    (pd : gmap string price_record) (l : list string) (acc : list scan_result) :
  (∀ t, t ∈ l → is_Some (od !! t) ∧ is_Some (pd !! t)) →
  ∃ rs,
    fold_left (score_step w od pd) l (Ok acc) = Ok (acc ++ rs)%list ∧
    r_ticker <$> rs = l ∧
    Forall (λ r, ∃ n o p, od !! r_ticker r = Some o ∧ pd !! r_ticker r = Some p ∧
                          r = build_result w n (r_ticker r) o p) rs.
Proof.
  revert acc. induction l as [|x l IH]; intros acc Hall.
  - exists []. simpl. rewrite app_nil_r. auto.
  - destruct (Hall x) as [[o Ho] [p Hp]]; [left|].
    cbn [fold_left]. unfold score_step at 2. run_bind.
    rewrite Ho. unfold getitem. rewrite Hp. run_bind.
    destruct (IH (acc ++ [build_result w (length acc) x o p])%list)
      as (rs & -> & Hmap & Hrs).
    { intros t Ht. apply Hall. by right. }
    exists (build_result w (length acc) x o p :: rs).
    rewrite <- app_assoc. split; [done|]. split.
    + by rewrite fmap_cons, Hmap.
    + constructor; [|done]. exists (length acc), o, p. auto.
Qed.

(** ** Ranking *)

Lemma insert_by_score_Permutation (x : scan_result) (l : list scan_result) :
  insert_by_score x l ≡ₚ x :: l.
Proof.
  induction l as [|y l IH]; simpl; [done|].
  destruct (r_squeeze_score x <? r_squeeze_score y)%Z; [|done].
  rewrite IH. apply Permutation_swap.
Qed.

Lemma sort_by_score_Permutation (l : list scan_result) : sort_by_score l ≡ₚ l.
Proof.
  induction l as [|x l IH]; simpl; [done|].
  by rewrite insert_by_score_Permutation, IH.
Qed.

Lemma insert_by_score_Sorted (x : scan_result) (l : list scan_result) :
  StronglySorted score_ge l → StronglySorted score_ge (insert_by_score x l).
Proof.
  induction l as [|y l IH]; intros Hl; simpl.
  - repeat constructor.
  - apply StronglySorted_inv in Hl as [Hl Hy].
    destruct (r_squeeze_score x <? r_squeeze_score y)%Z eqn:E.
    + apply Z.ltb_lt in E. constructor; [by apply IH|].
      rewrite insert_by_score_Permutation. constructor; [|done].
      unfold score_ge. lia.
    + apply Z.ltb_ge in E. constructor; [by constructor|].
      constructor; [done|].
      eapply Forall_impl; [exact Hy|]. unfold score_ge. intros z Hz. lia.
Qed.

(** The ranked list is in descending order of score. *)
Lemma sort_by_score_Sorted (l : list scan_result) :
  StronglySorted score_ge (sort_by_score l).
Proof.
  induction l as [|x l IH]; simpl; [constructor|].
  by apply insert_by_score_Sorted.
Qed.

Lemma insert_by_score_filter (s : Z) (x : scan_result) (l : list scan_result) :
  filter (λ r, r_squeeze_score r = s) (insert_by_score x l) =
  filter (λ r, r_squeeze_score r = s) (x :: l).
Proof.
  induction l as [|y l IH]; simpl; [done|].
  destruct (r_squeeze_score x <? r_squeeze_score y)%Z eqn:E; [|done].
  apply Z.ltb_lt in E. rewrite (filter_cons _ y), IH, !filter_cons.
  repeat case_decide; (done || lia).
Qed.

(** The sort is stable: the results of one score keep their order. *)
Lemma sort_by_score_stable (s : Z) (l : list scan_result) :
  filter (λ r, r_squeeze_score r = s) (sort_by_score l) =
  filter (λ r, r_squeeze_score r = s) l.
Proof.
  induction l as [|x l IH]; simpl; [done|].
  by rewrite insert_by_score_filter, !filter_cons, IH.
Qed.

(** ** ScanOrchestrator: selection *)

Lemma master_ticker_list_NoDup : NoDup master_ticker_list.
Proof. apply (bool_decide_unpack _). vm_compute. exact I. Qed.

Lemma slice_to_sublist {A} (l : list A) (n : Z) : Py.slice_to l n `sublist_of` l.
Proof. unfold Py.slice_to. destruct (0 <=? n)%Z; apply sublist_take. Qed.

(** The selection never holds a ticker twice. *)
Lemma select_tickers_NoDup (py : python) (stats : performance_stats)
    (f : option filters) (l : list string) :
  select_tickers py stats f = Ok l → NoDup l.
Proof.
  unfold select_tickers. intros H.
  assert (∀ n, NoDup (Py.slice_to master_ticker_list n)) as Hmaster.
  { intros n. eapply sublist_NoDup;
      [apply master_ticker_list_NoDup | apply slice_to_sublist]. }
  destruct f as [fd|]; [|injection H as <-; apply Hmaster].
  destruct (filters_truthy (Some fd)); [|injection H as <-; apply Hmaster].
  inv_bind H. injection H as <-.
  destruct (categories fd) as [[|c cs]|]; try apply Hmaster.
  eapply sublist_NoDup; [apply list_of_set_NoDup | apply slice_to_sublist].
Qed.

(** ** ScanOrchestrator: anatomy of a scan *)

Lemma priced_NoDup (pd : gmap string price_record) (l : list string) :
  NoDup l → NoDup (priced pd l).
Proof. intros H. by apply NoDup_filter. Qed.

Lemma priced_elem (pd : gmap string price_record) (l : list string) (t : string) :
  t ∈ priced pd l → is_Some (pd !! t).
Proof. unfold priced. by intros [? _]%list_elem_of_filter. Qed.

(** Once the tickers are selected and the price fetch has returned, the
    scan runs to its end: every priced ticker is scored once, with the
    metrics [backfilled] names, and the results are the sorted list. *)
Lemma scan_anatomy (py : python) (w : world) (st : process)
    (key : option string) (f : option filters)
    (scan_tickers : list string) (price_data : gmap string price_record) :
  select_tickers py (performance st) f = Ok scan_tickers →
  get_yahoo_price_data_fast w scan_tickers 12 = Ok price_data →
  ∃ run pre,
    perform_optimized_scan py w st key f = Ok run ∧
    results (output run) = sort_by_score pre ∧
    r_ticker <$> pre = priced price_data scan_tickers ∧
    Forall (λ r, ∃ n p,
              price_data !! r_ticker r = Some p ∧
              r = build_result w n (r_ticker r)
                    (backfilled py (live_feed w key (priced price_data scan_tickers)).1
                       (r_ticker r)) p) pre ∧
    feed_calls run = (live_feed w key (priced price_data scan_tickers)).2 ∧
    live_ortex_count (stats (output run)) =
      length (filter (λ r, r_data_quality r = "live_ortex") (results (output run))) ∧
    successful_analysis (stats (output run)) = length (results (output run)) ∧
    total_tickers_scanned (stats (output run)) = length scan_tickers.
Proof.
  intros Hselect Hprice. unfold perform_optimized_scan.
  rewrite Hselect. run_bind. rewrite Hprice. run_bind.
  set (successful := priced price_data scan_tickers).
  assert (NoDup successful) as Hnd.
  { apply priced_NoDup. by eapply select_tickers_NoDup. }
  destruct (live_feed w key successful) as [live calls] eqn:Hlive.
  destruct (generate_smart_mock_data py successful (random_state st))
    as [mock g] eqn:Hgen.
  assert (∀ t, mock !! t =
               if decide (t ∈ successful)
               then Some (mock_record (profile_for py t)) else None) as Hmock.
  { intros t. rewrite <- generate_smart_mock_data_lookup with (g := random_state st).
    by rewrite Hgen. }
  destruct (backfill_lookup mock successful live Hnd) as (filled & -> & Hfilled).
  { intros t Ht. rewrite Hmock, decide_True by done. eauto. }
  run_bind.
  assert (∀ t, t ∈ successful → filled !! t = Some (backfilled py live t)) as Hfill.
  { intros t Ht. rewrite Hfilled, decide_True by done. unfold backfilled.
    destruct (live !! t); [done|]. by rewrite Hmock, decide_True. }
  destruct (score_step_fold w filled price_data successful []) as (pre & Hscore & Hmap & Hpre).
  { intros t Ht. split; [rewrite Hfill by done; eauto | by eapply priced_elem]. }
  unfold score_all. rewrite Hscore. run_bind. cbn [app].
  assert (∃ perf,
    (if (0 <? length (sort_by_score pre))%nat
     then true_div (time_end w - time_start w)
            (inject_Z (Z.of_nat (length (sort_by_score pre))))
          ≫= λ avg, Ok {| avg_ticker_time := avg;
                          max_safe_batch_size := max_safe_batch_size (performance st);
                          timeout_threshold := timeout_threshold (performance st) |}
     else Ok (performance st)) = Ok perf) as [perf ->].
  { destruct (0 <? length (sort_by_score pre))%nat eqn:E; [|eauto].
    apply Nat.ltb_lt in E. rewrite true_div_Ok; [run_bind; eauto|].
    change 0%Q with (inject_Z 0). rewrite inject_Z_injective. lia. }
  run_bind. eexists _, pre. split; [reflexivity|]. cbn [output results stats
    feed_calls live_ortex_count successful_analysis total_tickers_scanned].
  split; [done|]. split; [done|]. split; [|done].
  apply Forall_forall. intros r Hin.
  rewrite Forall_forall in Hpre.
  destruct (Hpre r Hin) as (n & o & p & Ho & Hp & Hr).
  exists n, p. split; [done|].
  rewrite Hfill in Ho.
  - injection Ho as <-. exact Hr.
  - rewrite <- Hmap. apply list_elem_of_fmap. eauto.
Qed.

(** A scan returns whenever no fetch is running at the deadline. *)
Lemma perform_optimized_scan_returns (py : python) (w : world) (st : process)
    (key : option string) (f : option filters) (scan_tickers : list string) :
  select_tickers py (performance st) f = Ok scan_tickers →
  (∀ t, t ∈ scan_tickers → (yahoo_done_at w t <= 30)%Q) →
  ∃ run, perform_optimized_scan py w st key f = Ok run.
Proof.
  intros Hsel Hall.
  destruct (within_deadline_returns w scan_tickers 12 Hall) as [pd Hpd].
  destruct (scan_anatomy py w st key f _ _ Hsel Hpd) as (run & _ & Hrun & _).
  eauto.
Qed.

(** A scan fails as a whole when a fetch is still running at the deadline. *)
Lemma perform_optimized_scan_deadline (py : python) (w : world) (st : process)
    (key : option string) (f : option filters) (scan_tickers : list string)
    (t : string) :
  select_tickers py (performance st) f = Ok scan_tickers →
  t ∈ scan_tickers → (30 < yahoo_done_at w t)%Q →
  perform_optimized_scan py w st key f = Raise TimeoutError.
Proof.
  intros Hsel Ht Hlate. unfold perform_optimized_scan.
  rewrite Hsel. run_bind.
  by rewrite (deadline_expiry_raises w scan_tickers 12 t).
Qed.

Lemma scan_Ok_inv (py : python) (w : world) (st : process)
    (key : option string) (f : option filters) (run : scan_run) :
  perform_optimized_scan py w st key f = Ok run →
  ∃ scan_tickers price_data,
    select_tickers py (performance st) f = Ok scan_tickers ∧
    get_yahoo_price_data_fast w scan_tickers 12 = Ok price_data.
Proof.
  unfold perform_optimized_scan. intros H. inv_bind H. inv_bind H. eauto.
Qed.

(** ** Order of two elements of a list *)

Lemma before_cons {A} (l : list A) (z x y : A) : before l x y → before (z :: l) x y.
Proof. intros (a & b & Hab & Ha & Hb). exists (S a), (S b). split; [lia|done]. Qed.

Lemma before_head {A} (l : list A) (x y : A) : y ∈ l → before (x :: l) x y.
Proof.
  intros (b & Hb)%list_elem_of_lookup. exists 0%nat, (S b). split; [lia|done].
Qed.

Lemma before_inv {A} (l : list A) (z x y : A) :
  before (z :: l) x y → (z = x ∧ y ∈ l) ∨ before l x y.
Proof.
  intros (a & b & Hab & Ha & Hb).
  destruct b as [|b]; [lia|]. simpl in Hb.
  destruct a as [|a].
  - left. simpl in Ha. injection Ha as ->. split; [done|].
    apply list_elem_of_lookup. eauto.
  - right. exists a, b. split; [lia|done].
Qed.

Lemma before_sublist {A} (l1 l2 : list A) (x y : A) :
  l1 `sublist_of` l2 → before l1 x y → before l2 x y.
Proof.
  induction 1 as [|z l1 l2 Hsub IH|z l1 l2 Hsub IH]; intros Hb.
  - done.
  - apply before_inv in Hb as [[-> Hy]|Hb].
    + apply before_head. eapply elem_of_sublist; eauto.
    + by apply before_cons, IH.
  - by apply before_cons, IH.
Qed.

Lemma before_fmap {A B} (f : A → B) (l : list A) (x y : A) :
  before l x y → before (f <$> l) (f x) (f y).
Proof.
  intros (a & b & Hab & Ha & Hb). exists a, b.
  rewrite !list_lookup_fmap, Ha, Hb. done.
Qed.

Lemma before_filter {A} (P : A → Prop) `{!∀ x, Decision (P x)}
    (l : list A) (x y : A) :
  P x → P y → before l x y → before (filter P l) x y.
Proof.
  intros Hx Hy. induction l as [|z l IH]; intros Hb.
  - by destruct Hb as (a & b & _ & Ha & _).
  - apply before_inv in Hb as [[-> Hin]|Hb].
    + rewrite filter_cons_True by done. apply before_head.
      by apply list_elem_of_filter.
    + rewrite filter_cons. case_decide; [apply before_cons|]; by apply IH.
Qed.

(** ** C8: ranking of the results *)

(** C8. The results of a scan are in descending order of score, and two
    results with the same score stand in the order in which their tickers
    were selected. *)
Theorem results_ranked_stably (py : python) (w : world) (st : process)
    (key : option string) (f : option filters) (run : scan_run) :
  perform_optimized_scan py w st key f = Ok run →
  StronglySorted score_ge (results (output run)) ∧
  ∃ scan_tickers,
    select_tickers py (performance st) f = Ok scan_tickers ∧
    NoDup scan_tickers ∧
    ∀ ri rj,
      before (results (output run)) ri rj →
      r_squeeze_score ri = r_squeeze_score rj →
      before scan_tickers (r_ticker ri) (r_ticker rj).
Proof.
  intros Hrun.
  destruct (scan_Ok_inv _ _ _ _ _ _ Hrun) as (scan_tickers & pd & Hsel & Hpd).
  destruct (scan_anatomy py w st key f _ _ Hsel Hpd)
    as (run' & pre & Hrun' & Hres & Hmap & _).
  rewrite Hrun in Hrun'. injection Hrun' as <-.
  rewrite Hres. split; [apply sort_by_score_Sorted|].
  exists scan_tickers. split; [done|]. split; [by eapply select_tickers_NoDup|].
  intros ri rj Hb Hscore.
  apply (before_filter (λ r, r_squeeze_score r = r_squeeze_score ri)) in Hb;
    [|done..].
  rewrite sort_by_score_stable in Hb.
  eapply before_sublist in Hb; [|apply sublist_filter].
  apply (before_fmap r_ticker) in Hb. rewrite Hmap in Hb.
  eapply before_sublist; [|exact Hb]. apply sublist_filter.
Qed.

Lemma results_ranked_stably_witness :
  ∃ run,
    perform_optimized_scan (cpython 0) (sample_world 10 [] HttpError)
      (initial_process (λ _, 0%Q)) None
      (Some {| categories := None; max_tickers := Some 3%Z; min_score := None |})
    = Ok run ∧
    (r_ticker <$> results (output run)) = ["BBBY"; "GME"; "AMC"] ∧
    StronglySorted score_ge (results (output run)) ∧
    ∃ scan_tickers,
      select_tickers (cpython 0) initial_performance_stats
        (Some {| categories := None; max_tickers := Some 3%Z; min_score := None |})
      = Ok scan_tickers ∧
      NoDup scan_tickers ∧
      ∀ ri rj,
        before (results (output run)) ri rj →
        r_squeeze_score ri = r_squeeze_score rj →
        before scan_tickers (r_ticker ri) (r_ticker rj).
Proof.
  destruct (perform_optimized_scan (cpython 0) (sample_world 10 [] HttpError)
              (initial_process (λ _, 0%Q)) None
              (Some {| categories := None; max_tickers := Some 3%Z;
                       min_score := None |})) as [run|e] eqn:E;
    [|vm_compute in E; discriminate].
  exists run. split; [reflexivity|]. split.
  - vm_compute in E. injection E as <-. reflexivity.
  - exact (results_ranked_stably _ _ _ _ _ run E).
Defined.

(** ** C7: the gate of the live feed *)




(** ** C6: metrics after the backfill *)

(** C6, as the code has it. After the backfill every scored ticker has a
    metrics record. The record of a ticker without live data is the
    estimator's, with all four metrics set; the record of a ticker with
    live data is the feed's answer, and its four metrics are all set when
    the feed found a short interest that is not zero. *)
Theorem backfilled_metrics (py : python) (w : world) (st : process)
    (key : option string) (f : option filters) (run : scan_run) (r : scan_result) :
  perform_optimized_scan py w st key f = Ok run →
  r ∈ results (output run) →
  (r_data_quality r = "smart_mock" ∧
   r_ortex_data r = mock_record (profile_for py (r_ticker r)) ∧
   fully_populated (r_ortex_data r)) ∨
  (r_data_quality r = "live_ortex" ∧
   (∃ j p, process_ortex_json_fast j = Ok p ∧
           r_ortex_data r = set_data_quality "live_ortex" p) ∧
   (field_truthy (short_interest (r_ortex_data r)) = true →
    fully_populated (r_ortex_data r))).
Proof.
  intros Hrun Hr.
  destruct (scan_Ok_inv _ _ _ _ _ _ Hrun) as (scan_tickers & pd & Hsel & Hpd).
  destruct (scan_anatomy py w st key f _ _ Hsel Hpd)
    as (run' & pre & Hrun' & Hres & Hmap & Hpre & _).
  rewrite Hrun in Hrun'. injection Hrun' as <-.
  rewrite Hres, sort_by_score_Permutation in Hr.
  rewrite Forall_forall in Hpre.
  destruct (Hpre r Hr) as (n & p & _ & Hbuild).
  set (live := (live_feed w key (priced pd scan_tickers)).1) in *.
  assert (r_ortex_data r = backfilled py live (r_ticker r)) as Ho by (by rewrite Hbuild).
  assert (r_data_quality r = data_quality (r_ortex_data r)) as Hq by (by rewrite Hbuild).
  rewrite Hq, Ho. unfold backfilled.
  destruct (live !! r_ticker r) as [v|] eqn:Hv.
  - right. apply live_feed_records in Hv as [_ [j Hj]].
    split; [done|]. split; [eauto|].
    apply (process_ortex_json_fast_populated j v Hj).
  - left. split; [done|]. split; [done|]. apply mock_record_populated.
Qed.

Lemma backfilled_metrics_witness :
  ∃ run r,
    perform_optimized_scan (cpython 0) (sample_world 10 [] HttpError)
      (initial_process (λ _, 0%Q)) (Some "key")
      (Some {| categories := None; max_tickers := Some 1%Z; min_score := None |})
    = Ok run ∧
    r ∈ results (output run) ∧
    r_ticker r = "GME" ∧
    ((r_data_quality r = "smart_mock" ∧
      r_ortex_data r = mock_record (profile_for (cpython 0) (r_ticker r)) ∧
      fully_populated (r_ortex_data r)) ∨
     (r_data_quality r = "live_ortex" ∧
      (∃ j p, process_ortex_json_fast j = Ok p ∧
              r_ortex_data r = set_data_quality "live_ortex" p) ∧
      (field_truthy (short_interest (r_ortex_data r)) = true →
       fully_populated (r_ortex_data r)))).
Proof.
  destruct (perform_optimized_scan (cpython 0) (sample_world 10 [] HttpError)
              (initial_process (λ _, 0%Q)) (Some "key")
              (Some {| categories := None; max_tickers := Some 1%Z;
                       min_score := None |})) as [run|e] eqn:E;
    [|vm_compute in E; discriminate].
  destruct (results (output run)) as [|r rs] eqn:Hrs.
  { vm_compute in E. injection E as <-. discriminate Hrs. }
  assert (r ∈ results (output run)) as Hin by (rewrite Hrs; left).
  exists run, r. split; [reflexivity|]. split; [done|]. split.
  - vm_compute in E. injection E as <-. by injection Hrs as <- _.
  - exact (backfilled_metrics _ _ _ _ _ run r E Hin).
Defined.

(** C6 as stated fails: the provider answers with a
    utilization and no short interest; the record is kept as live data,
    the backfill does not touch it, and GME is scored with three metrics
    unset. *)
Lemma live_record_left_unset :
  ∃ run r,
    perform_optimized_scan (cpython 0) (sample_world 10 [] utilization_only)
      (initial_process (λ _, 0%Q)) (Some "key")
      (Some {| categories := None; max_tickers := Some 1%Z; min_score := None |})
    = Ok run ∧
    r ∈ results (output run) ∧
    r_ticker r = "GME" ∧
    r_data_quality r = "live_ortex" ∧
    short_interest (r_ortex_data r) = None ∧
    utilization (r_ortex_data r) = Some 85%Q ∧
    r_squeeze_type r = "Error" ∧
    ¬ fully_populated (r_ortex_data r).
Proof.
  destruct (perform_optimized_scan (cpython 0) (sample_world 10 [] utilization_only)
              (initial_process (λ _, 0%Q)) (Some "key")
              (Some {| categories := None; max_tickers := Some 1%Z;
                       min_score := None |})) as [run|e] eqn:E;
    vm_compute in E; [|discriminate].
  injection E as <-. eexists _, _. split; [reflexivity|].
  split; [left|]. split; [reflexivity|]. split; [reflexivity|].
  split; [reflexivity|]. split; [reflexivity|]. split; [reflexivity|].
  intros [[x Hx] _]. discriminate Hx.
Qed.

(** ** C10: a category filter that matches nothing *)




Lemma calculate_optimal_scan_size_returns
    (stats : performance_stats) (requested_size : Z) (timeout_limit : Q) :
  (0 < avg_ticker_time stats)%Q →
  ∃ plan, calculate_optimal_scan_size stats requested_size timeout_limit = Ok plan.
Proof.
  intros Havg. unfold calculate_optimal_scan_size.
  rewrite true_div_Ok; [run_bind; eauto|].
  intros E. rewrite E in Havg. by apply Qlt_irrefl in Havg.
Qed.




(** * Further properties of the code *)

(** ** ScoringEngine, continued *)

Lemma squeeze_score_range_witness :
  (0 ≤ squeeze_score
         (calculate_squeeze_score_optimized
            (mock_record {| si := 22.4; util := 89.2; ctb := 12.8; dtc := 4.1 |})
            (quote_with_change "GME" 3)) ≤ 95 + 1)%Z.
Proof.
  apply (squeeze_score_range
           (mock_record {| si := 22.4; util := 89.2; ctb := 12.8; dtc := 4.1 |})
           (quote_with_change "GME" 3) 1).
  - exists 22.4%Q, 89.2%Q, 12.8%Q, 4.1%Q. repeat split; discriminate.
  - vm_compute. discriminate.
  - vm_compute. split; discriminate.
Defined.

Lemma unset_metric_scores_error_witness :
  calculate_squeeze_score_optimized
    (set_days_to_cover None
       (mock_record {| si := 22.4; util := 89.2; ctb := 12.8; dtc := 4.1 |}))
    (quote_with_change "GME" 3) = error_metrics.
Proof.
  apply (unset_metric_scores_error
           (set_days_to_cover None
              (mock_record {| si := 22.4; util := 89.2; ctb := 12.8; dtc := 4.1 |}))
           (quote_with_change "GME" 3)).
  right. right. right. reflexivity.
Defined.

Lemma int_bounds (x : Q) :
  (0 <= x)%Q → (inject_Z (Py.int x) <= x)%Q ∧ (x < inject_Z (Py.int x + 1))%Q.
Proof.
  intros Hx. rewrite int_floor by done. split; [apply Qfloor_le|apply Qlt_floor].
Qed.

(** [int] is monotone, also across zero. *)
Lemma int_mono (x y : Q) : (x <= y)%Q → (Py.int x ≤ Py.int y)%Z.
Proof.
  destruct x as [n1 d1], y as [n2 d2]. unfold Qle, Py.int. simpl. intros H.
  rewrite <- (Z.quot_mul_cancel_r n1 (Z.pos d1) (Z.pos d2)) by lia.
  rewrite <- (Z.quot_mul_cancel_r n2 (Z.pos d2) (Z.pos d1)) by lia.
  rewrite (Z.mul_comm (Z.pos d2) (Z.pos d1)).
  apply Z.quot_le_mono; lia.
Qed.

Lemma min_mono (x y c : Q) : (x <= y)%Q → (Py.min x c <= Py.min y c)%Q.
Proof.
  intros H. apply min_glb.
  - eapply Qle_trans; [apply min_le_l|done].
  - apply min_le_r.
Qed.

(** The momentum term is never negative. *)
Lemma momentum_nonneg (pct : Q) :
  (0 <= (if Py.ltb 0 pct then Py.max (pct * 0.3) 0 else 0%Q))%Q.
Proof.
  destruct (Py.ltb 0 pct); [|apply Qle_refl].
  unfold Py.max. destruct (Py.ltb (pct * 0.3) 0) eqn:E; [apply Qle_refl|].
  by apply ltb_ge in E.
Qed.

(** The products of [score_body] for metrics and a price change within
    the floats. *)
Lemma score_of_bounded (o : ortex_record) (p : price_record) (a b c d : Q) :
  short_interest o = Some a → utilization o = Some b →
  cost_to_borrow o = Some c → days_to_cover o = Some d →
  (0 <= a)%Q → (a <= 2 ^ 1023)%Q → (0 <= b)%Q → (b <= 2 ^ 1023)%Q →
  (0 <= c)%Q → (c <= 2 ^ 1023)%Q → (0 <= d)%Q → (d <= 2 ^ 1023)%Q →
  (price_change_pct p <= 2 ^ 1023)%Q →
  let m := if Py.ltb 0 (price_change_pct p)
           then Py.max (price_change_pct p * 0.3) 0 else 0%Q in
  let x1 := Py.min (a * 1.2) 35 in
  let x2 := Py.min (b * 0.25) 25 in
  let x3 := Py.min (c * 0.8) 20 in
  let x4 := Py.min (d * 1.5) 15 in
  squeeze_score (calculate_squeeze_score_optimized o p)
    = Py.int (x1 + x2 + x3 + x4 + m) ∧
  breakdown (calculate_squeeze_score_optimized o p)
    = Some {| sb_short_interest := Py.int x1; sb_utilization := Py.int x2;
              sb_cost_to_borrow := Py.int x3; sb_days_to_cover := Py.int x4;
              sb_momentum := Py.int m |}.
Proof.
  intros Ha Hb Hc Hd A0 A1 B0 B1 C0 C1 D0 D1 Hp.
  unfold calculate_squeeze_score_optimized, score_body.
  rewrite Ha, Hb, Hc, Hd.
  cbn [number mbind result_bind mret result_ret].
  rewrite (mul_float_in_range a) by done.
  cbn [mbind result_bind mret result_ret].
  rewrite (mul_float_in_range b) by done.
  cbn [mbind result_bind mret result_ret].
  rewrite (mul_float_in_range c) by done.
  cbn [mbind result_bind mret result_ret].
  rewrite (mul_float_in_range d) by done.
  cbn [mbind result_bind mret result_ret].
  destruct (Py.ltb 0 (price_change_pct p)) eqn:E.
  - apply ltb_lt in E.
    rewrite (mul_float_in_range (price_change_pct p)) by (done || lra).
    cbn [mbind result_bind mret result_ret try_except squeeze_score breakdown].
    done.
  - cbn [mbind result_bind mret result_ret try_except squeeze_score breakdown].
    done.
Qed.

(** The integers of the breakdown are rounded down one by one, the total is
    rounded down once: for metrics within the floats and a price change
    whose momentum term is at most 2^52, the breakdown exists and adds up to
    the total or to less, by at most 5.  (With exact sums the difference is
    at most 4; the fifth unit covers a float sum that is rounded up to the
    next integer.) *)
Theorem breakdown_sum_near_total (o : ortex_record) (p : price_record) :
  bounded_metrics o →
  (price_change_pct p * 0.3 <= 2 ^ 52)%Q →
  ∃ b,
    breakdown (calculate_squeeze_score_optimized o p) = Some b ∧
    (breakdown_sum b ≤ squeeze_score (calculate_squeeze_score_optimized o p)
     ≤ breakdown_sum b + 5)%Z.
Proof.
  intros (a & b & c & d & Ha & Hb & Hc & Hd &
          A0 & A1 & B0 & B1 & C0 & C1 & D0 & D1) Hpct.
  assert (price_change_pct p <= 2 ^ 1023)%Q as Hp.
  { assert (2 ^ 52 * 4 <= 2 ^ 1023)%Q as Hbig by (by vm_compute).
    assert (0 <= 2 ^ 52)%Q as H52 by (by vm_compute).
    set (P := (2 ^ 52)%Q) in *. set (M := (2 ^ 1023)%Q) in *. lra. }
  destruct (score_of_bounded o p a b c d Ha Hb Hc Hd A0 A1 B0 B1 C0 C1 D0 D1 Hp)
    as [-> ->].
  eexists. split; [reflexivity|].
  unfold breakdown_sum.
  cbn [sb_short_interest sb_utilization sb_cost_to_borrow sb_days_to_cover
       sb_momentum].
  pose proof (momentum_nonneg (price_change_pct p)) as Hm.
  set (m := if Py.ltb 0 (price_change_pct p)
            then Py.max (price_change_pct p * 0.3) 0 else 0%Q) in *.
  assert (0 <= Py.min (a * 1.2) 35)%Q as P1 by (apply min_glb; lra).
  assert (0 <= Py.min (b * 0.25) 25)%Q as P2 by (apply min_glb; lra).
  assert (0 <= Py.min (c * 0.8) 20)%Q as P3 by (apply min_glb; lra).
  assert (0 <= Py.min (d * 1.5) 15)%Q as P4 by (apply min_glb; lra).
  set (x1 := Py.min (a * 1.2) 35) in *. set (x2 := Py.min (b * 0.25) 25) in *.
  set (x3 := Py.min (c * 0.8) 20) in *. set (x4 := Py.min (d * 1.5) 15) in *.
  destruct (int_bounds x1 P1) as [L1 U1]. destruct (int_bounds x2 P2) as [L2 U2].
  destruct (int_bounds x3 P3) as [L3 U3]. destruct (int_bounds x4 P4) as [L4 U4].
  destruct (int_bounds m Hm) as [L5 U5].
  assert (0 <= x1 + x2 + x3 + x4 + m)%Q as Hsum by lra.
  destruct (int_bounds _ Hsum) as [L U].
  rewrite !inject_Z_plus in *. change (inject_Z 1) with 1%Q in *.
  split.
  - apply Z.lt_succ_r. unfold Z.succ. rewrite Zlt_Qlt.
    rewrite !inject_Z_plus. change (inject_Z 1) with 1%Q. lra.
  - apply Z.lt_succ_r. unfold Z.succ. rewrite Zlt_Qlt.
    rewrite !inject_Z_plus. change (inject_Z 1) with 1%Q.
    change (inject_Z 5) with 5%Q. lra.
Qed.

Lemma breakdown_sum_near_total_witness :
  ∃ b,
    breakdown (calculate_squeeze_score_optimized
                 (mock_record {| si := 22.4; util := 89.2; ctb := 12.8; dtc := 4.1 |})
                 (quote_with_change "GME" 0)) = Some b ∧
    (breakdown_sum b
     ≤ squeeze_score
         (calculate_squeeze_score_optimized
            (mock_record {| si := 22.4; util := 89.2; ctb := 12.8; dtc := 4.1 |})
            (quote_with_change "GME" 0))
     ≤ breakdown_sum b + 5)%Z.
Proof.
  apply (breakdown_sum_near_total
           (mock_record {| si := 22.4; util := 89.2; ctb := 12.8; dtc := 4.1 |})
           (quote_with_change "GME" 0)).
  - exists 22.4%Q, 89.2%Q, 12.8%Q, 4.1%Q.
    repeat (split; [vm_compute; (reflexivity || discriminate)|]).
    vm_compute. discriminate.
  - vm_compute. discriminate.
Defined.

(** The GME profile shows the gap: the breakdown adds up to 64, the total
    is 65. *)
Example breakdown_sum_gme :
  ∃ b,
    breakdown (calculate_squeeze_score_optimized
                 (mock_record {| si := 22.4; util := 89.2; ctb := 12.8; dtc := 4.1 |})
                 (quote_with_change "GME" 0)) = Some b ∧
    breakdown_sum b = 64%Z.
Proof. eexists. split; vm_compute; reflexivity. Qed.

(** Raising a metric never lowers the score: for two records with all
    metrics set, not negative and within the floats, the second at least
    as high in each metric, and the same quote. *)
Theorem squeeze_score_monotone (o o' : ortex_record) (p : price_record) :
  metrics_le o o' →
  (squeeze_score (calculate_squeeze_score_optimized o p)
   ≤ squeeze_score (calculate_squeeze_score_optimized o' p))%Z.
Proof.
  intros (a & b & c & d & a' & b' & c' & d' & Ha & Hb & Hc & Hd &
          Ha' & Hb' & Hc' & Hd' &
          A0 & Hla & A1 & B0 & Hlb & B1 & C0 & Hlc & C1 & D0 & Hld & D1).
  pose proof (Qle_trans _ _ _ A0 Hla). pose proof (Qle_trans _ _ _ Hla A1).
  pose proof (Qle_trans _ _ _ B0 Hlb). pose proof (Qle_trans _ _ _ Hlb B1).
  pose proof (Qle_trans _ _ _ C0 Hlc). pose proof (Qle_trans _ _ _ Hlc C1).
  pose proof (Qle_trans _ _ _ D0 Hld). pose proof (Qle_trans _ _ _ Hld D1).
  unfold calculate_squeeze_score_optimized, score_body.
  rewrite Ha, Hb, Hc, Hd, Ha', Hb', Hc', Hd'.
  cbn [number mbind result_bind mret result_ret].
  rewrite (mul_float_in_range a), (mul_float_in_range b),
    (mul_float_in_range c), (mul_float_in_range d),
    (mul_float_in_range a'), (mul_float_in_range b'),
    (mul_float_in_range c'), (mul_float_in_range d') by done.
  cbn [mbind result_bind mret result_ret].
  assert (Py.min (a * 1.2) 35 + Py.min (b * 0.25) 25 + Py.min (c * 0.8) 20
          + Py.min (d * 1.5) 15
          <= Py.min (a' * 1.2) 35 + Py.min (b' * 0.25) 25
             + Py.min (c' * 0.8) 20 + Py.min (d' * 1.5) 15)%Q as Hsum.
  { pose proof (min_mono (a * 1.2) (a' * 1.2) 35).
    pose proof (min_mono (b * 0.25) (b' * 0.25) 25).
    pose proof (min_mono (c * 0.8) (c' * 0.8) 20).
    pose proof (min_mono (d * 1.5) (d' * 1.5) 15).
    lra. }
  destruct (Py.ltb 0 (price_change_pct p)).
  - score_product (price_change_pct p) 0.3%Q; [|done].
    cbn [squeeze_score]. apply int_mono. lra.
  - cbn [mbind result_bind mret result_ret try_except squeeze_score].
    apply int_mono. lra.
Qed.

Lemma squeeze_score_monotone_witness :
  (squeeze_score
     (calculate_squeeze_score_optimized
        (mock_record {| si := 18.7; util := 82.1; ctb := 8.9; dtc := 3.8 |})
        (quote_with_change "AMC" 50))
   ≤ squeeze_score
       (calculate_squeeze_score_optimized
          (mock_record {| si := 22.4; util := 89.2; ctb := 12.8; dtc := 4.1 |})
          (quote_with_change "AMC" 50)))%Z.
Proof.
  apply (squeeze_score_monotone
           (mock_record {| si := 18.7; util := 82.1; ctb := 8.9; dtc := 3.8 |})
           (mock_record {| si := 22.4; util := 89.2; ctb := 12.8; dtc := 4.1 |})
           (quote_with_change "AMC" 50)).
  exists 18.7%Q, 82.1%Q, 8.9%Q, 3.8%Q, 22.4%Q, 89.2%Q, 12.8%Q, 4.1%Q.
  repeat (split; [vm_compute; (reflexivity || discriminate)|]).
  vm_compute. discriminate.
Defined.

(** ** ShortInterestFeed, continued *)






(** The estimates are computed without an exception when the short
    interest that was read lies between 0 and 2^1023. *)
Lemma estimate_missing_returns (p : ortex_record) :
  (∀ s, short_interest p = Some s → (0 <= s)%Q ∧ (s <= 2 ^ 1023)%Q) →
  estimate_missing p = Ok (estimates p).
Proof.
  intros Hs. destruct (estimate_missing_cases p) as [E|E]; [done|].
  exfalso. revert E. unfold estimate_missing.
  destruct (short_interest p) as [s|] eqn:Hp; [|discriminate].
  destruct (Hs s eq_refl) as [H0 H1].
  rewrite !(mul_float_in_range s) by done.
  destruct (Py.truthy s && negb (field_truthy (utilization p)));
    cbn [mbind result_bind mret result_ret set_utilization set_days_to_cover
         days_to_cover cost_to_borrow];
    destruct (Py.truthy s && negb (field_truthy (days_to_cover p)));
    cbn [mbind result_bind mret result_ret set_utilization set_days_to_cover
         days_to_cover cost_to_borrow];
    destruct (Py.truthy s && negb (field_truthy (cost_to_borrow p)));
    discriminate.
Qed.




(** A metric that the provider reports as 0 counts as missing: in any
    payload, when the loop has read a short interest between 0 and 2^1023
    that is not zero and a utilization of 0, the record is returned with
    the utilization replaced by the estimate. *)
Theorem zero_utilization_is_replaced (j : json) (s u : Q) :
  short_interest (extracted j) = Some s →
  (0 < s)%Q → (s <= 2 ^ 1023)%Q →
  utilization (extracted j) = Some u → (u == 0)%Q →
  ∃ r,
    process_ortex_json_fast j = Ok r ∧
    short_interest r = Some s ∧
    utilization r = Some (Py.min (s * 3.5) 95).
Proof.
  intros Hs H0 H1 Hu Hzero.
  exists (estimates (extracted j)). split.
  { apply estimate_missing_returns. intros s' Hs'. rewrite Hs in Hs'.
    injection Hs' as <-. split; [by apply Qlt_le_weak|done]. }
  unfold estimates. cbn [short_interest utilization]. rewrite Hs, Hu.
  split; [done|].
  cbn [field_truthy]. unfold Py.truthy.
  assert (Qeq_bool s 0 = false) as ->.
  { apply not_true_is_false. intros E%Qeq_bool_iff. rewrite E in H0.
    by apply Qlt_irrefl in H0. }
  apply Qeq_bool_iff in Hzero. rewrite Hzero. reflexivity.
Qed.

Lemma zero_utilization_is_replaced_witness :
  ∃ r,
    process_ortex_json_fast
      (JObj [("short_interest", JNum 20); ("utilization", JNum 0)]) = Ok r ∧
    short_interest r = Some 20%Q ∧
    utilization r = Some (Py.min (20 * 3.5) 95).
Proof.
  apply (zero_utilization_is_replaced
           (JObj [("short_interest", JNum 20); ("utilization", JNum 0)]) 20 0).
  - reflexivity.
  - reflexivity.
  - vm_compute. discriminate.
  - reflexivity.
  - reflexivity.
Defined.

(** The feed asks the nasdaq endpoint first and the nyse endpoint only when
    the first contributes no record: when its request fails, its answer is
    not JSON with status 200, or processing its body raises.  What the feed
    returns is the record of the first endpoint that contributes one, and
    nothing when none does; no failure of an endpoint reaches the caller. *)
Theorem get_fast_ortex_data_first_answer (w : world) (t k : string) :
  k ≠ "" →
  ∃ nasdaq nyse,
    working_endpoints t = [nasdaq; nyse] ∧
    get_fast_ortex_data w t (Some k) =
      match endpoint_record w k nasdaq with
      | Some r => Some r
      | None => endpoint_record w k nyse
      end ∧
    ∀ j e,
      endpoint_json w k nasdaq = Some j →
      process_ortex_json_fast j = Raise e →
      get_fast_ortex_data w t (Some k) = endpoint_record w k nyse.
Proof.
  intros Hk. eexists _, _. split; [reflexivity|].
  assert (get_fast_ortex_data w t (Some k) =
          match endpoint_record w k
                  ("https://api.ortex.com/api/v1/stock/nasdaq/" +:+ t
                   +:+ "/short_interest") with
          | Some r => Some r
          | None =>
              endpoint_record w k
                ("https://api.ortex.com/api/v1/stock/nyse/" +:+ t
                 +:+ "/short_interest")
          end) as Hget.
  { unfold get_fast_ortex_data.
    rewrite (proj2 (String.eqb_neq k "")) by done.
    unfold working_endpoints, try_endpoints, endpoint_record, endpoint_json.
    repeat (match goal with
            | |- context [match ortex_http ?a ?b ?c with _ => _ end] =>
                destruct (ortex_http a b c) as [|? ? [?|]]
            | |- context [if ?b then _ else _] => destruct b
            | |- context [match process_ortex_json_fast ?a with _ => _ end] =>
                destruct (process_ortex_json_fast a)
            end; try reflexivity). }
  split; [exact Hget|].
  intros j e Hj Hraise. rewrite Hget.
  unfold endpoint_record at 1. by rewrite Hj, Hraise.
Qed.

Lemma get_fast_ortex_data_first_answer_witness :
  get_fast_ortex_data huge_on_nasdaq "GME" (Some "key")
  = endpoint_record huge_on_nasdaq "key"
      "https://api.ortex.com/api/v1/stock/nyse/GME/short_interest" ∧
  ∃ r,
    get_fast_ortex_data huge_on_nasdaq "GME" (Some "key") = Some r ∧
    short_interest r = Some 20%Q.
Proof.
  destruct (get_fast_ortex_data_first_answer huge_on_nasdaq "GME" "key")
    as (nasdaq & nyse & Hurls & Hget & Hraise); [discriminate|].
  injection Hurls as <- <-.
  split.
  - apply (Hraise
             (JObj [("short_interest", JNum (inject_Z (10 ^ 400)))])
             OverflowError);
      vm_compute; reflexivity.
  - eexists. split; vm_compute; reflexivity.
Defined.

(** ** PriceFeed, continued *)

Lemma price_data_within_deadline_witness :
  ∃ price_data,
    get_yahoo_price_data_fast (sample_world 10 [] HttpError) ["GME"; "AMC"] 12
    = Ok price_data ∧
    ∀ t, price_data !! t =
         if decide (t ∈ ["GME"; "AMC"])
         then match get_single_price_fast (sample_world 10 [] HttpError) t with
              | FetchOk r => Some r
              | _ => None
              end
         else None.
Proof.
  apply (price_data_within_deadline (sample_world 10 [] HttpError)
           ["GME"; "AMC"] 12).
  intros t _. simpl. discriminate.
Defined.



(** A result entry without a [meta] object is not a failure: every field
    falls back to its default and the ticker gets a quote of zeros. *)
Theorem entry_without_meta_gives_zero_quote (w : world) (t : string)
    (data chart entry : list (string * json)) (rest : list json) :
  yahoo_http w (price_url t) = Some (JObj data) →
  assoc "chart" data = Some (JObj chart) →
  assoc "result" chart = Some (JArr (JObj entry :: rest)) →
  assoc "meta" entry = None →
  get_single_price_fast w t =
  FetchOk {| ticker := t; current_price := 0; price_change := 0;
             price_change_pct := 0; volume := JNum 0; success := true |}.
Proof.
  intros Hdata Hchart Hresult Hmeta.
  unfold get_single_price_fast, price_body, meta_of. rewrite Hdata.
  cbn [py_in py_getitem]. rewrite Hchart. run_bind.
  cbn [py_in py_getitem bool_decide decide_rel negb]. simpl.
  rewrite Hresult. simpl. rewrite Hmeta. reflexivity.
Qed.

Lemma entry_without_meta_gives_zero_quote_witness :
  get_single_price_fast
    {| ortex_http := λ _ _, HttpError;
       yahoo_http := λ _, Some (JObj [("chart", JObj [("result", JArr [JObj []])])]);
       yahoo_done_at := λ _, 1%Q;
       time_start := 0; time_end := 1;
       now_isoformat := λ _, "2024-01-01T00:00:00" |} "GME" =
  FetchOk {| ticker := "GME"; current_price := 0; price_change := 0;
             price_change_pct := 0; volume := JNum 0; success := true |}.
Proof.
  apply (entry_without_meta_gives_zero_quote _ "GME"
           [("chart", JObj [("result", JArr [JObj []])])]
           [("result", JArr [JObj []])] [] []); reflexivity.
Defined.



(** ** SyntheticEstimator, continued *)

Lemma estimator_deterministic_within_process_witness :
  (generate_smart_mock_data (cpython 1) ["GME"; "KOSS"] (λ _, 0%Q)).1 !! "KOSS" =
  (generate_smart_mock_data (cpython 1) ["KOSS"; "AMC"] (λ _, 1%Q)).1 !! "KOSS".
Proof.
  apply (estimator_deterministic_within_process (cpython 1)
           ["GME"; "KOSS"] ["KOSS"; "AMC"] (λ _, 0%Q) (λ _, 1%Q) "KOSS").
  - right. left.
  - left.
Defined.

(** A ticker of the built-in table gets the table's metrics in every
    process: neither the hash secret nor the generator takes part. *)
Theorem built_in_profile_wins (py : python) (ts : list string) (g : rng)
    (t : string) (p : profile) :
  t ∈ ts →
  profile_get t squeeze_profiles = Some p →
  (generate_smart_mock_data py ts g).1 !! t = Some (mock_record p).
Proof.
  intros Ht Hp. rewrite generate_smart_mock_data_lookup, decide_True by done.
  unfold profile_for. by rewrite Hp.
Qed.

Lemma built_in_profile_wins_witness :
  (generate_smart_mock_data (cpython 2) ["KOSS"; "SAVA"] (λ _, 0%Q)).1 !! "SAVA" =
  Some (mock_record {| si := 35.2; util := 95.1; ctb := 45.8; dtc := 12.3 |}).
Proof.
  apply (built_in_profile_wins (cpython 2) ["KOSS"; "SAVA"] (λ _, 0%Q) "SAVA").
  - right. left.
  - reflexivity.
Defined.

Lemma mock_step_fold_profiles (py : python) (ts : list string)
    (m : gmap string ortex_record) (g : rng) :
  Forall (λ x, is_Some (profile_get x squeeze_profiles)) ts →
  (fold_left (mock_step py) ts (m, g)).2 = g.
Proof.
  revert m. induction ts as [|x ts IH]; intros m Hall; [done|].
  apply Forall_cons in Hall as [[p Hp] Hall].
  cbn [fold_left]. unfold mock_step at 2. rewrite Hp. by apply IH.
Qed.

(** The estimator seeds the generator of the whole process: after a batch
    the generator is in the state the last ticker without a built-in profile
    left it in, whatever its state was before the call. *)
Theorem estimator_leaves_generator_seeded (py : python)
    (ts1 ts2 : list string) (t : string) (g : rng) :
  profile_get t squeeze_profiles = None →
  Forall (λ x, is_Some (profile_get x squeeze_profiles)) ts2 →
  (generate_smart_mock_data py (ts1 ++ t :: ts2) g).2 = (generated_profile py t).2.
Proof.
  intros Ht Hts2. unfold generate_smart_mock_data.
  rewrite fold_left_app.
  destruct (fold_left (mock_step py) ts1 (∅, g)) as [m g1].
  cbn [fold_left]. unfold mock_step at 2. rewrite Ht.
  destruct (generated_profile py t) as [p g2].
  by apply mock_step_fold_profiles.
Qed.

Lemma estimator_leaves_generator_seeded_witness :
  (generate_smart_mock_data (cpython 1) (["GME"] ++ "KOSS" :: ["AMC"]) (λ _, 0%Q)).2
  = (generated_profile (cpython 1) "KOSS").2.
Proof.
  apply (estimator_leaves_generator_seeded (cpython 1) ["GME"] ["AMC"] "KOSS"
           (λ _, 0%Q)).
  - reflexivity.
  - repeat constructor. by eexists.
Defined.

(** Rounding to one decimal keeps a number between two bounds that have one
    decimal themselves. *)
Lemma round_1_between (x : Q) (a b : Z) :
  (inject_Z a / 10 <= x)%Q → (x <= inject_Z b / 10)%Q →
  (inject_Z a / 10 <= Py.round x 1)%Q ∧ (Py.round x 1 <= inject_Z b / 10)%Q.
Proof.
  intros Ha Hb. unfold Py.round. rewrite Qred_correct.
  change (inject_Z (10 ^ Z.of_nat 1)) with 10%Q.
  assert (∀ z, inject_Z z == inject_Z z / 10 * 10)%Q as Hten by (intros; field).
  pose proof (Hten a) as Ea. pose proof (Hten b) as Eb.
  pose proof (Hten (Py.round_half_even (x * 10))) as Er.
  destruct (round_half_even_between (x * 10) a b) as [H1 H2].
  { rewrite Ea. lra. }
  { rewrite Eb. lra. }
  rewrite Zle_Qle in H1, H2. rewrite Ea, Er in H1. rewrite Er, Eb in H2.
  split; lra.
Qed.

Lemma uniform_between (lo hi r : Q) :
  (lo <= hi)%Q → (0 <= r)%Q → (r < 1)%Q →
  (lo <= lo + (hi - lo) * r)%Q ∧ (lo + (hi - lo) * r <= hi)%Q.
Proof. intros. split; nra. Qed.

Lemma round_1_within (x lo hi : Q) (a b : Z) :
  (lo == inject_Z a / 10)%Q → (hi == inject_Z b / 10)%Q →
  (lo <= x)%Q → (x <= hi)%Q →
  (lo <= Py.round x 1)%Q ∧ (Py.round x 1 <= hi)%Q.
Proof.
  intros Ea Eb Hlo Hhi. rewrite Ea, Eb in *. by apply round_1_between.
Qed.

(** What one branch of the estimator draws: three metrics between their
    bounds, and days to cover as the short interest times a factor between
    0.2 and 0.5. *)
Lemma drawn_profile_within (r0 r1 r2 r3 : Q)
    (si_lo si_hi util_lo util_hi ctb_lo ctb_hi dtc_lo dtc_hi : Q)
    (a1 b1 a2 b2 a3 b3 a4 b4 : Z) :
  (0 <= r0 < 1)%Q → (0 <= r1 < 1)%Q → (0 <= r2 < 1)%Q → (0 <= r3 < 1)%Q →
  (0 <= si_lo)%Q → (si_lo <= si_hi)%Q → (util_lo <= util_hi)%Q → (ctb_lo <= ctb_hi)%Q →
  (dtc_lo == si_lo * 0.2)%Q → (dtc_hi == si_hi * 0.5)%Q →
  (si_lo == inject_Z a1 / 10)%Q → (si_hi == inject_Z b1 / 10)%Q →
  (util_lo == inject_Z a2 / 10)%Q → (util_hi == inject_Z b2 / 10)%Q →
  (ctb_lo == inject_Z a3 / 10)%Q → (ctb_hi == inject_Z b3 / 10)%Q →
  (dtc_lo == inject_Z a4 / 10)%Q → (dtc_hi == inject_Z b4 / 10)%Q →
  profile_within
    {| si := Py.round (si_lo + (si_hi - si_lo) * r0) 1;
       util := Py.round (util_lo + (util_hi - util_lo) * r1) 1;
       ctb := Py.round (ctb_lo + (ctb_hi - ctb_lo) * r2) 1;
       dtc := Py.round ((si_lo + (si_hi - si_lo) * r0) * (0.2 + (0.5 - 0.2) * r3)) 1 |}
    si_lo si_hi util_lo util_hi ctb_lo ctb_hi dtc_lo dtc_hi.
Proof.
  intros [? ?] [? ?] [? ?] [? ?] Hpos Hsi Hutil Hctb Edl Edh E1 F1 E2 F2 E3 F3 E4 F4.
  unfold profile_within. cbn [si util ctb dtc].
  destruct (uniform_between si_lo si_hi r0) as [S1 S2]; [done..|].
  destruct (uniform_between util_lo util_hi r1) as [U1 U2]; [done..|].
  destruct (uniform_between ctb_lo ctb_hi r2) as [C1 C2]; [done..|].
  destruct (uniform_between 0.2 0.5 r3) as [D1 D2]; [lra|done..|].
  set (x := (si_lo + (si_hi - si_lo) * r0)%Q) in *.
  set (f := (0.2 + (0.5 - 0.2) * r3)%Q) in *.
  destruct (round_1_within x si_lo si_hi a1 b1) as [? ?]; [done..|].
  destruct (round_1_within (util_lo + (util_hi - util_lo) * r1) util_lo util_hi a2 b2)
    as [? ?]; [done..|].
  destruct (round_1_within (ctb_lo + (ctb_hi - ctb_lo) * r2) ctb_lo ctb_hi a3 b3)
    as [? ?]; [done..|].
  destruct (round_1_within (x * f) dtc_lo dtc_hi a4 b4) as [? ?]; [done..| | |].
  { rewrite Edl. nra. }
  { rewrite Edh. nra. }
  repeat split; done.
Qed.

(** With a generator that returns numbers from 0 to 1, a generated profile
    lies in the ranges of its category: the category decides the ranges of
    short interest, utilization and cost to borrow, and days to cover is
    between 0.2 times the lowest and 0.5 times the highest short interest.
    In particular no generated metric is negative. *)
Theorem generated_profile_ranges (py : python) (t : string) :
  unit_interval py →
  (in_category t "top_meme_stocks" = true →
   profile_within (generated_profile py t).1 15 35 75 95 10 40 3 17.5) ∧
  (in_category t "top_meme_stocks" = false →
   in_category t "biotech_squeeze" = true →
   profile_within (generated_profile py t).1 20 40 80 98 15 60 4 20) ∧
  (in_category t "top_meme_stocks" = false →
   in_category t "biotech_squeeze" = false →
   in_category t "large_cap_samples" = true →
   profile_within (generated_profile py t).1 1 6 20 50 0.5 3 0.2 3) ∧
  (in_category t "top_meme_stocks" = false →
   in_category t "biotech_squeeze" = false →
   in_category t "large_cap_samples" = false →
   profile_within (generated_profile py t).1 8 25 50 85 3 20 1.6 12.5).
Proof.
  intros Hunit. unfold generated_profile.
  set (g := seeded py (hash_str py t `mod` 10000)%Z).
  pose proof (Hunit (hash_str py t `mod` 10000)%Z 0%nat) as H0.
  pose proof (Hunit (hash_str py t `mod` 10000)%Z 1%nat) as H1.
  pose proof (Hunit (hash_str py t `mod` 10000)%Z 2%nat) as H2.
  pose proof (Hunit (hash_str py t `mod` 10000)%Z 3%nat) as H3.
  fold g in H0, H1, H2, H3.
  split; [|split; [|split]]; intros;
    repeat match goal with H : in_category _ _ = _ |- _ => rewrite H; clear H end;
    cbn [random_uniform random_random fst snd].
  - apply (drawn_profile_within _ _ _ _ 15 35 75 95 10 40 3 17.5
             150 350 750 950 100 400 30 175); (done || by vm_compute).
  - apply (drawn_profile_within _ _ _ _ 20 40 80 98 15 60 4 20
             200 400 800 980 150 600 40 200); (done || by vm_compute).
  - apply (drawn_profile_within _ _ _ _ 1 6 20 50 0.5 3 0.2 3
             10 60 200 500 5 30 2 30); (done || by vm_compute).
  - apply (drawn_profile_within _ _ _ _ 8 25 50 85 3 20 1.6 12.5
             80 250 500 850 30 200 16 125); (done || by vm_compute).
Qed.

(** ** The generator of the CPython runtime stays in the unit interval *)

Lemma word32_log2 (x : Z) : word32 x ↔ (0 ≤ x)%Z ∧ (Z.log2 x < 32)%Z.
Proof.
  unfold word32. split.
  - intros [H0 H1]. split; [done|].
    destruct (Z.eq_dec x 0%Z) as [->|Hx]; [done|].
    apply Z.log2_lt_pow2; lia.
  - intros [H0 H1]. split; [done|].
    destruct (Z.eq_dec x 0%Z) as [->|Hx]; [done|].
    apply Z.log2_lt_pow2; lia.
Qed.

Lemma word32_u32 (x : Z) : word32 (CPython.u32 x).
Proof. unfold word32, CPython.u32. apply Z.mod_pos_bound. done. Qed.

Lemma word32_lxor (a b : Z) : word32 a → word32 b → word32 (Z.lxor a b).
Proof.
  rewrite !word32_log2. intros [Ha La] [Hb Lb]. split.
  - apply Z.lxor_nonneg. tauto.
  - pose proof (Z.log2_lxor a b Ha Hb). lia.
Qed.

Lemma word32_lor (a b : Z) : word32 a → word32 b → word32 (Z.lor a b).
Proof.
  rewrite !word32_log2. intros [Ha La] [Hb Lb]. split.
  - apply Z.lor_nonneg. tauto.
  - rewrite Z.log2_lor by done. lia.
Qed.

Lemma word32_land (a b : Z) : (0 ≤ a)%Z → word32 b → word32 (Z.land a b).
Proof.
  rewrite !word32_log2. intros Ha [Hb Lb]. split.
  - apply Z.land_nonneg. tauto.
  - pose proof (Z.log2_land a b Ha Hb). lia.
Qed.

Lemma word32_shiftr (a n : Z) : (0 ≤ n)%Z → word32 a → word32 (Z.shiftr a n).
Proof.
  unfold word32. intros Hn [Ha La]. rewrite Z.shiftr_div_pow2 by done.
  split; [apply Z.div_pos; lia|].
  eapply Z.le_lt_trans; [|exact La].
  apply Z.div_le_upper_bound; [lia|]. nia.
Qed.

Lemma word32_mt_get (mt : list Z) (i : nat) :
  Forall word32 mt → word32 (CPython.mt_get mt i).
Proof.
  intros Hmt. unfold CPython.mt_get.
  destruct (nth_in_or_default i mt 0%Z) as [Hin| ->]; [|done].
  rewrite Forall_forall in Hmt. apply Hmt. by apply list_elem_of_In.
Qed.

Lemma word32_insert (mt : list Z) (i : nat) (x : Z) :
  Forall word32 mt → word32 x → Forall word32 (<[i:=x]> mt).
Proof. intros Hmt Hx. by apply Forall_insert. Qed.

Lemma word32_init_genrand_from (prev : Z) (i count : nat) :
  Forall word32 (CPython.init_genrand_from prev i count).
Proof.
  revert prev i. induction count as [|count IH]; intros prev i; simpl.
  - constructor.
  - constructor; [apply word32_u32|apply IH].
Qed.

Lemma word32_wrap_index (mt : list Z) (i : nat) :
  Forall word32 mt → Forall word32 (CPython.wrap_index mt i).1.
Proof.
  intros Hmt. unfold CPython.wrap_index.
  destruct (CPython.N <=? i)%nat; [|done]. simpl.
  apply word32_insert; [done|]. by apply word32_mt_get.
Qed.

Lemma word32_mix_key (k : nat) (key mt : list Z) (i j : nat) :
  Forall word32 mt → Forall word32 (CPython.mix_key k key mt i j).1.
Proof.
  revert mt i j. induction k as [|k IH]; intros mt i j Hmt; [done|].
  cbn [CPython.mix_key].
  set (x := CPython.u32 _).
  pose proof (word32_wrap_index (<[i:=x]> mt) (S i)
                (word32_insert mt i x Hmt (word32_u32 _))) as Hw.
  destruct (CPython.wrap_index (<[i:=x]> mt) (S i)) as [mt' i']. by apply IH.
Qed.

Lemma word32_mix_index (k : nat) (mt : list Z) (i : nat) :
  Forall word32 mt → Forall word32 (CPython.mix_index k mt i).
Proof.
  revert mt i. induction k as [|k IH]; intros mt i Hmt; [done|].
  cbn [CPython.mix_index].
  set (x := CPython.u32 _).
  pose proof (word32_wrap_index (<[i:=x]> mt) (S i)
                (word32_insert mt i x Hmt (word32_u32 _))) as Hw.
  destruct (CPython.wrap_index (<[i:=x]> mt) (S i)) as [mt' i']. by apply IH.
Qed.

Lemma word32_seed (a : Z) : Forall word32 (CPython.seed a).
Proof.
  unfold CPython.seed, CPython.init_by_array.
  set (key := CPython.words_of _ _).
  assert (Forall word32 (CPython.init_genrand 19650218%Z)) as Hinit.
  { unfold CPython.init_genrand.
    constructor; [apply word32_u32|apply word32_init_genrand_from]. }
  pose proof (word32_mix_key (Nat.max CPython.N (length key)) key _ 1 0 Hinit) as Hk.
  destruct (CPython.mix_key _ key _ 1 0) as [mt i].
  apply word32_insert; [by apply word32_mix_index|].
  unfold word32. lia.
Qed.

Lemma word32_twist_from (count kk : nat) (mt : list Z) :
  Forall word32 mt → Forall word32 (CPython.twist_from count kk mt).
Proof.
  revert kk mt. induction count as [|count IH]; intros kk mt Hmt; [done|].
  cbn [CPython.twist_from]. apply IH. apply word32_insert; [done|].
  apply word32_lxor; [apply word32_lxor|].
  - by apply word32_mt_get.
  - apply word32_shiftr; [lia|]. apply word32_lor.
    + rewrite Z.land_comm. apply word32_land; [|by apply word32_mt_get].
      lia.
    + rewrite Z.land_comm. apply word32_land; [|by apply word32_mt_get].
      lia.
  - destruct (Z.odd _); unfold word32; lia.
Qed.

Lemma word32_twists (k : nat) (mt : list Z) :
  Forall word32 mt → Forall word32 (Nat.iter k CPython.twist mt).
Proof.
  intros Hmt. induction k as [|k IH]; [done|].
  simpl. by apply word32_twist_from.
Qed.

Lemma word32_temper (y : Z) : word32 y → word32 (CPython.temper y).
Proof.
  intros Hy. unfold CPython.temper.
  assert (word32 (Z.lxor y (Z.shiftr y 11%Z))) as H1.
  { apply word32_lxor; [done|]. by apply word32_shiftr. }
  set (y1 := Z.lxor y (Z.shiftr y 11%Z)) in *.
  assert (word32 (Z.lxor y1 (Z.land (CPython.u32 (Z.shiftl y1 7%Z)) 0x9d2c5680%Z))) as H2.
  { apply word32_lxor; [done|]. apply word32_land; [apply word32_u32|].
    unfold word32. lia. }
  set (y2 := Z.lxor y1 _) in *.
  assert (word32 (Z.lxor y2 (Z.land (CPython.u32 (Z.shiftl y2 15%Z)) 0xefc60000%Z))) as H3.
  { apply word32_lxor; [done|]. apply word32_land; [apply word32_u32|].
    unfold word32. lia. }
  set (y3 := Z.lxor y2 _) in *.
  apply word32_lxor; [done|]. by apply word32_shiftr.
Qed.

Lemma word32_genrand (a : Z) (j : nat) :
  word32 (CPython.genrand_uint32 (CPython.twist (CPython.seed a)) j).
Proof.
  unfold CPython.genrand_uint32. apply word32_temper, word32_mt_get.
  apply word32_twists. apply word32_twist_from, word32_seed.
Qed.

(** [random.random()] of the CPython model is a number from 0 to 1, 1
    excluded. *)
Lemma cpython_random_unit (a : Z) (i : nat) :
  (0 <= CPython.random a i)%Q ∧ (CPython.random a i < 1)%Q.
Proof.
  unfold CPython.random. cbv zeta.
  pose proof (word32_genrand a (2 * i)) as [H0 H1].
  pose proof (word32_genrand a (2 * i + 1)) as [L0 L1].
  set (x := CPython.genrand_uint32 _ (2 * i)) in *.
  set (y := CPython.genrand_uint32 _ (2 * i + 1)) in *.
  assert (0 ≤ Z.shiftr x 5 < 2 ^ 27)%Z as [Hx0 Hx1].
  { rewrite Z.shiftr_div_pow2 by lia. split; [apply Z.div_pos; lia|].
    apply Z.div_lt_upper_bound; lia. }
  assert (0 ≤ Z.shiftr y 6 < 2 ^ 26)%Z as [Hy0 Hy1].
  { rewrite Z.shiftr_div_pow2 by lia. split; [apply Z.div_pos; lia|].
    apply Z.div_lt_upper_bound; lia. }
  rewrite Qred_correct. unfold Qle, Qlt. simpl. lia.
Qed.

Lemma cpython_unit_interval (hashseed : Z) : unit_interval (cpython hashseed).
Proof. intros n i. apply cpython_random_unit. Qed.

Lemma generated_profile_ranges_witness :
  (in_category "KOSS" "top_meme_stocks" = true →
   profile_within (generated_profile (cpython 1) "KOSS").1 15 35 75 95 10 40 3 17.5) ∧
  (in_category "KOSS" "top_meme_stocks" = false →
   in_category "KOSS" "biotech_squeeze" = true →
   profile_within (generated_profile (cpython 1) "KOSS").1 20 40 80 98 15 60 4 20) ∧
  (in_category "KOSS" "top_meme_stocks" = false →
   in_category "KOSS" "biotech_squeeze" = false →
   in_category "KOSS" "large_cap_samples" = true →
   profile_within (generated_profile (cpython 1) "KOSS").1 1 6 20 50 0.5 3 0.2 3) ∧
  (in_category "KOSS" "top_meme_stocks" = false →
   in_category "KOSS" "biotech_squeeze" = false →
   in_category "KOSS" "large_cap_samples" = false →
   profile_within (generated_profile (cpython 1) "KOSS").1 8 25 50 85 3 20 1.6 12.5).
Proof.
  apply (generated_profile_ranges (cpython 1) "KOSS").
  apply cpython_unit_interval.
Defined.

(** ** ScanOrchestrator, continued *)

(** Everything a finished scan returns, read off its run. *)
Lemma scan_run_shape (py : python) (w : world) (st : process)
    (key : option string) (f : option filters) (run : scan_run) :
  perform_optimized_scan py w st key f = Ok run →
  ∃ scan_tickers price_data pre,
    select_tickers py (performance st) f = Ok scan_tickers ∧
    get_yahoo_price_data_fast w scan_tickers 12 = Ok price_data ∧
    results (output run) = sort_by_score pre ∧
    top_score (stats (output run)) =
      match sort_by_score pre with
      | r :: _ => r_squeeze_score r
      | [] => 0%Z
      end ∧
    scan_time_seconds (stats (output run)) = Py.round (time_end w - time_start w) 1 ∧
    random_state (state_after run) =
      (generate_smart_mock_data py (priced price_data scan_tickers)
         (random_state st)).2 ∧
    max_safe_batch_size (performance (state_after run)) =
      max_safe_batch_size (performance st) ∧
    timeout_threshold (performance (state_after run)) =
      timeout_threshold (performance st) ∧
    (sort_by_score pre = [] → performance (state_after run) = performance st) ∧
    (sort_by_score pre ≠ [] →
     avg_ticker_time (performance (state_after run)) =
     ((time_end w - time_start w)
      / inject_Z (Z.of_nat (length (sort_by_score pre))))%Q).
Proof.
  unfold perform_optimized_scan. intros H.
  inv_bind H. inv_bind H.
  destruct (live_feed w key (priced a0 a)) as [live calls].
  destruct (generate_smart_mock_data py (priced a0 a) (random_state st))
    as [mock g] eqn:Hgen.
  inv_bind H. inv_bind H. inv_bind H. injection H as <-.
  exists a, a0, a2. cbn [output results stats top_score scan_time_seconds
    state_after random_state performance snd].
  repeat (split; [done|]).
  destruct (sort_by_score a2) as [|r rs] eqn:Hsorted.
  - cbn in Ha3. injection Ha3 as <-. rewrite Hgen. by repeat split.
  - cbn [length Nat.ltb Nat.leb] in Ha3. unfold true_div in Ha3.
    destruct (Qeq_bool _ 0); [discriminate|].
    cbn [mbind result_bind mret result_ret] in Ha3.
    injection Ha3 as <-. rewrite Hgen. by repeat split.
Qed.

Lemma perform_optimized_scan_returns_witness :
  ∃ run,
    perform_optimized_scan (cpython 0) (sample_world 10 [] HttpError)
      (initial_process (λ _, 0%Q)) (Some "key") three_tickers = Ok run.
Proof.
  apply (perform_optimized_scan_returns (cpython 0) (sample_world 10 [] HttpError)
           (initial_process (λ _, 0%Q)) (Some "key") three_tickers
           ["GME"; "AMC"; "BBBY"]).
  - vm_compute. reflexivity.
  - intros t _. simpl. discriminate.
Defined.

Lemma sort_by_score_length (l : list scan_result) :
  length (sort_by_score l) = length l.
Proof. by rewrite sort_by_score_Permutation. Qed.

(** A scan scores every priced ticker once and nothing else, and each
    result is consistent in itself: it carries the quote of its ticker,
    and its score, type and risk factors are those of the metrics and the
    quote it reports. *)
Theorem scan_scores_every_priced_ticker (py : python) (w : world) (st : process)
    (key : option string) (f : option filters) (run : scan_run) :
  perform_optimized_scan py w st key f = Ok run →
  ∃ scan_tickers price_data,
    select_tickers py (performance st) f = Ok scan_tickers ∧
    get_yahoo_price_data_fast w scan_tickers 12 = Ok price_data ∧
    r_ticker <$> results (output run) ≡ₚ priced price_data scan_tickers ∧
    successful_analysis (stats (output run)) = length (priced price_data scan_tickers) ∧
    total_tickers_scanned (stats (output run)) = length scan_tickers ∧
    (successful_analysis (stats (output run))
     ≤ total_tickers_scanned (stats (output run)))%nat ∧
    Forall (λ r, ∃ p,
              price_data !! r_ticker r = Some p ∧
              r_current_price r = current_price p ∧
              r_price_change r = price_change p ∧
              r_price_change_pct r = price_change_pct p ∧
              r_volume r = volume p ∧
              r_data_quality r = data_quality (r_ortex_data r) ∧
              r_squeeze_score r =
                squeeze_score (calculate_squeeze_score_optimized (r_ortex_data r) p) ∧
              r_squeeze_type r =
                squeeze_type (calculate_squeeze_score_optimized (r_ortex_data r) p) ∧
              r_risk_factors r =
                risk_factors (calculate_squeeze_score_optimized (r_ortex_data r) p))
      (results (output run)).
Proof.
  intros Hrun.
  destruct (scan_Ok_inv _ _ _ _ _ _ Hrun) as (scan_tickers & pd & Hsel & Hpd).
  destruct (scan_anatomy py w st key f _ _ Hsel Hpd)
    as (run' & pre & Hrun' & Hres & Hmap & Hpre & _ & _ & Hcount & Htotal).
  rewrite Hrun in Hrun'. injection Hrun' as <-.
  exists scan_tickers, pd. split; [done|]. split; [done|].
  assert (length (results (output run)) = length (priced pd scan_tickers)) as Hlen.
  { by rewrite Hres, sort_by_score_length, <- Hmap, length_fmap. }
  split; [by rewrite Hres, sort_by_score_Permutation, Hmap|].
  split; [by rewrite Hcount|]. split; [done|]. split.
  - rewrite Hcount, Htotal, Hlen. apply length_filter.
  - rewrite Hres, sort_by_score_Permutation.
    eapply Forall_impl; [exact Hpre|]. cbn beta.
    intros r (n & p & Hp & Hr). exists p. split; [done|].
    rewrite Hr. by repeat split.
Qed.

Lemma scan_scores_every_priced_ticker_witness :
  ∃ run,
    perform_optimized_scan (cpython 0) (sample_world 10 [] HttpError)
      (initial_process (λ _, 0%Q)) (Some "key") three_tickers = Ok run ∧
    ∃ scan_tickers price_data,
      select_tickers (cpython 0) initial_performance_stats three_tickers
      = Ok scan_tickers ∧
      get_yahoo_price_data_fast (sample_world 10 [] HttpError) scan_tickers 12
      = Ok price_data ∧
      r_ticker <$> results (output run) ≡ₚ priced price_data scan_tickers ∧
      successful_analysis (stats (output run))
      = length (priced price_data scan_tickers) ∧
      total_tickers_scanned (stats (output run)) = length scan_tickers ∧
      (successful_analysis (stats (output run))
       ≤ total_tickers_scanned (stats (output run)))%nat ∧
      Forall (λ r, ∃ p,
                price_data !! r_ticker r = Some p ∧
                r_current_price r = current_price p ∧
                r_price_change r = price_change p ∧
                r_price_change_pct r = price_change_pct p ∧
                r_volume r = volume p ∧
                r_data_quality r = data_quality (r_ortex_data r) ∧
                r_squeeze_score r =
                  squeeze_score
                    (calculate_squeeze_score_optimized (r_ortex_data r) p) ∧
                r_squeeze_type r =
                  squeeze_type
                    (calculate_squeeze_score_optimized (r_ortex_data r) p) ∧
                r_risk_factors r =
                  risk_factors
                    (calculate_squeeze_score_optimized (r_ortex_data r) p))
        (results (output run)).
Proof.
  destruct (perform_optimized_scan (cpython 0) (sample_world 10 [] HttpError)
              (initial_process (λ _, 0%Q)) (Some "key") three_tickers)
    as [run|e] eqn:E; [|vm_compute in E; discriminate].
  exists run. split; [reflexivity|].
  exact (scan_scores_every_priced_ticker _ _ _ _ _ run E).
Defined.

Lemma live_feed_dom (w : world) (key : option string)
    (successful : list string) (t : string) (v : ortex_record) :
  (live_feed w key successful).1 !! t = Some v → t ∈ take 5 successful.
Proof.
  unfold live_feed.
  destruct (key_truthy key && (length successful <=? 10)%nat).
  - destruct (feed_step_fold w key (take 5 successful) ∅ []) as (m' & -> & Hm').
    simpl. intros Ht. destruct (Hm' _ _ Ht) as [Hempty|[Hin _]]; [|done].
    by rewrite lookup_empty in Hempty.
  - simpl. by rewrite lookup_empty.
Qed.

(** At most five results of a scan are tagged as live data, however many
    tickers are priced. *)
Theorem live_results_at_most_five (py : python) (w : world) (st : process)
    (key : option string) (f : option filters) (run : scan_run) :
  perform_optimized_scan py w st key f = Ok run →
  (live_ortex_count (stats (output run)) ≤ 5)%nat ∧
  (live_ortex_count (stats (output run))
   ≤ successful_analysis (stats (output run)))%nat.
Proof.
  intros Hrun.
  destruct (scan_Ok_inv _ _ _ _ _ _ Hrun) as (scan_tickers & pd & Hsel & Hpd).
  destruct (scan_anatomy py w st key f _ _ Hsel Hpd)
    as (run' & pre & Hrun' & Hres & Hmap & Hpre & _ & Hlive & Hcount & _).
  rewrite Hrun in Hrun'. injection Hrun' as <-.
  rewrite Hlive, Hcount. split; [|apply length_filter].
  set (successful := priced pd scan_tickers) in *.
  set (live := filter (λ r, r_data_quality r = "live_ortex") (results (output run))).
  assert (NoDup (r_ticker <$> results (output run))) as Hnd.
  { rewrite Hres, sort_by_score_Permutation, Hmap.
    apply priced_NoDup. by eapply select_tickers_NoDup. }
  assert (r_ticker <$> live ⊆+ take 5 successful) as Hsub.
  { apply NoDup_submseteq.
    - eapply sublist_NoDup; [exact Hnd|].
      apply fmap_sublist, sublist_filter.
    - intros t (r & -> & Hr)%list_elem_of_fmap.
      apply list_elem_of_filter in Hr as [Hq Hr].
      rewrite Hres, sort_by_score_Permutation in Hr.
      rewrite Forall_forall in Hpre.
      destruct (Hpre r Hr) as (n & p & _ & Hb).
      rewrite Hb in Hq. cbn [r_data_quality build_result] in Hq.
      unfold backfilled in Hq.
      destruct ((live_feed w key successful).1 !! r_ticker r) as [v|] eqn:Hv.
      + by eapply live_feed_dom.
      + discriminate Hq. }
  apply submseteq_length in Hsub. rewrite length_fmap in Hsub.
  etrans; [exact Hsub|]. rewrite length_take. lia.
Qed.

Lemma live_results_at_most_five_witness :
  ∃ run,
    perform_optimized_scan (cpython 0) (sample_world 10 [] utilization_only)
      (initial_process (λ _, 0%Q)) (Some "key") three_tickers = Ok run ∧
    live_ortex_count (stats (output run)) = 3%nat ∧
    (live_ortex_count (stats (output run)) ≤ 5)%nat ∧
    (live_ortex_count (stats (output run))
     ≤ successful_analysis (stats (output run)))%nat.
Proof.
  destruct (perform_optimized_scan (cpython 0)
              (sample_world 10 [] utilization_only)
              (initial_process (λ _, 0%Q)) (Some "key") three_tickers)
    as [run|e] eqn:E; [|vm_compute in E; discriminate].
  exists run. split; [reflexivity|]. split.
  - vm_compute in E. injection E as <-. reflexivity.
  - exact (live_results_at_most_five _ _ _ _ _ run E).
Defined.

(** [top_score] is the highest score of the scan: no result scores more,
    the first result scores exactly that, and without results it is 0. *)
Theorem top_score_is_maximum (py : python) (w : world) (st : process)
    (key : option string) (f : option filters) (run : scan_run) :
  perform_optimized_scan py w st key f = Ok run →
  Forall (λ r, (r_squeeze_score r ≤ top_score (stats (output run)))%Z)
    (results (output run)) ∧
  top_score (stats (output run)) =
    default 0%Z (r_squeeze_score <$> head (results (output run))).
Proof.
  intros Hrun.
  destruct (scan_run_shape _ _ _ _ _ _ Hrun)
    as (scan_tickers & pd & pre & _ & _ & Hres & Htop & _).
  rewrite Hres, Htop.
  pose proof (sort_by_score_Sorted pre) as Hsorted.
  destruct (sort_by_score pre) as [|r rs]; [by split|].
  split; [|done].
  apply StronglySorted_inv in Hsorted as [_ Hr].
  constructor; [lia|].
  eapply Forall_impl; [exact Hr|]. unfold score_ge. cbn beta. done.
Qed.

Lemma top_score_is_maximum_witness :
  ∃ run,
    perform_optimized_scan (cpython 0) (sample_world 10 [] HttpError)
      (initial_process (λ _, 0%Q)) (Some "key") three_tickers = Ok run ∧
    top_score (stats (output run)) = 109%Z ∧
    Forall (λ r, (r_squeeze_score r ≤ top_score (stats (output run)))%Z)
      (results (output run)) ∧
    top_score (stats (output run)) =
      default 0%Z (r_squeeze_score <$> head (results (output run))).
Proof.
  destruct (perform_optimized_scan (cpython 0) (sample_world 10 [] HttpError)
              (initial_process (λ _, 0%Q)) (Some "key") three_tickers)
    as [run|e] eqn:E; [|vm_compute in E; discriminate].
  exists run. split; [reflexivity|]. split.
  - vm_compute in E. injection E as <-. reflexivity.
  - exact (top_score_is_maximum _ _ _ _ _ run E).
Defined.

(** What a scan writes to the process: the batch ceiling and the timeout
    threshold are never touched; the time per ticker becomes the elapsed
    time divided by the number of results when there is a result, and
    stays as it is otherwise. *)
Theorem scan_recalibrates (py : python) (w : world) (st : process)
    (key : option string) (f : option filters) (run : scan_run) :
  perform_optimized_scan py w st key f = Ok run →
  max_safe_batch_size (performance (state_after run)) =
    max_safe_batch_size (performance st) ∧
  timeout_threshold (performance (state_after run)) =
    timeout_threshold (performance st) ∧
  (results (output run) = [] → performance (state_after run) = performance st) ∧
  (results (output run) ≠ [] →
   avg_ticker_time (performance (state_after run)) =
   ((time_end w - time_start w)
    / inject_Z (Z.of_nat (length (results (output run)))))%Q).
Proof.
  intros Hrun.
  destruct (scan_run_shape _ _ _ _ _ _ Hrun)
    as (scan_tickers & pd & pre & _ & _ & Hres & _ & _ & _ & H1 & H2 & H3 & H4).
  rewrite Hres. auto.
Qed.

Lemma scan_recalibrates_witness :
  ∃ run,
    perform_optimized_scan (cpython 0) (sample_world 10 [] HttpError)
      (initial_process (λ _, 0%Q)) (Some "key") three_tickers = Ok run ∧
    avg_ticker_time (performance (state_after run)) = (4 # 3)%Q ∧
    max_safe_batch_size (performance (state_after run)) =
      max_safe_batch_size initial_performance_stats ∧
    timeout_threshold (performance (state_after run)) =
      timeout_threshold initial_performance_stats ∧
    (results (output run) = [] →
     performance (state_after run) = initial_performance_stats) ∧
    (results (output run) ≠ [] →
     avg_ticker_time (performance (state_after run)) =
     ((time_end (sample_world 10 [] HttpError)
       - time_start (sample_world 10 [] HttpError))
      / inject_Z (Z.of_nat (length (results (output run)))))%Q).
Proof.
  destruct (perform_optimized_scan (cpython 0) (sample_world 10 [] HttpError)
              (initial_process (λ _, 0%Q)) (Some "key") three_tickers)
    as [run|e] eqn:E; [|vm_compute in E; discriminate].
  exists run. split; [reflexivity|]. split.
  - vm_compute in E. injection E as <-. reflexivity.
  - exact (scan_recalibrates _ _ _ _ _ run E).
Defined.

(** ** Ticker selection *)

Lemma in_list_elem (x : string) (l : list string) :
  Py.in_list x l = true ↔ x ∈ l.
Proof.
  unfold Py.in_list. rewrite existsb_exists. split.
  - intros (y & Hy & ->%String.eqb_eq). by apply list_elem_of_In.
  - intros Hx. exists x. split; [by apply list_elem_of_In|apply String.eqb_refl].
Qed.

Lemma in_list_not_elem (x : string) (l : list string) :
  Py.in_list x l = false ↔ x ∉ l.
Proof. rewrite <- in_list_elem. by destruct (Py.in_list x l). Qed.

Lemma dedup_seen_elem (seen l : list string) (x : string) :
  x ∈ dedup_seen seen l ↔ x ∈ l ∧ x ∉ seen.
Proof.
  revert seen. induction l as [|y l IH]; intros seen; cbn [dedup_seen].
  - split; [by intros ?%not_elem_of_nil|by intros [?%not_elem_of_nil _]].
  - destruct (Py.in_list y seen) eqn:Hy.
    + apply in_list_elem in Hy. rewrite IH, elem_of_cons.
      split; [tauto|]. intros [[->|Hx] Hn]; [done|tauto].
    + apply in_list_not_elem in Hy.
      rewrite elem_of_cons, IH, not_elem_of_cons, elem_of_cons.
      split.
      * intros [->|(Hx & Hxy & Hn)]; tauto.
      * intros [[->|Hx] Hn]; [tauto|].
        destruct (decide (x = y)) as [->|Hxy]; tauto.
Qed.

Lemma dedup_seen_NoDup (seen l : list string) : NoDup (dedup_seen seen l).
Proof.
  revert seen. induction l as [|y l IH]; intros seen; cbn [dedup_seen].
  - constructor.
  - destruct (Py.in_list y seen); [apply IH|].
    constructor; [|apply IH].
    rewrite dedup_seen_elem, not_elem_of_cons. tauto.
Qed.

Lemma dedup_seen_sublist (seen l : list string) : dedup_seen seen l `sublist_of` l.
Proof.
  revert seen. induction l as [|y l IH]; intros seen; cbn [dedup_seen].
  - constructor.
  - destruct (Py.in_list y seen).
    + apply sublist_cons, IH.
    + apply sublist_skip, IH.
Qed.

Lemma dedup_seen_fixed (seen l : list string) :
  NoDup l → Forall (λ x, x ∉ seen) l → dedup_seen seen l = l.
Proof.
  revert seen. induction l as [|y l IH]; intros seen Hnd Hall; [done|].
  apply NoDup_cons in Hnd as [Hy Hnd].
  apply Forall_cons in Hall as [Hys Hall].
  cbn [dedup_seen]. apply in_list_not_elem in Hys. rewrite Hys.
  f_equal. apply IH; [done|].
  apply Forall_forall. intros x Hx. rewrite not_elem_of_cons. split.
  - intros ->. done.
  - rewrite Forall_forall in Hall. by apply Hall.
Qed.

Lemma in_list_ext (x : string) (a b : list string) :
  (x ∈ a ↔ x ∈ b) → Py.in_list x a = Py.in_list x b.
Proof.
  intros H. destruct (Py.in_list x b) eqn:E.
  - apply in_list_elem. apply H. by apply in_list_elem.
  - apply in_list_not_elem. intros Ha%H. by apply in_list_not_elem in E.
Qed.

(** One more element at the end of the list is appended to the outcome
    when it has not been seen and has not occurred, and changes nothing
    otherwise. *)
Lemma dedup_seen_snoc (seen l : list string) (x : string) :
  dedup_seen seen (l ++ [x]) =
  (dedup_seen seen l ++ if Py.in_list x (seen ++ l) then [] else [x])%list.
Proof.
  revert seen. induction l as [|y l IH]; intros seen.
  - cbn [app dedup_seen]. rewrite app_nil_r. by destruct (Py.in_list x seen).
  - cbn [app dedup_seen]. destruct (Py.in_list y seen) eqn:Hy.
    + rewrite IH. f_equal.
      rewrite (in_list_ext x (seen ++ l) (seen ++ y :: l)); [done|].
      apply in_list_elem in Hy. rewrite !elem_of_app, elem_of_cons.
      split; [tauto|]. intros [?|[->|?]]; tauto.
    + rewrite IH. cbn [app]. f_equal. f_equal.
      rewrite (in_list_ext x (y :: seen ++ l) (seen ++ y :: l)); [done|].
      rewrite !elem_of_app, !elem_of_cons, elem_of_app. tauto.
Qed.

Lemma before_snoc_inv {A} (l : list A) (z x y : A) :
  before (l ++ [z]) x y → before l x y ∨ (x ∈ l ∧ y = z).
Proof.
  intros (a & b & Hab & Ha & Hb).
  destruct (decide (b < length l)%nat) as [Hlt|Hge].
  - left. exists a, b. split; [done|].
    rewrite lookup_app_l in Ha by lia. rewrite lookup_app_l in Hb by lia. done.
  - right. rewrite lookup_app_r in Hb by lia.
    assert (b - length l = 0)%nat as Hb0.
    { destruct (b - length l)%nat eqn:E; [done|]. discriminate Hb. }
    rewrite Hb0 in Hb. injection Hb as <-.
    rewrite lookup_app_l in Ha by lia.
    split; [|done]. apply list_elem_of_lookup. eauto.
Qed.

(** In the outcome, [x] stands before [y] only when the first occurrence of
    [x] in the list comes before every occurrence of [y]. *)
Lemma dedup_seen_order (l : list string) (x y : string) :
  before (dedup_seen [] l) x y →
  ∃ l1 l2, (l = (l1 ++ x :: l2)%list) ∧ (x ∉ l1) ∧ (y ∉ l1) ∧ y ∈ l2.
Proof.
  induction l as [|z l IH] using rev_ind.
  - intros (a & b & _ & Ha & _). discriminate Ha.
  - rewrite dedup_seen_snoc. cbn [app].
    assert (before (dedup_seen [] l) x y →
            ∃ l1 l2, ((l ++ [z])%list = (l1 ++ x :: l2)%list)
                     ∧ (x ∉ l1) ∧ (y ∉ l1) ∧ y ∈ l2) as Hold.
    { intros (l1 & l2 & -> & H1 & H2 & H3)%IH.
      exists l1, (l2 ++ [z])%list. rewrite <- app_assoc. cbn [app].
      split; [done|]. split; [done|]. split; [done|].
      apply elem_of_app. by left. }
    destruct (Py.in_list z l) eqn:Hz.
    + rewrite app_nil_r. exact Hold.
    + intros [Hb|[Hx Hy]]%before_snoc_inv; [by apply Hold|].
      rewrite Hy in *. clear Hy.
      apply in_list_not_elem in Hz.
      apply dedup_seen_elem in Hx as [Hx _].
      apply list_elem_of_split_l in Hx as (l1 & l2 & -> & Hx1).
      exists l1, (l2 ++ [z])%list. rewrite <- app_assoc. cbn [app].
      split; [done|]. split; [done|]. split.
      * intros Hz1. apply Hz. apply elem_of_app. by left.
      * apply elem_of_app. right. left.
Qed.

(** The comprehension with the [seen] set that builds the master list
    removes duplicates and nothing else.  For every list, the outcome has
    no duplicates and exactly the elements of the list; an element appended
    to the list is appended to the outcome when it has not occurred before
    and changes nothing otherwise, which fixes the outcome as the elements
    in the order of their first occurrence: [x] stands before [y] in the
    outcome only when the first [x] of the list comes before every [y];
    and the outcome is the list itself when that had no duplicates. *)
Theorem dedup_seen_keeps_first_occurrences (l : list string) :
  NoDup (dedup_seen [] l) ∧
  (∀ x, x ∈ dedup_seen [] l ↔ x ∈ l) ∧
  (∀ x, dedup_seen [] (l ++ [x]) =
        (dedup_seen [] l ++ if Py.in_list x l then [] else [x])%list) ∧
  (∀ x y, before (dedup_seen [] l) x y →
          ∃ l1 l2, (l = (l1 ++ x :: l2)%list) ∧ (x ∉ l1) ∧ (y ∉ l1) ∧ y ∈ l2) ∧
  (NoDup l → dedup_seen [] l = l).
Proof.
  split; [apply dedup_seen_NoDup|].
  split.
  { intros x. rewrite dedup_seen_elem. split; [tauto|].
    intros Hx. split; [done|apply not_elem_of_nil]. }
  split; [intros x; apply dedup_seen_snoc|].
  split; [apply dedup_seen_order|].
  intros Hnd. apply dedup_seen_fixed; [done|].
  apply Forall_forall. intros x _. apply not_elem_of_nil.
Qed.

Lemma universe_get_elem (c : string) (u : list (string * list string))
    (ts : list string) (t : string) :
  universe_get c u = Some ts → t ∈ ts → t ∈ concat (map snd u).
Proof.
  induction u as [|[c' ts'] u IH]; cbn [universe_get map snd concat]; [done|].
  rewrite elem_of_app.
  destruct (String.eqb c c').
  - intros [= ->] Ht. by left.
  - intros Hu Ht. right. by apply IH.
Qed.

Lemma listed_in_master (cats : list string) (t : string) :
  listed_under cats t → t ∈ master_ticker_list.
Proof.
  intros (c & ts & _ & Hc & Ht). unfold master_ticker_list.
  rewrite dedup_seen_elem. split; [|apply not_elem_of_nil].
  by eapply universe_get_elem.
Qed.

Lemma filtered_tickers_elem (cats : list string) (t : string) :
  t ∈ filtered_tickers cats → listed_under cats t.
Proof.
  unfold filtered_tickers.
  assert (∀ acc, t ∈ fold_left
            (λ acc category,
               match universe_get category ticker_universe with
               | Some ts => (acc ++ ts)%list
               | None => acc
               end) cats acc →
          t ∈ acc ∨ listed_under cats t) as Hfold.
  { induction cats as [|c cats IH]; intros acc; cbn [fold_left]; [by left|].
    intros [Hacc|(c' & ts & Hc' & Hu & Ht)]%IH.
    - destruct (universe_get c ticker_universe) as [ts|] eqn:Hc; [|by left].
      apply elem_of_app in Hacc as [Hacc|Hts]; [by left|].
      right. exists c, ts. split; [left|done].
    - right. exists c', ts. split; [by right|done]. }
  intros [Hnil|Hl]%Hfold; [by apply not_elem_of_nil in Hnil|done].
Qed.

Lemma optimal_size_inv (stats : performance_stats) (requested_size : Z)
    (timeout_limit : Q) (plan : scan_plan) :
  calculate_optimal_scan_size stats requested_size timeout_limit = Ok plan →
  plan =
    (let optimal :=
       Z.min (Z.min requested_size
                (Py.int (timeout_limit / avg_ticker_time stats * 0.8)))
         (max_safe_batch_size stats) in
     {| optimal_size := optimal;
        estimated_time := inject_Z optimal * avg_ticker_time stats;
        timeout_risk :=
          if (optimal <=? 15)%Z then "low"
          else if (optimal <=? 25)%Z then "medium" else "high";
        recommended_min_score :=
          if (20 <? optimal)%Z then 50%Z
          else if (10 <? optimal)%Z then 30%Z else 0%Z |}).
Proof.
  unfold calculate_optimal_scan_size, true_div.
  destruct (Qeq_bool (avg_ticker_time stats) 0); [discriminate|].
  run_bind. by intros [= <-].
Qed.

Lemma safe_size_nonneg (avg : Q) :
  (0 < avg)%Q →
  (0 ≤ Py.int (45 / avg * 0.8))%Z ∧
  (inject_Z (Py.int (45 / avg * 0.8)) * avg * 1.25 <= 45)%Q.
Proof.
  intros Havg.
  assert (0 <= 45 / avg * 0.8)%Q as Hpos.
  { apply Qmult_le_0_compat; [|done].
    apply Qlt_le_weak, Qlt_shift_div_l; [done|]. by rewrite Qmult_0_l. }
  split; [by apply int_nonneg|].
  pose proof (int_le _ Hpos) as Hle.
  assert (45 / avg * avg == 45)%Q as Hratio.
  { rewrite Qmult_comm. apply Qmult_div_r.
    intros E. rewrite E in Havg. by apply Qlt_irrefl in Havg. }
  set (ratio := (45 / avg)%Q) in *.
  set (k := inject_Z (Py.int (ratio * 0.8))) in *.
  assert (k * avg <= ratio * 0.8 * avg)%Q as Hk.
  { apply Qmult_le_compat_r; [done|by apply Qlt_le_weak]. }
  assert (ratio * 0.8 * avg == 0.8 * (ratio * avg))%Q as E by ring.
  rewrite E, Hratio in Hk. lra.
Qed.

Lemma select_tickers_filtered (py : python) (stats : performance_stats)
    (fd : filters) (l : list string) :
  filters_truthy (Some fd) = true →
  select_tickers py stats (Some fd) = Ok l →
  ∃ plan,
    calculate_optimal_scan_size stats (default 20%Z (max_tickers fd)) 45 = Ok plan ∧
    l = Py.slice_to
          match categories fd with
          | Some (c :: cs) => list_of_set py (filtered_tickers (c :: cs))
          | _ => master_ticker_list
          end (optimal_size plan).
Proof.
  unfold select_tickers. intros -> H. inv_bind H. injection H as <-. eauto.
Qed.

Lemma select_tickers_unfiltered (py : python) (stats : performance_stats)
    (f : option filters) :
  filters_truthy f = false →
  select_tickers py stats f = Ok (take 15 master_ticker_list).
Proof.
  unfold select_tickers. intros Hf.
  destruct f as [fd|]; [rewrite Hf|]; reflexivity.
Qed.

Lemma slice_to_length_nonneg {A} (l : list A) (n : Z) :
  (0 ≤ n)%Z → (Z.of_nat (length (Py.slice_to l n)) ≤ n)%Z.
Proof.
  intros Hn. unfold Py.slice_to.
  destruct (0 <=? n)%Z eqn:E; [|lia].
  rewrite length_take. lia.
Qed.

(** A scan with filters, a request for no less than 0 tickers and a
    calibrated process covers no more tickers than requested and no more
    than the batch ceiling. *)
Theorem filtered_batch_within_ceiling (py : python) (w : world) (st : process)
    (key : option string) (fd : filters) (run : scan_run) :
  filters_truthy (Some fd) = true →
  (0 < avg_ticker_time (performance st))%Q →
  (0 ≤ default 20 (max_tickers fd))%Z →
  (0 ≤ max_safe_batch_size (performance st))%Z →
  perform_optimized_scan py w st key (Some fd) = Ok run →
  let scanned := Z.of_nat (total_tickers_scanned (stats (output run))) in
  (scanned ≤ default 20 (max_tickers fd))%Z ∧
  (scanned ≤ max_safe_batch_size (performance st))%Z.
Proof.
  intros Hf Havg Hreq Hmax Hrun.
  destruct (scan_Ok_inv _ _ _ _ _ _ Hrun) as (scan_tickers & pd & Hsel & Hpd).
  destruct (scan_anatomy py w st key (Some fd) _ _ Hsel Hpd)
    as (run' & pre & Hrun' & _ & _ & _ & _ & _ & _ & Htotal).
  rewrite Hrun in Hrun'. injection Hrun' as <-.
  destruct (select_tickers_filtered _ _ _ _ Hf Hsel) as (plan & Hplan & ->).
  apply optimal_size_inv in Hplan. cbv zeta in Hplan.
  destruct (safe_size_nonneg _ Havg) as [Hsafe _].
  set (safe := Py.int (45 / avg_ticker_time (performance st) * 0.8)) in *.
  assert (optimal_size plan =
          Z.min (Z.min (default 20%Z (max_tickers fd)) safe)
            (max_safe_batch_size (performance st))) as Hopt by (by rewrite Hplan).
  cbv zeta. rewrite Htotal.
  match goal with
  | |- context [length (Py.slice_to ?l ?n)] =>
      pose proof (slice_to_length_nonneg l n) as Hlen
  end.
  set (scanned := Z.of_nat (length (Py.slice_to _ _))) in *.
  assert (scanned ≤ optimal_size plan)%Z as Hle by (apply Hlen; lia).
  split; lia.
Qed.

Lemma filtered_batch_within_ceiling_witness :
  ∃ run,
    perform_optimized_scan (cpython 0) (sample_world 10 [] HttpError)
      (initial_process (λ _, 0%Q)) None (Some (count_filters 3 None)) = Ok run ∧
    let scanned := Z.of_nat (total_tickers_scanned (stats (output run))) in
    (scanned ≤ 3)%Z ∧ (scanned ≤ 20)%Z.
Proof.
  destruct (perform_optimized_scan (cpython 0) (sample_world 10 [] HttpError)
              (initial_process (λ _, 0%Q)) None (Some (count_filters 3 None)))
    as [run|e] eqn:E; [|vm_compute in E; discriminate].
  exists run. split; [reflexivity|].
  apply (filtered_batch_within_ceiling (cpython 0)
           (sample_world 10 [] HttpError) (initial_process (λ _, 0%Q)) None
           (count_filters 3 None) run);
    [reflexivity | reflexivity | cbn; lia | cbn; lia | exact E].
Defined.

Lemma master_ticker_list_length : length master_ticker_list = 72%nat.
Proof. vm_compute. reflexivity. Qed.

(** A negative [max_tickers] is taken as a slice bound that counts from the
    end: a request for [-n] tickers scans the whole master list but its
    last [n] tickers, whatever the batch ceiling. *)
Theorem negative_count_scans_all_but_last (py : python) (w : world)
    (st : process) (key : option string) (n : Z) (ms : option Z)
    (run : scan_run) :
  (0 < n)%Z →
  (0 < avg_ticker_time (performance st))%Q →
  (0 ≤ max_safe_batch_size (performance st))%Z →
  perform_optimized_scan py w st key (Some (count_filters (- n) ms)) = Ok run →
  total_tickers_scanned (stats (output run)) = (72 - Z.to_nat n)%nat.
Proof.
  intros Hn Havg Hmax Hrun.
  destruct (scan_Ok_inv _ _ _ _ _ _ Hrun) as (scan_tickers & pd & Hsel & Hpd).
  destruct (scan_anatomy py w st key _ _ _ Hsel Hpd)
    as (run' & pre & Hrun' & _ & _ & _ & _ & _ & _ & Htotal).
  rewrite Hrun in Hrun'. injection Hrun' as <-.
  destruct (select_tickers_filtered py (performance st)
              (count_filters (- n) ms) scan_tickers eq_refl Hsel)
    as (plan & Hplan & ->).
  apply optimal_size_inv in Hplan. cbv zeta in Hplan.
  destruct (safe_size_nonneg _ Havg) as [Hsafe _].
  set (safe := Py.int (45 / avg_ticker_time (performance st) * 0.8)) in *.
  assert (optimal_size plan = (- n)%Z) as Hopt.
  { rewrite Hplan. cbn [optimal_size count_filters max_tickers default
      from_option id]. lia. }
  rewrite Htotal, Hopt. cbn [count_filters categories]. unfold Py.slice_to.
  destruct (0 <=? - n)%Z eqn:E; [lia|].
  rewrite length_take, master_ticker_list_length, Z.opp_involutive. lia.
Qed.

Lemma negative_count_scans_all_but_last_witness :
  ∃ run,
    perform_optimized_scan (cpython 0) (sample_world 10 [] HttpError)
      (initial_process (λ _, 0%Q)) None (Some (count_filters (- 50) None))
    = Ok run ∧
    total_tickers_scanned (stats (output run)) = 22%nat.
Proof.
  assert (select_tickers (cpython 0)
            (performance (initial_process (λ _, 0%Q)))
            (Some (count_filters (- 50) None))
          = Ok (take 22 master_ticker_list)) as Hsel
    by (vm_compute; reflexivity).
  destruct (within_deadline_returns (sample_world 10 [] HttpError)
              (take 22 master_ticker_list) 12) as [pd Hpd];
    [intros t _; simpl; discriminate|].
  destruct (scan_anatomy (cpython 0) (sample_world 10 [] HttpError)
              (initial_process (λ _, 0%Q)) None
              (Some (count_filters (- 50) None)) _ _ Hsel Hpd)
    as (run & _ & Hrun & _).
  exists run. split; [exact Hrun|].
  apply (negative_count_scans_all_but_last (cpython 0)
           (sample_world 10 [] HttpError) (initial_process (λ _, 0%Q)) None
           50 None run);
    [lia | reflexivity | cbn; lia | exact Hrun].
Defined.

(** No ticker is reported twice, every reported ticker is one of the master
    list, and when the request names categories every reported ticker is
    listed under one of them. *)
Theorem results_come_from_selection (py : python) (w : world) (st : process)
    (key : option string) (f : option filters) (run : scan_run) :
  perform_optimized_scan py w st key f = Ok run →
  NoDup (r_ticker <$> results (output run)) ∧
  Forall (λ r, r_ticker r ∈ master_ticker_list) (results (output run)) ∧
  ∀ fd c cs,
    f = Some fd → categories fd = Some (c :: cs) →
    Forall (λ r, listed_under (c :: cs) (r_ticker r)) (results (output run)).
Proof.
  intros Hrun.
  destruct (scan_Ok_inv _ _ _ _ _ _ Hrun) as (scan_tickers & pd & Hsel & Hpd).
  destruct (scan_anatomy py w st key f _ _ Hsel Hpd)
    as (run' & pre & Hrun' & Hres & Hmap & _).
  rewrite Hrun in Hrun'. injection Hrun' as <-.
  assert (r_ticker <$> results (output run) ≡ₚ priced pd scan_tickers) as Hperm.
  { by rewrite Hres, sort_by_score_Permutation, Hmap. }
  assert (∀ r, r ∈ results (output run) → r_ticker r ∈ scan_tickers) as Hin.
  { intros r Hr.
    assert (r_ticker r ∈ priced pd scan_tickers) as Hp.
    { rewrite <- Hperm. apply list_elem_of_fmap. eauto. }
    unfold priced in Hp. by apply list_elem_of_filter in Hp as [_ Hp]. }
  assert (∀ fd c cs, f = Some fd → categories fd = Some (c :: cs) →
          ∀ t, t ∈ scan_tickers → listed_under (c :: cs) t) as Hcats.
  { intros fd c cs -> Hc t Ht.
    assert (filters_truthy (Some fd) = true) as Hf.
    { cbn [filters_truthy]. rewrite Hc.
      rewrite (bool_decide_eq_true_2 (is_Some (Some (c :: cs)))) by eauto.
      reflexivity. }
    destruct (select_tickers_filtered _ _ _ _ Hf Hsel) as (plan & _ & E).
    rewrite Hc in E. rewrite E in Ht.
    apply filtered_tickers_elem, (list_of_set_elem py).
    eapply elem_of_sublist; [exact Ht|apply slice_to_sublist]. }
  split; [|split].
  - rewrite Hperm. apply priced_NoDup. by eapply select_tickers_NoDup.
  - apply Forall_forall. intros r Hr%Hin.
    destruct f as [fd|].
    + destruct (categories fd) as [[|c cs]|] eqn:Hc.
      * unfold select_tickers in Hsel. rewrite Hc in Hsel.
        destruct (filters_truthy (Some fd)).
        -- inv_bind Hsel. injection Hsel as <-.
           eapply elem_of_sublist; [exact Hr|apply slice_to_sublist].
        -- injection Hsel as <-.
           eapply elem_of_sublist; [exact Hr|apply slice_to_sublist].
      * eapply listed_in_master, Hcats; eauto.
      * unfold select_tickers in Hsel. rewrite Hc in Hsel.
        destruct (filters_truthy (Some fd)).
        -- inv_bind Hsel. injection Hsel as <-.
           eapply elem_of_sublist; [exact Hr|apply slice_to_sublist].
        -- injection Hsel as <-.
           eapply elem_of_sublist; [exact Hr|apply slice_to_sublist].
    + injection Hsel as <-.
      eapply elem_of_sublist; [exact Hr|apply slice_to_sublist].
  - intros fd c cs Hfd Hc. apply Forall_forall. intros r Hr%Hin.
    by eapply Hcats.
Qed.

Lemma results_come_from_selection_witness :
  ∃ run,
    perform_optimized_scan (cpython 0) (sample_world 10 [] HttpError)
      (initial_process (λ _, 0%Q)) None
      (Some (category_filters ["large_cap_samples"; "large_cap_samples"]
               (Some 3%Z) None)) = Ok run ∧
    NoDup (r_ticker <$> results (output run)) ∧
    Forall (λ r, r_ticker r ∈ master_ticker_list) (results (output run)) ∧
    ∀ fd c cs,
      Some (category_filters ["large_cap_samples"; "large_cap_samples"]
              (Some 3%Z) None) = Some fd →
      categories fd = Some (c :: cs) →
      Forall (λ r, listed_under (c :: cs) (r_ticker r)) (results (output run)).
Proof.
  assert (∃ l, select_tickers (cpython 0)
                 (performance (initial_process (λ _, 0%Q)))
                 (Some (category_filters
                          ["large_cap_samples"; "large_cap_samples"]
                          (Some 3%Z) None)) = Ok l) as [l Hsel]
    by (eexists; vm_compute; reflexivity).
  destruct (within_deadline_returns (sample_world 10 [] HttpError) l 12)
    as [pd Hpd]; [intros t _; simpl; discriminate|].
  destruct (scan_anatomy (cpython 0) (sample_world 10 [] HttpError)
              (initial_process (λ _, 0%Q)) None
              (Some (category_filters
                       ["large_cap_samples"; "large_cap_samples"]
                       (Some 3%Z) None)) _ _ Hsel Hpd)
    as (run & _ & Hrun & _).
  exists run. split; [exact Hrun|].
  exact (results_come_from_selection _ _ _ _ _ run Hrun).
Defined.

(** ** The request handler *)

Lemma handle_optimized_scan_Ok (py : python) (w : world) (st : process)
    (req : request) (plan : scan_plan) (run : scan_run) :
  calculate_optimal_scan_size (performance st)
    (default 20%Z (max_tickers (default no_filters (req_filters req)))) 45
  = Ok plan →
  perform_optimized_scan py w st (Some (default "" (req_ortex_key req)))
    (Some (default no_filters (req_filters req))) = Ok run →
  handle_optimized_scan py w st req =
    (ScanReply true (results (output run)) (stats (output run)) plan,
     state_after run).
Proof.
  intros Hplan Hrun. unfold handle_optimized_scan.
  rewrite Hplan. run_bind. rewrite Hrun. reflexivity.
Qed.

Lemma handle_optimized_scan_inv (py : python) (w : world) (st : process)
    (req : request) (ok : bool) (res : list scan_result) (sts : scan_stats)
    (plan : scan_plan) (st' : process) :
  handle_optimized_scan py w st req = (ScanReply ok res sts plan, st') →
  ∃ run,
    calculate_optimal_scan_size (performance st)
      (default 20%Z (max_tickers (default no_filters (req_filters req)))) 45
    = Ok plan ∧
    perform_optimized_scan py w st (Some (default "" (req_ortex_key req)))
      (Some (default no_filters (req_filters req))) = Ok run ∧
    ok = true ∧ res = results (output run) ∧ sts = stats (output run) ∧
    st' = state_after run.
Proof.
  unfold handle_optimized_scan.
  destruct (calculate_optimal_scan_size _ _ _) as [plan'|e]; [|discriminate].
  run_bind.
  destruct (perform_optimized_scan _ _ _ _ _) as [run|e]; [|discriminate].
  cbn [mbind result_bind try_except]. intros [= <- <- <- <- <-].
  exists run. by repeat split.
Qed.

Lemma unfiltered_default (f : option filters) :
  filters_truthy f = false → default no_filters f = no_filters.
Proof.
  destruct f as [[c m s]|]; [|done].
  cbn [filters_truthy categories max_tickers min_score default from_option id].
  destruct c, m, s; try done.
Qed.

(** A request without filters is always scanned over the first 15 tickers
    of the master list, whatever the calibration of the process, while the
    plan reported with it is the one for 20 requested tickers. *)
Theorem unfiltered_request_scans_fifteen (py : python) (w : world)
    (st : process) (key : option string) (f : option filters)
    (res : list scan_result) (sts : scan_stats) (plan : scan_plan)
    (st' : process) :
  filters_truthy f = false →
  handle_optimized_scan py w st {| req_ortex_key := key; req_filters := f |}
  = (ScanReply true res sts plan, st') →
  total_tickers_scanned sts = 15%nat ∧
  Forall (λ r, r_ticker r ∈ take 15 master_ticker_list) res ∧
  calculate_optimal_scan_size (performance st) 20 45 = Ok plan.
Proof.
  intros Hf (run & Hplan & Hrun & _ & -> & -> & ->)%handle_optimized_scan_inv.
  cbn [req_filters req_ortex_key] in Hplan, Hrun.
  rewrite (unfiltered_default f Hf) in Hplan, Hrun.
  destruct (scan_Ok_inv _ _ _ _ _ _ Hrun) as (scan_tickers & pd & Hsel & Hpd).
  destruct (scan_anatomy py w st (Some (default "" key)) (Some no_filters)
              _ _ Hsel Hpd)
    as (run' & pre & Hrun' & Hres & Hmap & _ & _ & _ & _ & Htotal).
  rewrite Hrun in Hrun'. injection Hrun' as <-.
  assert (scan_tickers = take 15 master_ticker_list) as ->.
  { rewrite select_tickers_unfiltered in Hsel by reflexivity. congruence. }
  split; [|split; [|exact Hplan]].
  - rewrite Htotal, length_take, master_ticker_list_length. reflexivity.
  - apply Forall_forall. intros r Hr.
    assert (r_ticker r ∈ priced pd (take 15 master_ticker_list)) as Hp.
    { rewrite <- Hmap, <- (sort_by_score_Permutation pre), <- Hres.
      apply list_elem_of_fmap. eauto. }
    unfold priced in Hp. by apply list_elem_of_filter in Hp as [_ Hp].
Qed.

Lemma unfiltered_request_scans_fifteen_witness :
  ∃ res sts plan st',
    handle_optimized_scan (cpython 0) (sample_world 10 [] HttpError)
      (initial_process (λ _, 0%Q))
      {| req_ortex_key := None; req_filters := None |}
    = (ScanReply true res sts plan, st') ∧
    optimal_size plan = 14%Z ∧
    total_tickers_scanned sts = 15%nat ∧
    Forall (λ r, r_ticker r ∈ take 15 master_ticker_list) res ∧
    calculate_optimal_scan_size
      (performance (initial_process (λ _, 0%Q))) 20 45 = Ok plan.
Proof.
  destruct (within_deadline_returns (sample_world 10 [] HttpError)
              (take 15 master_ticker_list) 12) as [pd Hpd];
    [intros t _; simpl; discriminate|].
  destruct (scan_anatomy (cpython 0) (sample_world 10 [] HttpError)
              (initial_process (λ _, 0%Q)) (Some "") (Some no_filters) _ _
              (select_tickers_unfiltered (cpython 0)
                 (performance (initial_process (λ _, 0%Q))) (Some no_filters)
                 eq_refl) Hpd)
    as (run & _ & Hrun & _).
  assert (∃ plan,
            calculate_optimal_scan_size
              (performance (initial_process (λ _, 0%Q))) 20 45 = Ok plan ∧
            optimal_size plan = 14%Z) as (plan & Hplan & Hsize)
    by (eexists; split; [vm_compute; reflexivity|reflexivity]).
  exists (results (output run)), (stats (output run)), plan, (state_after run).
  pose proof (handle_optimized_scan_Ok (cpython 0)
                (sample_world 10 [] HttpError) (initial_process (λ _, 0%Q))
                {| req_ortex_key := None; req_filters := None |} plan run
                Hplan Hrun) as Hreply.
  split; [exact Hreply|]. split; [exact Hsize|].
  exact (unfiltered_request_scans_fifteen _ _ _ None None _ _ _ _
             eq_refl Hreply).
Defined.

(** The server never reads [min_score]: for a request whose filters are
    not empty, setting [min_score] to any value changes neither the reply
    nor the state the request leaves. *)
Theorem min_score_never_read (py : python) (w : world) (st : process)
    (key : option string) (fd : filters) (ms : Z) :
  filters_truthy (Some fd) = true →
  handle_optimized_scan py w st
    {| req_ortex_key := key; req_filters := Some (with_min_score fd ms) |}
  = handle_optimized_scan py w st
      {| req_ortex_key := key; req_filters := Some fd |}.
Proof.
  intros Hf.
  assert (filters_truthy (Some (with_min_score fd ms)) = true) as Hf'.
  { cbn [filters_truthy with_min_score min_score].
    rewrite (bool_decide_eq_true_2 (is_Some (Some ms))) by eauto.
    apply orb_true_r. }
  unfold handle_optimized_scan, perform_optimized_scan, select_tickers.
  cbn [req_filters req_ortex_key default from_option id].
  rewrite Hf, Hf'. reflexivity.
Qed.

Lemma min_score_never_read_witness :
  handle_optimized_scan (cpython 0) (sample_world 10 [] HttpError)
    (initial_process (λ _, 0%Q))
    {| req_ortex_key := None;
       req_filters := Some (with_min_score (count_filters 3 None) 101) |}
  = handle_optimized_scan (cpython 0) (sample_world 10 [] HttpError)
      (initial_process (λ _, 0%Q))
      {| req_ortex_key := None; req_filters := Some (count_filters 3 None) |}.
Proof.
  apply (min_score_never_read (cpython 0) (sample_world 10 [] HttpError)
           (initial_process (λ _, 0%Q)) None (count_filters 3 None) 101).
  reflexivity.
Defined.

(** One quote that is not back within the 30 seconds fails the whole
    request: the reply is the error reply for a timeout, no result of the
    other tickers is returned, and the process state is left as it was. *)
Theorem slow_quote_fails_request (py : python) (w : world) (st : process)
    (req : request) (scan_tickers : list string) (t : string) :
  (0 < avg_ticker_time (performance st))%Q →
  select_tickers py (performance st)
    (Some (default no_filters (req_filters req))) = Ok scan_tickers →
  t ∈ scan_tickers →
  (30 < yahoo_done_at w t)%Q →
  handle_optimized_scan py w st req = (ErrorReply false TimeoutError, st).
Proof.
  intros Havg Hsel Ht Hslow. unfold handle_optimized_scan.
  destruct (calculate_optimal_scan_size_returns (performance st)
              (default 20%Z (max_tickers (default no_filters (req_filters req))))
              45 Havg) as [plan ->].
  run_bind.
  rewrite (perform_optimized_scan_deadline py w st _ _ scan_tickers t Hsel Ht Hslow).
  reflexivity.
Qed.

Lemma slow_quote_fails_request_witness :
  handle_optimized_scan (cpython 0) (sample_world 10 ["AMC"] HttpError)
    (initial_process (λ _, 0%Q)) (count_request None 3)
  = (ErrorReply false TimeoutError, initial_process (λ _, 0%Q)).
Proof.
  apply (slow_quote_fails_request (cpython 0)
           (sample_world 10 ["AMC"] HttpError) (initial_process (λ _, 0%Q))
           (count_request None 3) ["GME"; "AMC"; "BBBY"] "AMC");
    [reflexivity | vm_compute; reflexivity | right; left
    | vm_compute; reflexivity].
Defined.

(** With a batch ceiling of at most 20, which no scan changes, no reply
    ever reports the timeout risk "high" or recommends the minimum score
    50, and the ceiling is still at most 20 after the request. *)
Theorem ceiling_bounds_reported_plan (py : python) (w : world) (st : process)
    (req : request) (ok : bool) (res : list scan_result) (sts : scan_stats)
    (plan : scan_plan) (st' : process) :
  (max_safe_batch_size (performance st) ≤ 20)%Z →
  handle_optimized_scan py w st req = (ScanReply ok res sts plan, st') →
  (optimal_size plan ≤ 20)%Z ∧
  timeout_risk plan ≠ "high" ∧
  recommended_min_score plan ≠ 50%Z ∧
  (max_safe_batch_size (performance st') ≤ 20)%Z.
Proof.
  intros Hmax (run & Hplan & Hrun & _ & _ & _ & ->)%handle_optimized_scan_inv.
  apply optimal_size_inv in Hplan. cbv zeta in Hplan.
  destruct (scan_run_shape _ _ _ _ _ _ Hrun)
    as (scan_tickers & pd & pre & _ & _ & _ & _ & _ & _ & Hceil & _).
  rewrite Hceil.
  set (optimal := Z.min _ _) in Hplan.
  assert (optimal ≤ 20)%Z as Hopt by (unfold optimal; lia).
  rewrite Hplan. cbn [optimal_size timeout_risk recommended_min_score].
  split; [done|]. split; [|split; [|done]].
  - destruct (optimal <=? 15)%Z; [done|].
    destruct (optimal <=? 25)%Z eqn:E; [done|]. lia.
  - destruct (20 <? optimal)%Z eqn:E; [lia|].
    destruct (10 <? optimal)%Z; done.
Qed.

Lemma ceiling_bounds_reported_plan_witness :
  ∃ res sts plan st',
    handle_optimized_scan (cpython 0) (sample_world 10 [] HttpError)
      (initial_process (λ _, 0%Q))
      {| req_ortex_key := None;
         req_filters := Some (count_filters 1000 None) |}
    = (ScanReply true res sts plan, st') ∧
    timeout_risk plan = "low" ∧
    (optimal_size plan ≤ 20)%Z ∧
    timeout_risk plan ≠ "high" ∧
    recommended_min_score plan ≠ 50%Z ∧
    (max_safe_batch_size (performance st') ≤ 20)%Z.
Proof.
  assert (select_tickers (cpython 0)
            (performance (initial_process (λ _, 0%Q)))
            (Some (count_filters 1000 None))
          = Ok (take 14 master_ticker_list)) as Hsel
    by (vm_compute; reflexivity).
  destruct (within_deadline_returns (sample_world 10 [] HttpError)
              (take 14 master_ticker_list) 12) as [pd Hpd];
    [intros t _; simpl; discriminate|].
  destruct (scan_anatomy (cpython 0) (sample_world 10 [] HttpError)
              (initial_process (λ _, 0%Q)) (Some "")
              (Some (count_filters 1000 None)) _ _ Hsel Hpd)
    as (run & _ & Hrun & _).
  assert (∃ plan,
            calculate_optimal_scan_size
              (performance (initial_process (λ _, 0%Q))) 1000 45 = Ok plan ∧
            timeout_risk plan = "low") as (plan & Hplan & Hrisk)
    by (eexists; split; [vm_compute; reflexivity|reflexivity]).
  exists (results (output run)), (stats (output run)), plan, (state_after run).
  pose proof (handle_optimized_scan_Ok (cpython 0)
                (sample_world 10 [] HttpError) (initial_process (λ _, 0%Q))
                {| req_ortex_key := None;
                   req_filters := Some (count_filters 1000 None) |} plan run
                Hplan Hrun) as Hreply.
  split; [exact Hreply|]. split; [exact Hrisk|].
  apply (ceiling_bounds_reported_plan (cpython 0)
           (sample_world 10 [] HttpError) (initial_process (λ _, 0%Q))
           {| req_ortex_key := None;
              req_filters := Some (count_filters 1000 None) |}
           true (results (output run)) (stats (output run)) plan
           (state_after run));
    [cbn; lia | exact Hreply].
Defined.
